(** * pdf2rmd: the conversion pipeline of [main.py]

    A shallow embedding of [main.py] (class [PDFConverter], [get_pdf_input],
    [main]) and the properties of its four-stage pipeline.

    Modelling conventions.
    - A Python [str] is a [string] whose characters are code points below
      256, so that [str.isspace], [str.lower] and the regular expression
      class [\d] are exactly the tables given below.  The status glyphs of
      the printed messages lie beyond that range and appear in message
      literals as written in the source file.
    - The file system is an association list from absolute paths (lists of
      components) to nodes, in the order in which the operating system
      enumerates entries; this order is what an unsorted [glob] returns.
      There are no symbolic links and no [..] resolution.
    - A regular file holds either text or bytes that are no UTF-8.  The
      text of a file is what decoding its bytes as UTF-8 gives, before any
      translation of line ends, and it is a [str] in the sense above.
      Reading a file as text translates its line ends as the universal
      newlines of [io] do; writing is as on a POSIX system, where a line
      feed is written as it is.
    - The external programs ([pdftoppm], [which], [nougat]) are fields of an
      environment record: arbitrary functions on the file system.
    - Printing appends to a log; every [print] call is one log entry. *)

From Stdlib Require Import String Ascii List Bool Arith NArith ZArith Lia.
From Stdlib Require Import DecimalString DecimalN.
Import ListNotations.
Open Scope string_scope.

(* ===================================================================== *)
(** ** Python strings *)

Module PyStr.

Definition chars (s : string) : list ascii := list_ascii_of_string s.
Definition text (l : list ascii) : string := string_of_list_ascii l.

(** [str.isspace] on code points below 256. *)
Definition isspace (c : ascii) : bool :=
  let n := nat_of_ascii c in
  (((9 <=? n) && (n <=? 13)) || ((28 <=? n) && (n <=? 32))
   || (n =? 133) || (n =? 160))%nat.

(** The class [\d] of [re] on code points below 256. *)
Definition isdigit (c : ascii) : bool :=
  let n := nat_of_ascii c in ((48 <=? n) && (n <=? 57))%nat.

(** [str.lower] on one code point below 256. *)
Definition lower_char (c : ascii) : ascii :=
  let n := nat_of_ascii c in
  if (((65 <=? n) && (n <=? 90))
      || ((192 <=? n) && (n <=? 222) && negb (n =? 215)))%nat
  then ascii_of_nat (n + 32) else c.

Definition lower (s : string) : string := text (map lower_char (chars s)).

Fixpoint dropwhile {A} (p : A -> bool) (l : list A) : list A :=
  match l with
  | [] => []
  | x :: r => if p x then dropwhile p r else l
  end.

Fixpoint takewhile {A} (p : A -> bool) (l : list A) : list A :=
  match l with
  | [] => []
  | x :: r => if p x then x :: takewhile p r else []
  end.

Definition lstrip (s : string) : string := text (dropwhile isspace (chars s)).
Definition rstrip (s : string) : string :=
  text (rev (dropwhile isspace (rev (chars s)))).
Definition strip (s : string) : string := lstrip (rstrip s).

Definition startswith (p s : string) : bool := prefix p s.
Definition endswith (p s : string) : bool :=
  prefix (text (rev (chars p))) (text (rev (chars s))).

(** [s * n] *)
Fixpoint times (s : string) (n : nat) : string :=
  match n with O => "" | S k => s ++ times s k end.

(** [sep.join(l)] *)
Definition join (sep : string) (l : list string) : string := String.concat sep l.

(** [str(n)] for a non-negative integer. *)
Definition str_of_N (n : N) : string := NilEmpty.string_of_uint (N.to_uint n).
Definition str_of_nat (n : nat) : string := str_of_N (N.of_nat n).

(** [int(s)] for a string of decimal digits. *)
Definition int_of_digits (s : string) : N :=
  match NilEmpty.uint_of_string s with
  | Some d => N.of_uint d
  | None => 0%N
  end.

(** [s.split(c)] for a one-character separator. *)
Fixpoint split_on (c : ascii) (s : string) : list string :=
  match s with
  | EmptyString => [""]
  | String a r =>
      if Ascii.eqb a c then "" :: split_on c r
      else match split_on c r with
           | [] => [String a ""]
           | w :: ws => String a w :: ws
           end
  end.

(** [sorted(l)] on strings: insertion sort by code points. *)
Fixpoint insert_sorted (x : string) (l : list string) : list string :=
  match l with
  | [] => [x]
  | y :: r => if String.leb x y then x :: l else y :: insert_sorted x r
  end.

Definition sorted (l : list string) : list string :=
  fold_right insert_sorted [] l.

End PyStr.
Import PyStr.

(* ===================================================================== *)
(** ** [textwrap.dedent] *)

Module Textwrap.

Definition is_blank_char (c : ascii) : bool :=
  Ascii.eqb c " "%char || Ascii.eqb c (ascii_of_nat 9).

(** The substitution of [_whitespace_only_re]: a line of blanks and tabs
    only becomes the empty line. *)
Definition normalize_line (l : string) : string :=
  if forallb is_blank_char (chars l) then "" else l.

Definition indent_of (l : string) : string :=
  text (takewhile is_blank_char (chars l)).

Fixpoint common_prefix (a b : list ascii) : list ascii :=
  match a, b with
  | x :: a', y :: b' => if Ascii.eqb x y then x :: common_prefix a' b' else []
  | _, _ => []
  end.

(** The margin: the longest common leading whitespace of the lines that
    hold a character other than blank and tab. *)
Fixpoint margin_of (ls : list string) : option string :=
  match ls with
  | [] => None
  | l :: r =>
      if l =? "" then margin_of r
      else match margin_of r with
           | None => Some (indent_of l)
           | Some m => Some (text (common_prefix (chars (indent_of l)) (chars m)))
           end
  end.

Definition remove_margin (m l : string) : string :=
  if prefix m l then substring (String.length m) (String.length l - String.length m) l else l.

Definition dedent (t : string) : string :=
  let ls := map normalize_line (split_on (ascii_of_nat 10) t) in
  match margin_of ls with
  | None => join (String (ascii_of_nat 10) "") ls
  | Some m => join (String (ascii_of_nat 10) "") (map (remove_margin m) ls)
  end.

End Textwrap.

(* ===================================================================== *)
(** ** [pathlib] paths *)

Module Pathlib.

Record Path := mkPath { is_absolute : bool; parts : list string }.

Definition parse_parts (s : string) : list string :=
  filter (fun c => negb (c =? "") && negb (c =? "."))
         (split_on "/"%char s).

(** [Path(s)] *)
Definition Path_of (s : string) : Path :=
  mkPath (startswith "/" s) (parse_parts s).

(** The path of an entry [n] of the directory [p], as [glob] builds it. *)
Definition child (p : Path) (n : string) : Path :=
  mkPath (is_absolute p) (parts p ++ [n])%list.

(** [p / s] for a string [s] that is empty or one path component, which is
    all this program ever joins. *)
Definition joinpath (p : Path) (s : string) : Path :=
  if (s =? "") || (s =? ".") then p else child p s.

(** [p / q] for two paths. *)
Definition joinpaths (p q : Path) : Path :=
  if is_absolute q then q else mkPath (is_absolute p) (parts p ++ parts q)%list.

Definition name (p : Path) : string := last (parts p) "".

(** [l.rfind(c)] *)
Fixpoint rfind (c : ascii) (l : list ascii) : option nat :=
  match l with
  | [] => None
  | a :: r =>
      match rfind c r with
      | Some i => Some (S i)
      | None => if Ascii.eqb a c then Some 0 else None
      end
  end.

(** [p.suffix]: from the last dot of the name, unless that dot is the first
    or the last character. *)
Definition suffix (p : Path) : string :=
  let n := name p in
  match rfind "."%char (chars n) with
  | Some i =>
      if ((0 <? i) && (i <? String.length n - 1))%nat
      then substring i (String.length n - i) n else ""
  | None => ""
  end.

(** [p.stem] *)
Definition stem (p : Path) : string :=
  let n := name p in
  match rfind "."%char (chars n) with
  | Some i =>
      if ((0 <? i) && (i <? String.length n - 1))%nat
      then substring 0 i n else n
  | None => n
  end.

(** [str(p)] *)
Definition str (p : Path) : string :=
  if is_absolute p then "/" ++ join "/" (parts p)
  else match parts p with [] => "." | _ => join "/" (parts p) end.

End Pathlib.
Import Pathlib.

(* ===================================================================== *)
(** ** The file system *)

Module FileSystem.

Record Meta := mkMeta { st_mode : N; st_mtime : Z }.

(** What a regular file holds: [Text s] when its bytes are the UTF-8
    encoding of [s], [Bytes b] when its bytes [b] are no UTF-8. *)
Inductive Data :=
| Text (s : string)
| Bytes (b : string).

Inductive Node :=
| File (data : Data) (meta : Meta)
| Dir.

Definition Key := list string.
Definition FS := list (Key * Node).

Fixpoint key_eqb (a b : Key) : bool :=
  match a, b with
  | [], [] => true
  | x :: a', y :: b' => (x =? y) && key_eqb a' b'
  | _, _ => false
  end.

Fixpoint find_key (f : FS) (k : Key) : option Node :=
  match f with
  | [] => None
  | (k', n) :: r => if key_eqb k' k then Some n else find_key r k
  end.

(** The root always exists. *)
Definition lookup (f : FS) (k : Key) : option Node :=
  match k with
  | [] => Some Dir
  | _ => find_key f k
  end.

Definition parent (k : Key) : Key := removelast k.

(** [child_name d k = Some n] when [k] is the entry [n] of directory [d]. *)
Fixpoint child_name (d k : Key) : option string :=
  match d, k with
  | [], [n] => Some n
  | x :: d', y :: k' => if x =? y then child_name d' k' else None
  | _, _ => None
  end.

(** The entries of [d] in enumeration order. *)
Definition listdir (f : FS) (d : Key) : list string :=
  flat_map (fun e => match child_name d (fst e) with
                     | Some n => [n]
                     | None => []
                     end) f.

Fixpoint strip_prefix (p k : Key) : option Key :=
  match p, k with
  | [], _ => Some k
  | x :: p', y :: k' => if x =? y then strip_prefix p' k' else None
  | _ :: _, [] => None
  end.

Definition has_children (f : FS) (k : Key) : bool :=
  existsb (fun e => match strip_prefix k (fst e) with
                    | Some (_ :: _) => true
                    | _ => false
                    end) f.

Definition remove_key (f : FS) (k : Key) : FS :=
  filter (fun e => negb (key_eqb (fst e) k)) f.

Definition rekey (src dst k : Key) : Key :=
  match strip_prefix src k with
  | Some rest => (dst ++ rest)%list
  | None => k
  end.

(** [src] takes the place of [dst], with everything below it. *)
Definition move (f : FS) (src dst : Key) : FS :=
  map (fun e => (rekey src dst (fst e), snd e)) (remove_key f dst).

(** Bind [k] to [n]: in place when [k] is there, as a new last entry
    otherwise. *)
Definition put (f : FS) (k : Key) (n : Node) : FS :=
  match find_key f k with
  | Some _ => map (fun e => if key_eqb (fst e) k then (k, n) else e) f
  | None => (f ++ [(k, n)])%list
  end.

(** Append [s] to the text of the file at [k]. *)
Definition append_data (f : FS) (k : Key) (s : string) : FS :=
  map (fun e => if key_eqb (fst e) k
                then match snd e with
                     | File (Text d) m => (fst e, File (Text (d ++ s)) m)
                     | _ => e
                     end
                else e) f.

End FileSystem.
Import FileSystem.

(* ===================================================================== *)
(** ** Exceptions, the world and the monad of effects *)

Inductive ExnClass :=
| FileNotFoundError
| IsADirectoryError
| NotADirectoryError
| FileExistsError
| SameFileError
| OSError
| EOFError
| UnicodeDecodeError.

(** An exception: its class and [str(e)]. *)
Record Exn := mkExn { exn_class : ExnClass; exn_str : string }.

Definition is_FileNotFoundError (e : Exn) : bool :=
  match exn_class e with FileNotFoundError => true | _ => false end.

(** What [subprocess.run] returns. *)
Record CompletedProcess := mkCompleted { returncode : Z; stderr : string }.

(** An external program: from its command line and the file system to its
    result and the file system it leaves. *)
Definition Tool := list string -> FS -> CompletedProcess * FS.

Record Env := mkEnv {
  cwd : Key;                          (* [Path.cwd()] *)
  argv : list string;                 (* [sys.argv] *)
  stdin : option string;              (* the line [input] reads, if any *)
  pdftoppm : option Tool;             (* [None]: no such executable *)
  which : option (string -> Z);       (* exit code of [which name] *)
  nougat : option Tool;
  stamp : option Meta -> Meta;        (* metadata of a file after a write *)
  size_mb : Node -> string;           (* [st_size / 1024 / 1024] as [.1f] *)
  decode_error : string -> string     (* [str(e)] of the [UnicodeDecodeError]
                                         that decoding these bytes raises *)
}.

Record World := mkWorld { fs : FS; out : list string }.

Inductive Result (A : Type) :=
| Ok (a : A)
| Raised (e : Exn).
Arguments Ok {A} a.
Arguments Raised {A} e.

Definition M (A : Type) : Type := World -> Result A * World.

Definition ret {A} (a : A) : M A := fun w => (Ok a, w).

Definition bind {A B} (m : M A) (k : A -> M B) : M B :=
  fun w => match m w with
           | (Ok a, w') => k a w'
           | (Raised e, w') => (Raised e, w')
           end.

Definition raise {A} (c : ExnClass) (s : string) : M A :=
  fun w => (Raised (mkExn c s), w).

(** [try: m  except Exception as e: h e]; effects of [m] before the
    exception stay. *)
Definition try_except {A} (m : M A) (h : Exn -> M A) : M A :=
  fun w => match m w with
           | (Ok a, w') => (Ok a, w')
           | (Raised e, w') => h e w'
           end.

Declare Scope py_scope.
Delimit Scope py_scope with py.
Notation "x <- m ;; k" := (bind m (fun x => k))
  (at level 61, m at next level, right associativity) : py_scope.
Notation "m ;; k" := (bind m (fun _ => k))
  (at level 61, right associativity) : py_scope.
Open Scope py_scope.

Definition print (s : string) : M unit :=
  fun w => (Ok tt, mkWorld (fs w) (out w ++ [s])%list).

Definition get_fs : M FS := fun w => (Ok (fs w), w).
Definition set_fs (f : FS) : M unit := fun w => (Ok tt, mkWorld f (out w)).

(* ===================================================================== *)
(** ** File operations of the Python library *)

Section Os.
Variable env : Env.

(** The absolute path the operating system resolves [p] to. *)
Definition key (p : Path) : Key :=
  if is_absolute p then parts p else (cwd env ++ parts p)%list.

Definition quoted (p : Path) : string := "'" ++ str p ++ "'".

(** [p.exists()] *)
Definition path_exists (p : Path) : M bool :=
  f <- get_fs ;;
  ret (match lookup f (key p) with Some _ => true | None => false end).

(** Create the directories [done/n1], [done/n1/n2], ... that are missing.
    A regular file on the way stops the walk: [os.mkdir] fails with
    [EEXIST] when the file is at the path to create, with [ENOTDIR] when it
    is at a path above it. *)
Fixpoint mkdirs (f : FS) (done : Key) (todo : list string) : FS + ExnClass :=
  match todo with
  | [] => inl f
  | n :: r =>
      let k := (done ++ [n])%list in
      match lookup f k with
      | None => mkdirs (f ++ [(k, Dir)])%list k r
      | Some Dir => mkdirs f k r
      | Some (File _ _) =>
          inr (match r with
               | [] => FileExistsError
               | _ :: _ => NotADirectoryError
               end)
      end
  end.

(** [str(e)] of the [OSError] that [os.mkdir(p)] raises. *)
Definition mkdir_error (c : ExnClass) (p : Path) : string :=
  match c with
  | NotADirectoryError => "[Errno 20] Not a directory: " ++ quoted p
  | _ => "[Errno 17] File exists: " ++ quoted p
  end.

(** [p.mkdir(parents=True, exist_ok=True)] *)
Definition mkdir (p : Path) : M unit :=
  f <- get_fs ;;
  match mkdirs f [] (key p) with
  | inl f' => set_fs f'
  | inr c => raise c (mkdir_error c p)
  end.

(** The checks of opening [p] for writing. *)
Definition check_writable (f : FS) (p : Path) : M unit :=
  match lookup f (parent (key p)) with
  | None => raise FileNotFoundError
              ("[Errno 2] No such file or directory: " ++ quoted p)
  | Some (File _ _) => raise NotADirectoryError
              ("[Errno 20] Not a directory: " ++ quoted p)
  | Some Dir =>
      match lookup f (key p) with
      | Some Dir => raise IsADirectoryError
                      ("[Errno 21] Is a directory: " ++ quoted p)
      | _ => ret tt
      end
  end.

Definition old_meta (f : FS) (k : Key) : option Meta :=
  match lookup f k with
  | Some (File _ m) => Some m
  | _ => None
  end.

(** [open(p, 'w')]: the file is created or truncated. *)
Definition open_w (p : Path) : M unit :=
  f <- get_fs ;;
  check_writable f p ;;
  set_fs (put f (key p) (File (Text "") (stamp env (old_meta f (key p))))).

(** [w.write(s)] on the file opened at [p]. *)
Definition fwrite (p : Path) (s : string) : M unit :=
  f <- get_fs ;; set_fs (append_data f (key p) s).

(** What reading in text mode makes of the line ends: [CR LF] and a lone
    [CR] become [LF]. *)
Fixpoint universal_newlines (s : string) : string :=
  match s with
  | EmptyString => EmptyString
  | String a r =>
      if Ascii.eqb a (ascii_of_nat 13)
      then String (ascii_of_nat 10)
             match r with
             | String b r' =>
                 if Ascii.eqb b (ascii_of_nat 10)
                 then universal_newlines r' else universal_newlines r
             | EmptyString => EmptyString
             end
      else String a (universal_newlines r)
  end.

(** [p.read_text(encoding='utf-8')] *)
Definition read_text (p : Path) : M string :=
  f <- get_fs ;;
  match lookup f (key p) with
  | Some (File (Text s) _) => ret (universal_newlines s)
  | Some (File (Bytes b) _) => raise UnicodeDecodeError (decode_error env b)
  | Some Dir => raise IsADirectoryError
                  ("[Errno 21] Is a directory: " ++ quoted p)
  | None => raise FileNotFoundError
              ("[Errno 2] No such file or directory: " ++ quoted p)
  end.

(** [shutil.copy2(src, dst)]: data and metadata of [src] go to [dst], or to
    the entry of [dst] named like [src] when [dst] is a directory. *)
Definition copy2 (src dst : Path) : M unit :=
  f <- get_fs ;;
  let target :=
    match lookup f (key dst) with
    | Some Dir => child dst (name src)
    | _ => dst
    end in
  if key_eqb (key src) (key target)
  then raise SameFileError
         (quoted src ++ " and " ++ quoted target ++ " are the same file")
  else
    match lookup f (key src) with
    | None => raise FileNotFoundError
                ("[Errno 2] No such file or directory: " ++ quoted src)
    | Some Dir => raise IsADirectoryError
                    ("[Errno 21] Is a directory: " ++ quoted src)
    | Some (File d m) =>
        check_writable f target ;;
        set_fs (put f (key target) (File d m))
    end.

(** [src.rename(dst)] *)
Definition rename (src dst : Path) : M unit :=
  f <- get_fs ;;
  let err c s := raise c (s ++ quoted src ++ " -> " ++ quoted dst) in
  let go := set_fs (move f (key src) (key dst)) in
  match lookup f (key src), lookup f (key dst) with
  | None, _ => err FileNotFoundError "[Errno 2] No such file or directory: "
  | Some (File _ _), Some Dir => err IsADirectoryError "[Errno 21] Is a directory: "
  | Some (File _ _), _ => go
  | Some Dir, Some (File _ _) => err NotADirectoryError "[Errno 20] Not a directory: "
  | Some Dir, Some Dir =>
      if has_children f (key dst)
      then err OSError "[Errno 39] Directory not empty: "
      else go
  | Some Dir, None => go
  end.

(** [fnmatch] for a pattern [pre*suf] without further wildcards. *)
Definition fnmatch_star (pre suf n : string) : bool :=
  startswith pre n && endswith suf n
  && (String.length pre + String.length suf <=? String.length n)%nat.

(** [d.glob(pre*suf)]: the names of the matching entries of [d], in
    enumeration order; the path of each is [child d name]. *)
Definition glob (d : Path) (pre suf : string) : M (list string) :=
  f <- get_fs ;;
  ret (filter (fnmatch_star pre suf) (listdir f (key d))).

(** [subprocess.run(cmd, capture_output=True, text=True)] *)
Definition subprocess_run (t : option Tool) (cmd : list string)
  : M CompletedProcess :=
  match t with
  | None => raise FileNotFoundError
              ("[Errno 2] No such file or directory: '"
               ++ hd "" cmd ++ "'")
  | Some run =>
      f <- get_fs ;;
      let r := run cmd f in
      set_fs (snd r) ;; ret (fst r)
  end.

End Os.

(* ===================================================================== *)
(** ** The program *)

Definition NL : string := String (ascii_of_nat 10) "".
Definition DQ : string := String (ascii_of_nat 34) "".

(** [re.search(r'page-(\d+)\.png', s)]: the digits of the leftmost match. *)
Module Re.

Fixpoint strip_str_prefix (p s : string) : option string :=
  match p, s with
  | EmptyString, _ => Some s
  | String a p', String b s' =>
      if Ascii.eqb a b then strip_str_prefix p' s' else None
  | String _ _, EmptyString => None
  end.

(** A match that starts at the first character of [s]. *)
Definition match_page_at (s : string) : option string :=
  match strip_str_prefix "page-" s with
  | Some r =>
      let ds := takewhile isdigit (chars r) in
      let rest := dropwhile isdigit (chars r) in
      match ds with
      | [] => None
      | _ :: _ => if prefix ".png" (text rest) then Some (text ds) else None
      end
  | None => None
  end.

Fixpoint search_page (s : string) : option string :=
  match match_page_at s with
  | Some ds => Some ds
  | None =>
      match s with
      | EmptyString => None
      | String _ r => search_page r
      end
  end.

End Re.

(** The object [PDFConverter.__init__] builds. *)
Record Converter := mkConverter {
  pdf_path : Path;
  pdf_name : string;
  assets_in : Path;
  assets_out : Path;
  png_dir : Path;
  nougat_out : Path;
  copied_pdf : Path;
  rmd_output : Path
}.

Definition converter_of (p : Path) : Converter :=
  let a_in := Path_of "assets/in" in
  let a_out := Path_of "assets/out" in
  {| pdf_path := p;
     pdf_name := stem p;
     assets_in := a_in;
     assets_out := a_out;
     png_dir := joinpath a_out "png";
     nougat_out := joinpath a_out "nougat";
     copied_pdf := joinpath a_in (name p);
     rmd_output := joinpath a_out (stem p ++ ".Rmd") |}.

(** The f-string handed to [dedent] in [_generate_base_rmd]. *)
Definition header_template (title : string) : string :=
  let ind := times " " 16 in
  NL ++ join NL (map (fun l => ind ++ l)
    [ "---";
      "title: " ++ DQ ++ title ++ DQ;
      "author: " ++ DQ ++ "Generated by pdf2rmd" ++ DQ;
      "date: " ++ DQ ++ "`r Sys.Date()`" ++ DQ;
      "output:";
      "  pdf_document:";
      "    latex_engine: lualatex";
      "  html_document:";
      "    df_print: paged";
      "header-includes:";
      "  - \usepackage{fontspec}";
      "  - \setmainfont{DejaVu Serif}";
      "  - \setsansfont{DejaVu Sans}";
      "  - \setmonofont{DejaVu Sans Mono}";
      "---";
      "";
      "```{r setup, include=FALSE}";
      "knitr::opts_chunk$set(echo = TRUE, message = FALSE, warning = FALSE, fig.align = "
        ++ DQ ++ "center" ++ DQ ++ ")";
      "library(knitr)";
      "library(magrittr)";
      "```";
      "";
      "" ]).

(** What Stage D writes first. *)
Definition rmd_header (c : Converter) : string :=
  lstrip (Textwrap.dedent (header_template (pdf_name c))).

Definition transcript_marker : string :=
  NL ++ "<!-- Nougat OCR Transcript -->" ++ NL ++ NL.

Definition placeholder_section (pages : nat) : string :=
  (NL ++ "<!-- Content Placeholder -->" ++ NL ++ NL)
  ++ ("## Document Pages" ++ NL ++ NL)
  ++ ("_OCR transcript not available. Document has " ++ str_of_nat pages
      ++ " pages._" ++ NL ++ NL).

Section Program.
Variable env : Env.

(** [PDFConverter(pdf_path)] *)
Definition PDFConverter (p : Path) : M Converter :=
  let c := converter_of p in
  mkdir env (assets_in c) ;;
  mkdir env (assets_out c) ;;
  mkdir env (png_dir c) ;;
  mkdir env (nougat_out c) ;;
  ret c.

Section Stages.
Variable c : Converter.

Definition pdftoppm_cmd : list string :=
  [ "pdftoppm"; "-png"; "-r"; "150";
    str (copied_pdf c); str (joinpath (png_dir c) "page") ].

Definition nougat_cmd : list string :=
  [ "nougat"; str (copied_pdf c); "-o"; str (nougat_out c); "--no-skipping" ].

(** [_copy_pdf] *)
Definition _copy_pdf : M bool :=
  print (NL ++ "[1/4] Copying PDF to " ++ str (assets_in c) ++ "/...") ;;
  try_except
    ( there <- path_exists env (copied_pdf c) ;;
      (if there : bool
       then print ("  ℹ PDF already exists at " ++ str (copied_pdf c))
       else copy2 env (pdf_path c) (copied_pdf c) ;;
            print ("  ✓ Copied " ++ name (pdf_path c))) ;;
      ret true )
    (fun e => print ("  ✗ Error copying PDF: " ++ exn_str e) ;; ret false).

(** The body of the renaming loop of [_pdf_to_png] for one file. *)
Definition rename_page (page_file : string) : M unit :=
  match Re.search_page page_file with
  | Some ds =>
      let page_num := int_of_digits ds in
      let new_name := joinpath (png_dir c) (str_of_N page_num ++ ".png") in
      rename env (child (png_dir c) page_file) new_name
  | None => ret tt
  end.

Fixpoint rename_pages (page_files : list string) : M unit :=
  match page_files with
  | [] => ret tt
  | page_file :: rest => rename_page page_file ;; rename_pages rest
  end.

(** [_pdf_to_png] *)
Definition _pdf_to_png : M bool :=
  print (NL ++ "[2/4] Converting PDF to PNG sequence in "
         ++ str (png_dir c) ++ "/...") ;;
  try_except
    ( print ("  Running: " ++ join " " pdftoppm_cmd) ;;
      result <- subprocess_run (pdftoppm env) pdftoppm_cmd ;;
      if negb (returncode result =? 0)%Z
      then print ("  ✗ pdftoppm failed: " ++ stderr result) ;; ret false
      else
        page_files <- glob env (png_dir c) "page-" ".png" ;;
        rename_pages (sorted page_files) ;;
        png_files <- glob env (png_dir c) "" ".png" ;;
        print ("  ✓ Created " ++ str_of_nat (List.length (sorted png_files))
               ++ " PNG images") ;;
        ret true )
    (fun e =>
       if is_FileNotFoundError e
       then print "  ✗ pdftoppm not found. Please install poppler-utils:" ;;
            print "    sudo apt-get install poppler-utils" ;;
            ret false
       else print ("  ✗ Error converting PDF to PNG: " ++ exn_str e) ;;
            ret false).

(** [subprocess.run(['which', 'nougat'], capture_output=True)] *)
Definition run_which : M Z :=
  match which env with
  | None => raise FileNotFoundError
              "[Errno 2] No such file or directory: 'which'"
  | Some w => ret (w "nougat")
  end.

(** [_run_nougat] *)
Definition _run_nougat : M bool :=
  print (NL ++ "[3/4] Running Nougat OCR...") ;;
  try_except
    ( nougat_check <- run_which ;;
      if negb (nougat_check =? 0)%Z
      then print "  ✗ Nougat not found. Please install:" ;;
           print "    pip install nougat-ocr" ;;
           ret false
      else
        print ("  Running: " ++ join " " nougat_cmd) ;;
        result <- subprocess_run (nougat env) nougat_cmd ;;
        (if negb (returncode result =? 0)%Z
         then print ("  ⚠ Nougat encountered issues: " ++ stderr result) ;;
              print "  Continuing with available output..."
         else ret tt) ;;
        mmd_files <- glob env (nougat_out c) "" ".mmd" ;;
        match mmd_files with
        | first :: _ =>
            print ("  ✓ Nougat completed: " ++ first) ;; ret true
        | [] =>
            print "  ⚠ No Nougat output found, will create placeholder" ;;
            ret true
        end )
    (fun e =>
       print ("  ⚠ Error running Nougat: " ++ exn_str e) ;;
       print "  Continuing without OCR..." ;;
       ret true).

(** [_generate_base_rmd] *)
Definition _generate_base_rmd : M bool :=
  print (NL ++ "[4/4] Generating R Markdown file...") ;;
  try_except
    ( open_w env (rmd_output c) ;;
      fwrite env (rmd_output c) (rmd_header c) ;;
      mmd_files <- glob env (nougat_out c) "" ".mmd" ;;
      match mmd_files with
      | first :: _ =>
          transcript <- read_text env (child (nougat_out c) first) ;;
          fwrite env (rmd_output c) transcript_marker ;;
          fwrite env (rmd_output c) (rstrip transcript ++ NL)
      | [] =>
          png_files <- glob env (png_dir c) "" ".png" ;;
          let n := List.length (sorted png_files) in
          fwrite env (rmd_output c)
                 (NL ++ "<!-- Content Placeholder -->" ++ NL ++ NL) ;;
          fwrite env (rmd_output c) ("## Document Pages" ++ NL ++ NL) ;;
          fwrite env (rmd_output c)
                 ("_OCR transcript not available. Document has "
                  ++ str_of_nat n ++ " pages._" ++ NL ++ NL)
      end ;;
      print ("  ✓ Created " ++ str (rmd_output c)) ;;
      ret true )
    (fun e => print ("  ✗ Error generating Rmd: " ++ exn_str e) ;; ret false).

(** [convert] *)
Definition convert : M Z :=
  print (times "=" 70) ;;
  print "PDF to R Markdown Converter" ;;
  print (times "=" 70) ;;
  ok <- _copy_pdf ;;
  if negb ok then ret 1%Z else
  ok <- _pdf_to_png ;;
  if negb ok then ret 1%Z else
  ok <- _run_nougat ;;
  if negb ok then ret 1%Z else
  ok <- _generate_base_rmd ;;
  if negb ok then ret 1%Z else
  print (NL ++ times "=" 70) ;;
  print "✓ Conversion complete!" ;;
  print ("  Output: " ++ str (rmd_output c)) ;;
  print ("  PNG pages: " ++ str (png_dir c) ++ "/") ;;
  print (NL ++ "Next steps:") ;;
  print ("  1. Review " ++ str (rmd_output c)) ;;
  print ("  2. Render: Rscript -e 'rmarkdown::render(" ++ DQ
         ++ str (rmd_output c) ++ DQ ++ ")'") ;;
  print (times "=" 70) ;;
  ret 0%Z.

End Stages.

(** [input(prompt)] *)
Definition input (prompt : string) : M string :=
  fun w =>
    let w' := mkWorld (fs w) (out w ++ [prompt])%list in
    match stdin env with
    | Some line => (Ok line, w')
    | None => (Raised (mkExn EOFError "EOF when reading a line"), w')
    end.

(** The path after [if not pdf_path.is_absolute(): ...]. *)
Definition resolve (p : Path) : Path :=
  if negb (is_absolute p) then joinpaths (mkPath true (cwd env)) p else p.

(** [get_pdf_input] *)
Definition get_pdf_input : M (option Path) :=
  print (NL ++ "PDF to R Markdown Converter") ;;
  print (times "-" 40) ;;
  pdf_path <- match argv env with
              | _ :: a :: _ => ret (Path_of a)
              | _ => pdf_input <- input "Enter path to PDF file: " ;;
                     ret (Path_of (strip pdf_input))
              end ;;
  let pdf_path := resolve pdf_path in
  there <- path_exists env pdf_path ;;
  if negb there
  then print ("Error: File not found: " ++ str pdf_path) ;; ret None
  else if negb (lower (suffix pdf_path) =? ".pdf")
  then print ("Error: File is not a PDF: " ++ str pdf_path) ;; ret None
  else
    f <- get_fs ;;
    print ("Input PDF: " ++ str pdf_path) ;;
    print ("Size: "
           ++ match lookup f (key env pdf_path) with
              | Some n => size_mb env n
              | None => ""
              end ++ " MB") ;;
    ret (Some pdf_path).

(** [main] *)
Definition main : M Z :=
  pdf_path <- get_pdf_input ;;
  match pdf_path with
  | None => ret 1%Z
  | Some p =>
      converter <- PDFConverter p ;;
      convert converter
  end.

End Program.

(* ===================================================================== *)
(** ** Vocabulary of the specification *)

(** The path given on the command line or, without one, typed at the
    prompt. *)
Definition supplied_path (env : Env) : option Path :=
  match argv env with
  | _ :: a :: _ => Some (Path_of a)
  | _ => option_map (fun l => Path_of (strip l)) (stdin env)
  end.

(** What [get_pdf_input] prints before it validates. *)
Definition greeting (env : Env) : list string :=
  [ NL ++ "PDF to R Markdown Converter"; times "-" 40 ]
  ++ match argv env with
     | _ :: _ :: _ => []
     | _ => [ "Enter path to PDF file: " ]
     end.

(** The three lines [convert] prints before Stage A. *)
Definition convert_banner : list string :=
  [ times "=" 70; "PDF to R Markdown Converter"; times "=" 70 ].

(** The page number of a name in the rasterizer's native form: the name
    matches [page-*.png] and the regular expression finds a number. *)
Definition native_page (n : string) : option N :=
  if fnmatch_star "page-" ".png" n
  then option_map int_of_digits (Re.search_page n)
  else None.

(** The canonical name of page [k]. *)
Definition canonical_name (k : N) : string := str_of_N k ++ ".png".

Definition is_canonical (n : string) : Prop := exists k, n = canonical_name k.

Definition is_canonicalb (n : string) : bool :=
  match takewhile isdigit (chars n) with
  | [] => false
  | ds => n =? canonical_name (int_of_digits (text ds))
  end.

(** The names of directory [d] that match [*suf]. *)
Definition entries_with (env : Env) (f : FS) (d : Path) (suf : string)
  : list string :=
  filter (fnmatch_star "" suf) (listdir f (key env d)).

(** The file system the rasterizer leaves when started on [f]. *)
Definition rasterized (env : Env) (c : Converter) (f : FS) : FS :=
  match pdftoppm env with
  | Some t => snd (t (pdftoppm_cmd c) f)
  | None => f
  end.

(** The rasterizer cannot be started or exits with a non-zero code. *)
Definition rasterizer_fails (env : Env) (c : Converter) (f : FS) : Prop :=
  match pdftoppm env with
  | Some t => returncode (fst (t (pdftoppm_cmd c) f)) <> 0%Z
  | None => True
  end.

(** What Stage B prints when the rasterizer fails. *)
Definition rasterizer_report (env : Env) (c : Converter) (f : FS)
  : list string :=
  match pdftoppm env with
  | Some t =>
      [ "  ✗ pdftoppm failed: " ++ stderr (fst (t (pdftoppm_cmd c) f)) ]
  | None =>
      [ "  ✗ pdftoppm not found. Please install poppler-utils:";
        "    sudo apt-get install poppler-utils" ]
  end.

(** The OCR executable is reported as not resolvable. *)
Definition nougat_unresolved (env : Env) : Prop :=
  match which env with
  | Some look => look "nougat" <> 0%Z
  | None => False
  end.

(** The output path can be opened for writing. *)
Definition output_writable (env : Env) (c : Converter) (f : FS) : Prop :=
  lookup f (key env (assets_out c)) = Some Dir
  /\ lookup f (key env (rmd_output c)) <> Some Dir.

(** The text of the output document, if it is a file that holds text. *)
Definition output_document (env : Env) (c : Converter) (f : FS)
  : option string :=
  match lookup f (key env (rmd_output c)) with
  | Some (File (Text d) _) => Some d
  | _ => None
  end.

(** What [get_pdf_input] decides, once a path is supplied. *)
Definition validated (env : Env) (f : FS) (p : Path)
  : option Path * list string :=
  let q := resolve env p in
  match lookup f (key env q) with
  | None => (None, [ "Error: File not found: " ++ str q ])
  | Some nd =>
      if negb (lower (suffix q) =? ".pdf")
      then (None, [ "Error: File is not a PDF: " ++ str q ])
      else (Some q, [ "Input PDF: " ++ str q;
                      "Size: " ++ size_mb env nd ++ " MB" ])
  end.

(** What Stage B prints before it starts the rasterizer. *)
Definition stage_B_intro (c : Converter) : list string :=
  [ NL ++ "[2/4] Converting PDF to PNG sequence in " ++ str (png_dir c) ++ "/...";
    "  Running: " ++ join " " (pdftoppm_cmd c) ].

(** What Stage C prints when the OCR executable is not resolvable. *)
Definition unresolved_report : list string :=
  [ NL ++ "[3/4] Running Nougat OCR...";
    "  ✗ Nougat not found. Please install:";
    "    pip install nougat-ocr" ].

(** The summary [convert] prints after Stage D. *)
Definition summary (c : Converter) : list string :=
  [ NL ++ times "=" 70;
    "✓ Conversion complete!";
    "  Output: " ++ str (rmd_output c);
    "  PNG pages: " ++ str (png_dir c) ++ "/";
    NL ++ "Next steps:";
    "  1. Review " ++ str (rmd_output c);
    "  2. Render: Rscript -e 'rmarkdown::render(" ++ DQ
      ++ str (rmd_output c) ++ DQ ++ ")'";
    times "=" 70 ].

(** The same converter for another supplied path. *)
Definition with_pdf_path (c : Converter) (q : Path) : Converter :=
  {| pdf_path := q;
     pdf_name := pdf_name c;
     assets_in := assets_in c;
     assets_out := assets_out c;
     png_dir := png_dir c;
     nougat_out := nougat_out c;
     copied_pdf := copied_pdf c;
     rmd_output := rmd_output c |}.

(** The node Stage A copies, when there is no staged copy and the copy can
    be made: the source is a file other than the destination and the
    staging directory is a directory. *)
Definition copyable (env : Env) (c : Converter) (f : FS) : option Node :=
  if key_eqb (key env (pdf_path c)) (key env (copied_pdf c)) then None
  else match lookup f (key env (pdf_path c)),
             lookup f (parent (key env (copied_pdf c))) with
       | Some (File d m), Some Dir => Some (File d m)
       | _, _ => None
       end.

(** The file system once Stage D has opened the output document and
    written the header. *)
Definition with_header (env : Env) (c : Converter) (f : FS) : FS :=
  let rmd := key env (rmd_output c) in
  append_data (put f rmd (File (Text "") (stamp env (old_meta f rmd))))
              rmd (rmd_header c).

(** The name a page file is renamed to, if the expression matches. *)
Definition target (m : string) : option string :=
  option_map (fun ds => canonical_name (int_of_digits ds)) (Re.search_page m).

(** What Stage B prints last when it succeeds on [n] images. *)
Definition created_report (n : nat) : string :=
  "  ✓ Created " ++ str_of_nat n ++ " PNG images".

(** The node at [k] is a regular file. *)
Definition is_file (f : FS) (k : Key) : bool :=
  match lookup f k with
  | Some (File _ _) => true
  | _ => false
  end.

(** The directories [PDFConverter.__init__] creates. *)
Definition tree_dirs (c : Converter) : list Path :=
  [ assets_in c; assets_out c; png_dir c; nougat_out c ].

(** Some path on the way to [d] is a regular file. *)
Definition blocked (env : Env) (f : FS) (d : Path) : bool :=
  existsb (fun i => is_file f (firstn i (key env d)))
          (seq 1 (List.length (key env d))).

(** Some path above [d] is a regular file. *)
Definition blocked_above (env : Env) (f : FS) (d : Path) : bool :=
  existsb (fun i => is_file f (firstn i (key env d)))
          (seq 1 (List.length (key env d) - 1)).

(** The class of the exception [d.mkdir] raises when [d] is blocked. *)
Definition blocked_class (env : Env) (f : FS) (d : Path) : ExnClass :=
  if blocked_above env f d then NotADirectoryError else FileExistsError.

(** The key is not below the directory [d]. *)
Definition outside (d k : Key) : Prop :=
  forall n rest, k <> (d ++ n :: rest)%list.

(** No carriage return in the text. *)
Definition no_cr (s : string) : bool :=
  forallb (fun a => negb (Ascii.eqb a (ascii_of_nat 13))) (chars s).

(** [d.mkdir(parents=True, exist_ok=True)] for each [d] of [ds] in turn. *)
Fixpoint mkdir_all (env : Env) (ds : list Path) : M unit :=
  match ds with
  | [] => ret tt
  | d :: r => mkdir env d ;; mkdir_all env r
  end.

(** The file system Stage C leaves when started on [f]: the OCR tool runs
    only when the lookup finds it. *)
Definition transcribed (env : Env) (c : Converter) (f : FS) : FS :=
  match which env with
  | Some look =>
      if (look "nougat" =? 0)%Z
      then match nougat env with
           | Some t => snd (t (nougat_cmd c) f)
           | None => f
           end
      else f
  | None => f
  end.

(** The string holds no line feed. *)
Definition no_newline (s : string) : bool :=
  forallb (fun a => negb (Ascii.eqb a (ascii_of_nat 10))) (chars s).

(** The lines of the header, without the margin of the template. *)
Definition header_lines (title : string) : list string :=
  [ "---";
    "title: " ++ DQ ++ title ++ DQ;
    "author: " ++ DQ ++ "Generated by pdf2rmd" ++ DQ;
    "date: " ++ DQ ++ "`r Sys.Date()`" ++ DQ;
    "output:";
    "  pdf_document:";
    "    latex_engine: lualatex";
    "  html_document:";
    "    df_print: paged";
    "header-includes:";
    "  - \usepackage{fontspec}";
    "  - \setmainfont{DejaVu Serif}";
    "  - \setsansfont{DejaVu Sans}";
    "  - \setmonofont{DejaVu Sans Mono}";
    "---";
    "";
    "```{r setup, include=FALSE}";
    "knitr::opts_chunk$set(echo = TRUE, message = FALSE, warning = FALSE, fig.align = "
      ++ DQ ++ "center" ++ DQ ++ ")";
    "library(knitr)";
    "library(magrittr)";
    "```";
    "";
    "" ].

(** The header as a text. *)
Definition header_text (title : string) : string :=
  join NL (header_lines title).

(** A line of the template once blank lines are emptied: the margin [m]
    followed by the line, or nothing for an empty line. *)
Definition indented (m l : string) : string :=
  if l =? "" then "" else m ++ l.

(** ** Sample runs *)

Module Sample.

Definition meta0 : Meta := mkMeta 420 0.

Definition work : Key := [ "work" ].

(** A working directory that holds [report.pdf] and nothing else. *)
Definition fs_fresh : FS :=
  [ (work, Dir);
    ((work ++ [ "report.pdf" ])%list, File (Text "%PDF-1.7") meta0) ].

Definition pages_dir : Key := (work ++ [ "assets"; "out"; "png" ])%list.
Definition ocr_dir : Key := (work ++ [ "assets"; "out"; "nougat" ])%list.

(** A rasterizer that writes the given pages and exits with 0. *)
Definition raster_writes (names : list string) : Tool :=
  fun _ f =>
    (mkCompleted 0 "",
     fold_left (fun g n => put g (pages_dir ++ [ n ])%list
                               (File (Text ("image " ++ n)) meta0)) names f).

(** A rasterizer that fails. *)
Definition raster_broken : Tool :=
  fun _ f => (mkCompleted 1 "Syntax Error: Couldn't read xref table", f).

(** An OCR tool that writes one transcript and exits with 0. *)
Definition ocr_writes (n t : string) : Tool :=
  fun _ f =>
    (mkCompleted 0 "", put f (ocr_dir ++ [ n ])%list (File (Text t) meta0)).

Definition env_with (arg : string) (r : option Tool) (look : option (string -> Z))
                    (o : option Tool) : Env :=
  mkEnv work [ "main.py"; arg ] None r look o
        (fun _ => meta0) (fun _ => "0.0") (fun _ => "'utf-8' codec can't decode byte 0xff in position 0: "
                   ++ "invalid start byte").

(** Two pages, OCR executable not on the path. *)
Definition env_no_ocr : Env :=
  env_with "report.pdf" (Some (raster_writes [ "page-1.png"; "page-2.png" ]))
           (Some (fun _ => 1%Z)) None.

(** Two pages, OCR tool present and writing a transcript. *)
Definition env_ocr : Env :=
  env_with "report.pdf" (Some (raster_writes [ "page-1.png"; "page-2.png" ]))
           (Some (fun _ => 0%Z))
           (Some (ocr_writes "report.mmd" ("# Title" ++ NL ++ "  " ++ NL))).

(** The rasterizer leaves pages 1 and 3 only. *)
Definition env_gap : Env :=
  env_with "report.pdf" (Some (raster_writes [ "page-1.png"; "page-3.png" ]))
           (Some (fun _ => 0%Z)) None.

(** Two pages, OCR executable resolvable but not to be started: Stage C
    goes on without a transcript. *)
Definition env_no_transcript : Env :=
  env_with "report.pdf" (Some (raster_writes [ "page-1.png"; "page-2.png" ]))
           (Some (fun _ => 0%Z)) None.

(** A rasterizer that reads the file its command line names and writes one
    page holding what it read. *)
Definition raster_reads : Tool :=
  fun cmd f =>
    match lookup f (work ++ parts (Path_of (nth 4 cmd "")))%list with
    | Some (File d _) =>
        (mkCompleted 0 "",
         put f (pages_dir ++ [ "page-1.png" ])%list (File d meta0))
    | _ => (mkCompleted 1 "I/O Error: Couldn't open file", f)
    end.

(** An OCR tool that reads the file its command line names and writes its
    text as the transcript. *)
Definition ocr_reads : Tool :=
  fun cmd f =>
    match lookup f (work ++ parts (Path_of (nth 1 cmd "")))%list with
    | Some (File (Text s) _) =>
        (mkCompleted 0 "",
         put f (ocr_dir ++ [ "report.mmd" ])%list
             (File (Text ("# " ++ s ++ NL)) meta0))
    | _ => (mkCompleted 1 "cannot read input", f)
    end.

(** Both tools read their input. *)
Definition env_reading : Env :=
  env_with "report.pdf" (Some raster_reads) (Some (fun _ => 0%Z))
           (Some ocr_reads).

Definition env_broken : Env :=
  env_with "report.pdf" (Some raster_broken) (Some (fun _ => 0%Z)) None.


Definition env_missing : Env :=
  env_with "absent.pdf" None None None.

(** No path on the command line and nothing to read. *)
Definition env_silent : Env :=
  mkEnv work [ "main.py" ] None None None None
        (fun _ => meta0) (fun _ => "0.0") (fun _ => "'utf-8' codec can't decode byte 0xff in position 0: "
                   ++ "invalid start byte").

Definition start (f : FS) : World := mkWorld f [].

Definition report : Converter := converter_of (Path_of "/work/report.pdf").

(** The working tree after [PDFConverter], as a list of entries. *)
Definition tree : FS :=
  [ ((work ++ [ "assets" ])%list, Dir);
    ((work ++ [ "assets"; "in" ])%list, Dir);
    ((work ++ [ "assets"; "out" ])%list, Dir);
    (pages_dir, Dir);
    (ocr_dir, Dir) ].

(** The working directory right after [PDFConverter]. *)
Definition fs_ready : FS := (fs_fresh ++ tree)%list.

(** A working directory in which [assets] is a regular file. *)
Definition fs_assets_is_file : FS :=
  (fs_fresh ++ [ ((work ++ [ "assets" ])%list, File (Text "notes") meta0) ])%list.

(** A working directory in which [assets/in] is a regular file. *)
Definition fs_in_is_file : FS :=
  (fs_fresh
   ++ [ ((work ++ [ "assets" ])%list, Dir);
        ((work ++ [ "assets"; "in" ])%list, File (Text "notes") meta0) ])%list.

(** The tree with two canonical pages and no transcript. *)
Definition fs_two_pages : FS :=
  (fs_ready
   ++ [ ((pages_dir ++ [ "1.png" ])%list, File (Text "image page-1.png") meta0);
        ((pages_dir ++ [ "2.png" ])%list, File (Text "image page-2.png") meta0)
      ])%list.

(** The tree with a transcript whose lines end in [CR LF] and [CR]. *)
Definition fs_crlf_transcript : FS :=
  (fs_ready
   ++ [ ((ocr_dir ++ [ "report.mmd" ])%list,
         File (Text ("# Title" ++ String (ascii_of_nat 13) NL
                     ++ "text" ++ String (ascii_of_nat 13) "  " ++ NL))
              meta0) ])%list.

(** The tree with a transcript that is no UTF-8. *)
Definition fs_binary_transcript : FS :=
  (fs_ready
   ++ [ ((ocr_dir ++ [ "report.mmd" ])%list,
         File (Bytes (String (ascii_of_nat 255) "")) meta0) ])%list.

(** The tree with a directory named like a transcript. *)
Definition fs_transcript_dir : FS :=
  (fs_ready ++ [ ((ocr_dir ++ [ "report.mmd" ])%list, Dir) ])%list.

(** The same source under another directory, with other content. *)
Definition elsewhere : Path := Path_of "/archive/report.pdf".

(** The tree with a staged copy and a picture that is not a page. *)
Definition fs_cover : FS :=
  (fs_fresh ++ tree
   ++ [ ((work ++ [ "assets"; "in"; "report.pdf" ])%list, File (Text "%PDF-1.7") meta0);
        ((pages_dir ++ [ "cover.png" ])%list, File (Text "cover") meta0) ])%list.

(** The tree with two transcripts, enumerated with [b.mmd] first. *)
Definition fs_two_transcripts : FS :=
  (fs_fresh ++ tree
   ++ [ ((ocr_dir ++ [ "b.mmd" ])%list, File (Text ("second" ++ NL)) meta0);
        ((ocr_dir ++ [ "a.mmd" ])%list, File (Text ("first" ++ NL)) meta0) ])%list.

(** The tree with a staged copy whose content is not that of the source. *)
Definition fs_stale_copy : FS :=
  (fs_fresh ++ tree
   ++ [ ((work ++ [ "assets"; "in"; "report.pdf" ])%list,
         File (Text "%PDF-1.4 older") meta0) ])%list.

End Sample.

(* ===================================================================== *)
(** ** Proof tools *)

(** Reduce the plumbing of the monad, on a world given by its fields. *)
Ltac run :=
  cbv beta iota zeta delta
    [bind get_fs set_fs ret raise print try_except fs out fst snd
     returncode stderr negb].

(** The same, using the equation [E] wherever reduction brings up its
    left-hand side. *)
Ltac run_with E := run; repeat (rewrite E; run).

Lemma after_print {A} (s : string) (m : M A) (w : World) :
  (print s ;; m) w = m (mkWorld (fs w) (out w ++ [s])%list).
Proof. reflexivity. Qed.

(* ===================================================================== *)
(** ** Strings, keys and listings *)

Lemma append_assoc (a b c : string) : (a ++ b) ++ c = a ++ (b ++ c).
Proof. induction a as [|x a IH]; simpl; [reflexivity | now rewrite IH]. Qed.

Lemma append_nil_r (a : string) : a ++ "" = a.
Proof. induction a as [|x a IH]; simpl; [reflexivity | now rewrite IH]. Qed.

Lemma text_chars (s : string) : text (chars s) = s.
Proof. apply string_of_list_ascii_of_string. Qed.

Lemma chars_text (l : list ascii) : chars (text l) = l.
Proof. apply list_ascii_of_string_of_list_ascii. Qed.

Lemma text_app (a b : list ascii) : text (a ++ b)%list = text a ++ text b.
Proof. induction a as [|x a IH]; simpl; [reflexivity | now rewrite IH]. Qed.

Lemma chars_app (a b : string) : chars (a ++ b) = (chars a ++ chars b)%list.
Proof. induction a as [|x a IH]; simpl; [reflexivity | now rewrite IH]. Qed.

Lemma key_eqb_eq (a b : Key) : key_eqb a b = true <-> a = b.
Proof.
  revert b; induction a as [|x a IH]; intros [|y b]; simpl;
    try (split; (reflexivity || discriminate)).
  rewrite andb_true_iff, String.eqb_eq, IH.
  split; [intros [-> ->]; reflexivity | intros H; inversion H; auto].
Qed.

Lemma key_eqb_refl (a : Key) : key_eqb a a = true.
Proof. now apply key_eqb_eq. Qed.

Lemma key_eqb_neq (a b : Key) : key_eqb a b = false <-> a <> b.
Proof.
  rewrite <- key_eqb_eq. destruct (key_eqb a b); split; congruence.
Qed.

Lemma child_name_Some (d k : Key) (n : string) :
  child_name d k = Some n <-> k = (d ++ [n])%list.
Proof.
  revert k; induction d as [|x d IH]; intros k; simpl.
  - destruct k as [|y [|z k]]; split; intros H; inversion H; reflexivity.
  - destruct k as [|y k]; [split; discriminate|].
    destruct (String.eqb_spec x y) as [->|Hxy].
    + rewrite IH. split; [intros ->; reflexivity | intros H; now inversion H].
    + split; [discriminate | intros H; inversion H; congruence].
Qed.

Lemma child_name_last (d : Key) (n : string) :
  child_name d (d ++ [n])%list = Some n.
Proof. now apply child_name_Some. Qed.

Lemma strip_prefix_Some (p k r : Key) :
  strip_prefix p k = Some r <-> k = (p ++ r)%list.
Proof.
  revert k; induction p as [|x p IH]; intros k; simpl.
  - split; [intros H; now inversion H | intros ->; reflexivity].
  - destruct k as [|y k]; [split; discriminate|].
    destruct (String.eqb_spec x y) as [->|Hxy].
    + rewrite IH. split; [intros ->; reflexivity | intros H; now inversion H].
    + split; [discriminate | intros H; inversion H; congruence].
Qed.

Lemma In_listdir (f : FS) (d : Key) (n : string) :
  In n (listdir f d) <-> exists nd, In ((d ++ [n])%list, nd) f.
Proof.
  unfold listdir. rewrite in_flat_map. split.
  - intros [[k nd] [Hin Hn]]. simpl in Hn.
    destruct (child_name d k) as [m|] eqn:E; [|contradiction].
    destruct Hn as [->|[]]. apply child_name_Some in E. subst k. now exists nd.
  - intros [nd Hin]. exists ((d ++ [n])%list, nd). split; [assumption|].
    simpl. rewrite child_name_last. now left.
Qed.

Lemma find_key_Some_In (f : FS) (k : Key) (nd : Node) :
  find_key f k = Some nd -> In (k, nd) f.
Proof.
  induction f as [|[k' n'] f IH]; simpl; [discriminate|].
  destruct (key_eqb k' k) eqn:E.
  - apply key_eqb_eq in E. intros H; inversion H; subst. now left.
  - intros H. right. now apply IH.
Qed.

Lemma find_key_None (f : FS) (k : Key) :
  find_key f k = None <-> forall nd, ~ In (k, nd) f.
Proof.
  induction f as [|[k' n'] f IH]; simpl.
  - split; [intros _ nd [] | reflexivity].
  - destruct (key_eqb k' k) eqn:E.
    + apply key_eqb_eq in E. subst. split; [discriminate|].
      intros H. exfalso. apply (H n'). now left.
    + apply key_eqb_neq in E. rewrite IH. split.
      * intros H nd [Heq|Hin]; [inversion Heq; congruence | now apply (H nd)].
      * intros H nd Hin. apply (H nd). now right.
Qed.

(** An entry of a directory is listed exactly when its path is bound. *)
Lemma listed_iff_bound (f : FS) (d : Key) (n : string) :
  In n (listdir f d) <-> find_key f (d ++ [n])%list <> None.
Proof.
  rewrite In_listdir. split.
  - intros [nd Hin] E. rewrite find_key_None in E. now apply (E nd).
  - intros H. destruct (find_key f (d ++ [n])%list) as [nd|] eqn:E; [|congruence].
    exists nd. now apply find_key_Some_In.
Qed.

Lemma lookup_child (f : FS) (d : Key) (n : string) :
  lookup f (d ++ [n])%list = find_key f (d ++ [n])%list.
Proof. unfold lookup. destruct d; reflexivity. Qed.

Lemma listdir_app (f g : FS) (d : Key) :
  listdir (f ++ g)%list d = (listdir f d ++ listdir g d)%list.
Proof. unfold listdir. apply flat_map_app. Qed.

(** A listing depends on the bound paths only. *)
Lemma listdir_keys (f g : FS) (d : Key) :
  map fst f = map fst g -> listdir f d = listdir g d.
Proof.
  revert g; induction f as [|e f IH]; intros [|e' g] H; simpl in *;
    try discriminate; [reflexivity|].
  inversion H as [[H1 H2]]. unfold listdir in *. simpl.
  rewrite H1. f_equal. now apply IH.
Qed.

Lemma keys_put_bound (f : FS) (k : Key) (n nd : Node) :
  find_key f k = Some nd -> map fst (put f k n) = map fst f.
Proof.
  intros E. unfold put. rewrite E. rewrite map_map.
  apply map_ext_in. intros [k' n'] _. simpl.
  destruct (key_eqb k' k) eqn:Ek; [|reflexivity].
  apply key_eqb_eq in Ek. now subst.
Qed.

Lemma keys_append_data (f : FS) (k : Key) (s : string) :
  map fst (append_data f k s) = map fst f.
Proof.
  unfold append_data. rewrite map_map. apply map_ext. intros [k' n']. simpl.
  destruct (key_eqb k' k); [destruct n' as [[d|b] m|]|]; reflexivity.
Qed.

(** Writing a path that is no entry of [d] leaves the listing of [d]. *)
Lemma listdir_put_other (f : FS) (k d : Key) (n : Node) :
  child_name d k = None -> listdir (put f k n) d = listdir f d.
Proof.
  intros Hc. destruct (find_key f k) as [nd|] eqn:E.
  - apply listdir_keys. now apply keys_put_bound with nd.
  - unfold put. rewrite E, listdir_app. unfold listdir at 2. simpl.
    rewrite Hc. simpl. now rewrite app_nil_r.
Qed.

Lemma listdir_append_data (f : FS) (k d : Key) (s : string) :
  listdir (append_data f k s) d = listdir f d.
Proof. apply listdir_keys, keys_append_data. Qed.

Lemma find_key_app (f g : FS) (k : Key) :
  find_key (f ++ g)%list k =
  match find_key f k with Some n => Some n | None => find_key g k end.
Proof.
  induction f as [|[k' n'] f IH]; simpl; [reflexivity|].
  destruct (key_eqb k' k); [reflexivity | apply IH].
Qed.

Lemma find_key_put_same (f : FS) (k : Key) (n : Node) :
  find_key (put f k n) k = Some n.
Proof.
  unfold put. destruct (find_key f k) as [nd|] eqn:E.
  - induction f as [|[k' n'] f IH]; simpl in *; [discriminate|].
    destruct (key_eqb k' k) eqn:Ek; simpl.
    + now rewrite key_eqb_refl.
    + rewrite Ek. now apply IH.
  - rewrite find_key_app, E. simpl. now rewrite key_eqb_refl.
Qed.

Lemma find_key_put_other (f : FS) (k k' : Key) (n : Node) :
  k <> k' -> find_key (put f k n) k' = find_key f k'.
Proof.
  intros Hne. unfold put. destruct (find_key f k) as [nd|] eqn:E.
  - clear E. induction f as [|[k0 n0] f IH]; simpl; [reflexivity|].
    destruct (key_eqb k0 k) eqn:Ek; simpl.
    + apply key_eqb_eq in Ek. subst k0.
      apply key_eqb_neq in Hne. rewrite Hne. apply IH.
    + destruct (key_eqb k0 k'); [reflexivity | apply IH].
  - rewrite find_key_app. destruct (find_key f k'); [reflexivity|].
    simpl. apply key_eqb_neq in Hne. now rewrite Hne.
Qed.

Lemma find_key_append_data_same (f : FS) (k : Key) (s d : string) (m : Meta) :
  find_key f k = Some (File (Text d) m) ->
  find_key (append_data f k s) k = Some (File (Text (d ++ s)) m).
Proof.
  induction f as [|[k0 n0] f IH]; simpl; [discriminate|].
  destruct (key_eqb k0 k) eqn:Ek; simpl.
  - intros H; inversion H; subst. simpl. now rewrite Ek.
  - rewrite Ek. apply IH.
Qed.

Lemma find_key_append_data_other (f : FS) (k k' : Key) (s : string) :
  k <> k' -> find_key (append_data f k s) k' = find_key f k'.
Proof.
  intros Hne. induction f as [|[k0 n0] f IH]; simpl; [reflexivity|].
  destruct (key_eqb k0 k) eqn:Ek; simpl.
  - apply key_eqb_eq in Ek. subst k0.
    assert (E : key_eqb k k' = false) by now apply key_eqb_neq.
    destruct n0 as [[d|b] m|]; simpl; rewrite E; apply IH.
  - destruct (key_eqb k0 k'); [reflexivity | apply IH].
Qed.

(* ===================================================================== *)
(** ** Input validation and the entry point *)

Lemma get_pdf_input_supplied (env : Env) (w : World) (p : Path) :
  supplied_path env = Some p ->
  get_pdf_input env w =
  (Ok (fst (validated env (fs w) p)),
   mkWorld (fs w) (out w ++ greeting env ++ snd (validated env (fs w) p))%list).
Proof.
  intros Hp. destruct w as [f o].
  assert (Hrun : forall o1 q,
            (let pdf_path := resolve env q in
             there <- path_exists env pdf_path ;;
             if negb there
             then print ("Error: File not found: " ++ str pdf_path) ;; ret None
             else if negb (lower (suffix pdf_path) =? ".pdf")
             then print ("Error: File is not a PDF: " ++ str pdf_path) ;;
                  ret None
             else
               f <- get_fs ;;
               print ("Input PDF: " ++ str pdf_path) ;;
               print ("Size: "
                      ++ match lookup f (key env pdf_path) with
                         | Some n => size_mb env n
                         | None => ""
                         end ++ " MB") ;;
               ret (Some pdf_path)) (mkWorld f o1)
            = (Ok (fst (validated env f q)),
               mkWorld f (o1 ++ snd (validated env f q))%list)).
  { intros o1 q. unfold path_exists, validated. run.
    destruct (lookup f (key env (resolve env q))) as [nd|] eqn:El; run.
    - destruct (lower (suffix (resolve env q)) =? ".pdf"); run.
      + rewrite El. rewrite <- !app_assoc. reflexivity.
      + reflexivity.
    - reflexivity. }
  unfold get_pdf_input, supplied_path, greeting in *.
  rewrite !after_print. cbn [fs out].
  destruct (argv env) as [|a0 [|a1 args]].
  1,2: destruct (stdin env) as [line|] eqn:Ein; cbn [option_map] in Hp;
       [|discriminate]; injection Hp as <-;
       unfold bind at 1; unfold bind at 1; unfold input; rewrite Ein;
       unfold ret at 1; cbn [fs out]; rewrite Hrun;
       rewrite <- !app_assoc; reflexivity.
  injection Hp as <-. unfold bind at 1. unfold ret at 1.
  rewrite Hrun. rewrite <- !app_assoc. reflexivity.
Qed.

Lemma resolve_absolute (env : Env) (p : Path) :
  is_absolute (resolve env p) = true.
Proof.
  unfold resolve, joinpaths. destruct (is_absolute p) eqn:E; simpl; auto.
Qed.




(** C7. For every supplied path that does not exist, [main] returns 1 and
    the file system is the one it started with: [get_pdf_input] yields no
    path, so [PDFConverter], which creates the working tree, is not
    reached. *)
Theorem main_missing_input_leaves_fs (env : Env) (w : World) (p : Path) :
  supplied_path env = Some p ->
  lookup (fs w) (key env (resolve env p)) = None ->
  fst (main env w) = Ok 1%Z
  /\ fs (snd (main env w)) = fs w
  /\ fst (get_pdf_input env w) = Ok None.
Proof.
  intros Hp Hl. unfold main, bind.
  rewrite (get_pdf_input_supplied env w p Hp). unfold validated.
  rewrite Hl. simpl. auto.
Qed.

Lemma main_missing_input_leaves_fs_witness :
  fst (main Sample.env_missing (Sample.start Sample.fs_fresh)) = Ok 1%Z
  /\ fs (snd (main Sample.env_missing (Sample.start Sample.fs_fresh)))
     = Sample.fs_fresh
  /\ fst (get_pdf_input Sample.env_missing (Sample.start Sample.fs_fresh))
     = Ok None.
Proof.
  apply (main_missing_input_leaves_fs Sample.env_missing
           (Sample.start Sample.fs_fresh) (Path_of "absent.pdf"));
    reflexivity.
Defined.

(* ===================================================================== *)
(** ** The stages never raise *)


Lemma try_except_handled {A} (m : M A) (h : Exn -> M A) (w : World) :
  (forall e w1, exists a w2, h e w1 = (Ok a, w2)) ->
  exists a w2, try_except m h w = (Ok a, w2).
Proof.
  intros Hh. unfold try_except. destruct (m w) as [[a|e] w1].
  - now exists a, w1.
  - apply Hh.
Qed.

Lemma copy_pdf_total (env : Env) (c : Converter) (w : World) :
  exists b w', _copy_pdf env c w = (Ok b, w').
Proof.
  unfold _copy_pdf. rewrite after_print. apply try_except_handled.
  intros e w1. run. eauto.
Qed.

Lemma pdf_to_png_total (env : Env) (c : Converter) (w : World) :
  exists b w', _pdf_to_png env c w = (Ok b, w').
Proof.
  unfold _pdf_to_png. rewrite after_print. apply try_except_handled.
  intros e w1. destruct (is_FileNotFoundError e); run; eauto.
Qed.

Lemma run_nougat_total (env : Env) (c : Converter) (w : World) :
  exists b w', _run_nougat env c w = (Ok b, w').
Proof.
  unfold _run_nougat. rewrite after_print. apply try_except_handled.
  intros e w1. run. eauto.
Qed.

Lemma generate_base_rmd_total (env : Env) (c : Converter) (w : World) :
  exists b w', _generate_base_rmd env c w = (Ok b, w').
Proof.
  unfold _generate_base_rmd. rewrite after_print. apply try_except_handled.
  intros e w1. run. eauto.
Qed.

(** ** The sequencing of [convert] *)

(** [convert] after its banner, by the outcome of each stage. *)
Lemma convert_stages (env : Env) (c : Converter) (w : World) :
  convert env c w =
  match _copy_pdf env c (mkWorld (fs w) (out w ++ convert_banner)%list) with
  | (Raised e, w1) => (Raised e, w1)
  | (Ok false, w1) => (Ok 1%Z, w1)
  | (Ok true, w1) =>
      match _pdf_to_png env c w1 with
      | (Raised e, w2) => (Raised e, w2)
      | (Ok false, w2) => (Ok 1%Z, w2)
      | (Ok true, w2) =>
          match _run_nougat env c w2 with
          | (Raised e, w3) => (Raised e, w3)
          | (Ok false, w3) => (Ok 1%Z, w3)
          | (Ok true, w3) =>
              match _generate_base_rmd env c w3 with
              | (Raised e, w4) => (Raised e, w4)
              | (Ok false, w4) => (Ok 1%Z, w4)
              | (Ok true, w4) =>
                  (Ok 0%Z, mkWorld (fs w4) (out w4 ++ summary c)%list)
              end
          end
      end
  end.
Proof.
  unfold convert. rewrite !after_print. simpl fs. simpl out.
  rewrite <- !app_assoc. simpl app. unfold convert_banner.
  unfold bind at 1.
  destruct (_copy_pdf env c _) as [[[|]|e] w1]; simpl; try reflexivity.
  unfold bind at 1.
  destruct (_pdf_to_png env c w1) as [[[|]|e] w2]; simpl; try reflexivity.
  unfold bind at 1.
  destruct (_run_nougat env c w2) as [[[|]|e] w3]; simpl; try reflexivity.
  unfold bind at 1.
  destruct (_generate_base_rmd env c w3) as [[[|]|e] w4]; simpl; try reflexivity.
  rewrite !after_print. unfold ret. simpl. unfold summary.
  rewrite <- !app_assoc. reflexivity.
Qed.

(** [main] hands the validated path to [PDFConverter] and returns what
    [convert] returns. *)
Lemma main_runs_convert (env : Env) (w0 wa w : World) (p : Path) (c : Converter) :
  get_pdf_input env w0 = (Ok (Some p), wa) ->
  PDFConverter env p wa = (Ok c, w) ->
  main env w0 = convert env c w.
Proof.
  intros Hin Hinit. unfold main. unfold bind at 1. rewrite Hin.
  unfold bind at 1. rewrite Hinit. reflexivity.
Qed.

(* ===================================================================== *)
(** ** Stage A *)

Lemma copy_pdf_staged (env : Env) (c : Converter) (w : World) (nd : Node) :
  lookup (fs w) (key env (copied_pdf c)) = Some nd ->
  exists log, _copy_pdf env c w = (Ok true, mkWorld (fs w) log).
Proof.
  destruct w as [f o]. simpl. intros E.
  unfold _copy_pdf, path_exists. run_with E. eauto.
Qed.

Lemma copy_pdf_fresh (env : Env) (c : Converter) (w : World) :
  lookup (fs w) (key env (copied_pdf c)) = None ->
  exists log,
    _copy_pdf env c w =
    match copyable env c (fs w) with
    | Some nd =>
        (Ok true, mkWorld (put (fs w) (key env (copied_pdf c)) nd) log)
    | None => (Ok false, mkWorld (fs w) log)
    end.
Proof.
  destruct w as [f o]. simpl. intros E.
  unfold _copy_pdf, path_exists, copy2, check_writable, copyable.
  run_with E.
  destruct (key_eqb (key env (pdf_path c)) (key env (copied_pdf c)));
    run_with E; [eauto|].
  destruct (lookup f (key env (pdf_path c))) as [[d m|]|] eqn:Es;
    run_with E; [|eauto|eauto].
  destruct (lookup f (parent (key env (copied_pdf c)))) as [[d' m'|]|];
    run_with E; eauto.
Qed.






(* ===================================================================== *)
(** ** Stage B fails *)

Lemma pdf_to_png_fails (env : Env) (c : Converter) (w : World) :
  rasterizer_fails env c (fs w) ->
  _pdf_to_png env c w =
  (Ok false,
   mkWorld (rasterized env c (fs w))
           (out w ++ stage_B_intro c ++ rasterizer_report env c (fs w))%list).
Proof.
  destruct w as [f o].
  unfold rasterizer_fails, rasterized, rasterizer_report, stage_B_intro,
    _pdf_to_png, subprocess_run.
  destruct (pdftoppm env) as [t|]; run.
  - destruct (t (pdftoppm_cmd c) f) as [[rc err] f']. run.
    intros Hrc.
    apply Z.eqb_neq in Hrc. rewrite Hrc. run.
    rewrite <- !app_assoc. reflexivity.
  - intros _. simpl. rewrite <- !app_assoc. reflexivity.
Qed.

(** C9. Stage B is fatal on failure.  When the rasterizer cannot be started
    or exits with a non-zero code, Stage B reports it (with the error
    stream of the rasterizer in the second case) and returns [False];
    [convert] then returns 1 in the very world Stage B left, so that no
    later stage has run, and [main] returns that 1. *)
Theorem rasterizer_failure_is_fatal
    (env : Env) (c : Converter) (w w1 : World) :
  _copy_pdf env c (mkWorld (fs w) (out w ++ convert_banner)%list)
  = (Ok true, w1) ->
  rasterizer_fails env c (fs w1) ->
  let w2 := mkWorld (rasterized env c (fs w1))
              (out w1 ++ stage_B_intro c
               ++ rasterizer_report env c (fs w1))%list in
  _pdf_to_png env c w1 = (Ok false, w2)
  /\ convert env c w = (Ok 1%Z, w2)
  /\ (forall t, pdftoppm env = Some t ->
        In ("  ✗ pdftoppm failed: "
            ++ stderr (fst (t (pdftoppm_cmd c) (fs w1)))) (out w2))
  /\ (forall w0 wa p,
        get_pdf_input env w0 = (Ok (Some p), wa) ->
        PDFConverter env p wa = (Ok c, w) ->
        main env w0 = (Ok 1%Z, w2)).
Proof.
  intros HA Hfail w2.
  pose proof (pdf_to_png_fails env c w1 Hfail) as HB. fold w2 in HB.
  assert (HC : convert env c w = (Ok 1%Z, w2)).
  { rewrite convert_stages, HA, HB. reflexivity. }
  repeat split; auto.
  - intros t Ht. unfold w2. cbn [out].
    apply in_or_app. right. apply in_or_app. right.
    unfold rasterizer_report. rewrite Ht. left. reflexivity.
  - intros w0 wa p Hin Hinit.
    now rewrite (main_runs_convert env w0 wa w p c Hin Hinit).
Qed.

(* ===================================================================== *)
(** ** Stage C *)

Lemma run_nougat_unresolved (env : Env) (c : Converter) (w : World) :
  nougat_unresolved env ->
  _run_nougat env c w =
  (Ok false, mkWorld (fs w) (out w ++ unresolved_report)%list).
Proof.
  destruct w as [f o]. unfold nougat_unresolved, _run_nougat, run_which.
  destruct (which env) as [look|]; [|contradiction].
  intros H. apply Z.eqb_neq in H. run_with H. run.
  unfold unresolved_report. rewrite <- !app_assoc. reflexivity.
Qed.

Lemma run_nougat_continues (env : Env) (c : Converter) (w : World) :
  ~ nougat_unresolved env ->
  exists w3, _run_nougat env c w = (Ok true, w3).
Proof.
  destruct w as [f o]. unfold nougat_unresolved, _run_nougat, run_which.
  destruct (which env) as [look|]; [|intros _; run; eauto].
  intros H. assert (E : (look "nougat" =? 0)%Z = true).
  { destruct (Z.eqb_spec (look "nougat") 0); [reflexivity | contradiction]. }
  run_with E. run.
  unfold subprocess_run. destruct (nougat env) as [t|]; run; [|eauto].
  destruct (t (nougat_cmd c) f) as [[rc err] f']. run.
  destruct (rc =? 0)%Z; run; unfold glob; run;
    match goal with
    | |- context [filter ?p ?l] => destruct (filter p l); run; eauto
    end.
Qed.

(** C1 (as amended).  For every run that reaches Stage C: when the lookup
    of the OCR executable reports it as not resolvable, [convert] returns 1
    in the world Stage B left plus three log lines, so Stage D does not run
    and no output document is written; in every other case (the executable
    is resolvable, whatever the OCR tool then does, or the lookup itself
    cannot be started) Stage C returns [True], Stage D runs, and [convert]
    returns 0 or 1 as Stage D returns [True] or [False]. *)
Theorem stage_C_outcome (env : Env) (c : Converter) (w w1 w2 : World) :
  _copy_pdf env c (mkWorld (fs w) (out w ++ convert_banner)%list)
  = (Ok true, w1) ->
  _pdf_to_png env c w1 = (Ok true, w2) ->
  (nougat_unresolved env ->
   convert env c w
   = (Ok 1%Z, mkWorld (fs w2) (out w2 ++ unresolved_report)%list))
  /\ (~ nougat_unresolved env ->
      exists w3 ok w4,
        _run_nougat env c w2 = (Ok true, w3)
        /\ _generate_base_rmd env c w3 = (Ok ok, w4)
        /\ fst (convert env c w) = Ok (if ok : bool then 0 else 1)%Z
        /\ fs (snd (convert env c w)) = fs w4).
Proof.
  intros HA HB. split; intros HC.
  - rewrite convert_stages, HA, HB, (run_nougat_unresolved env c w2 HC).
    reflexivity.
  - destruct (run_nougat_continues env c w2 HC) as [w3 H3].
    destruct (generate_base_rmd_total env c w3) as [ok [w4 H4]].
    exists w3, ok, w4. rewrite convert_stages, HA, HB, H3, H4.
    destruct ok; simpl; auto.
Qed.

Lemma rasterizer_failure_is_fatal_witness :
  rasterizer_fails Sample.env_broken Sample.report
    (fs (snd (_copy_pdf Sample.env_broken Sample.report
                (mkWorld Sample.fs_ready convert_banner))))
  /\ fst (convert Sample.env_broken Sample.report
            (Sample.start Sample.fs_ready)) = Ok 1%Z.
Proof.
  assert (HA : _copy_pdf Sample.env_broken Sample.report
                 (mkWorld (fs (Sample.start Sample.fs_ready))
                    (out (Sample.start Sample.fs_ready) ++ convert_banner)%list)
               = (Ok true,
                  snd (_copy_pdf Sample.env_broken Sample.report
                         (mkWorld Sample.fs_ready convert_banner))))
    by (vm_compute; reflexivity).
  assert (HB : rasterizer_fails Sample.env_broken Sample.report
                 (fs (snd (_copy_pdf Sample.env_broken Sample.report
                             (mkWorld Sample.fs_ready convert_banner)))))
    by (vm_compute; discriminate).
  split; [exact HB|].
  exact (f_equal fst
           (proj1 (proj2 (rasterizer_failure_is_fatal _ _ _ _ HA HB)))).
Defined.

(** C1, as stated, fails: with the OCR executable not resolvable the run
    reaches Stage C, returns 1 instead of 0, and writes no output
    document. *)
Lemma ocr_missing_run_returns_1 :
  nougat_unresolved Sample.env_no_ocr
  /\ In (NL ++ "[3/4] Running Nougat OCR...")
        (out (snd (main Sample.env_no_ocr (Sample.start Sample.fs_fresh))))
  /\ fst (main Sample.env_no_ocr (Sample.start Sample.fs_fresh)) = Ok 1%Z
  /\ fst (main Sample.env_no_ocr (Sample.start Sample.fs_fresh)) <> Ok 0%Z
  /\ output_document Sample.env_no_ocr Sample.report
       (fs (snd (main Sample.env_no_ocr (Sample.start Sample.fs_fresh))))
     = None.
Proof.
  split; [vm_compute; discriminate|].
  split; [vm_compute; tauto|].
  split; [vm_compute; reflexivity|].
  split; [vm_compute; discriminate|].
  vm_compute; reflexivity.
Qed.

Lemma stage_C_outcome_witness :
  nougat_unresolved Sample.env_no_ocr
  /\ fst (convert Sample.env_no_ocr Sample.report
            (Sample.start Sample.fs_ready)) = Ok 1%Z.
Proof.
  assert (HA : _copy_pdf Sample.env_no_ocr Sample.report
                 (mkWorld (fs (Sample.start Sample.fs_ready))
                    (out (Sample.start Sample.fs_ready) ++ convert_banner)%list)
               = (Ok true,
                  snd (_copy_pdf Sample.env_no_ocr Sample.report
                         (mkWorld Sample.fs_ready convert_banner))))
    by (vm_compute; reflexivity).
  assert (HB : _pdf_to_png Sample.env_no_ocr Sample.report
                 (snd (_copy_pdf Sample.env_no_ocr Sample.report
                         (mkWorld Sample.fs_ready convert_banner)))
               = (Ok true,
                  snd (_pdf_to_png Sample.env_no_ocr Sample.report
                         (snd (_copy_pdf Sample.env_no_ocr Sample.report
                                 (mkWorld Sample.fs_ready convert_banner))))))
    by (vm_compute; reflexivity).
  assert (HC : nougat_unresolved Sample.env_no_ocr)
    by (vm_compute; discriminate).
  split; [exact HC|].
  exact (f_equal fst (proj1 (stage_C_outcome _ _ _ _ _ HA HB) HC)).
Defined.

(* ===================================================================== *)
(** ** The pipeline and the supplied path *)

Lemma converter_same_name (p q : Path) :
  name q = name p -> converter_of q = with_pdf_path (converter_of p) q.
Proof.
  intros H. unfold converter_of, with_pdf_path, stem. simpl.
  rewrite H. reflexivity.
Qed.

Lemma copy_pdf_staged_any_source
    (env : Env) (c : Converter) (q : Path) (w : World) :
  lookup (fs w) (key env (copied_pdf c)) <> None ->
  _copy_pdf env (with_pdf_path c q) w = _copy_pdf env c w.
Proof.
  destruct w as [f o]. simpl. intros H.
  destruct (lookup f (key env (copied_pdf c))) as [nd|] eqn:E; [|congruence].
  unfold _copy_pdf, path_exists. cbn [copied_pdf assets_in with_pdf_path].
  run_with E. reflexivity.
Qed.


(* ===================================================================== *)
(** ** The paths of a converter *)

Lemma rmd_name_proper (s : string) :
  ((s ++ ".Rmd" =? "") || (s ++ ".Rmd" =? "."))%bool = false.
Proof.
  destruct s as [|a s]; [reflexivity|]. simpl.
  destruct (Ascii.eqb a "."%char); [|reflexivity].
  destruct s; reflexivity.
Qed.

Lemma key_child (env : Env) (d : Path) (n : string) :
  key env (child d n) = (key env d ++ [n])%list.
Proof.
  unfold key, child. simpl. destruct (is_absolute d); [reflexivity|].
  now rewrite app_assoc.
Qed.

Lemma rmd_output_child (p : Path) :
  rmd_output (converter_of p)
  = child (assets_out (converter_of p)) (stem p ++ ".Rmd").
Proof.
  unfold converter_of, joinpath. cbn [rmd_output assets_out].
  now rewrite rmd_name_proper.
Qed.

Lemma key_assets_out (env : Env) (p : Path) :
  key env (assets_out (converter_of p)) = (cwd env ++ ["assets"; "out"])%list.
Proof. reflexivity. Qed.

Lemma key_nougat_out (env : Env) (p : Path) :
  key env (nougat_out (converter_of p))
  = (key env (assets_out (converter_of p)) ++ ["nougat"])%list.
Proof. rewrite key_assets_out. unfold key. simpl. now rewrite <- app_assoc. Qed.

Lemma key_png_dir (env : Env) (p : Path) :
  key env (png_dir (converter_of p))
  = (key env (assets_out (converter_of p)) ++ ["png"])%list.
Proof. rewrite key_assets_out. unfold key. simpl. now rewrite <- app_assoc. Qed.

Lemma key_rmd_output (env : Env) (p : Path) :
  key env (rmd_output (converter_of p))
  = (key env (assets_out (converter_of p)) ++ [(stem p ++ ".Rmd")%string])%list.
Proof. rewrite rmd_output_child. apply key_child. Qed.

Lemma parent_child (d : Key) (n : string) : parent (d ++ [n])%list = d.
Proof. unfold parent. apply removelast_last. Qed.

(** A path one level below [d] is no entry of a subdirectory of [d]. *)
Lemma not_entry_of_subdir (d : Key) (a b : string) (n : string) :
  (d ++ [a])%list <> ((d ++ [b]) ++ [n])%list.
Proof.
  intros H. apply (f_equal (@List.length _)) in H.
  rewrite !length_app in H. simpl in H. lia.
Qed.

Lemma child_name_None (d k : Key) :
  (forall n, k <> (d ++ [n])%list) -> child_name d k = None.
Proof.
  intros H. destruct (child_name d k) as [n|] eqn:E; [|reflexivity].
  apply child_name_Some in E. now apply H in E.
Qed.

Lemma rmd_not_in_nougat (env : Env) (p : Path) :
  child_name (key env (nougat_out (converter_of p)))
             (key env (rmd_output (converter_of p))) = None.
Proof.
  apply child_name_None. intros n.
  rewrite key_rmd_output, key_nougat_out. apply not_entry_of_subdir.
Qed.

Lemma rmd_not_in_png (env : Env) (p : Path) :
  child_name (key env (png_dir (converter_of p)))
             (key env (rmd_output (converter_of p))) = None.
Proof.
  apply child_name_None. intros n.
  rewrite key_rmd_output, key_png_dir. apply not_entry_of_subdir.
Qed.

Lemma key_rmd_nonroot (env : Env) (p : Path) :
  key env (rmd_output (converter_of p)) <> [].
Proof. rewrite key_rmd_output. intros H. now apply app_eq_nil in H as [_ H]. Qed.

Lemma parent_rmd_output (env : Env) (p : Path) :
  parent (key env (rmd_output (converter_of p)))
  = key env (assets_out (converter_of p)).
Proof. rewrite key_rmd_output. apply parent_child. Qed.

Lemma lookup_nonroot (f : FS) (k : Key) : k <> [] -> lookup f k = find_key f k.
Proof. destruct k; [congruence | reflexivity]. Qed.

(** ** [sorted] and [rstrip] *)

Lemma length_insert_sorted (x : string) (l : list string) :
  List.length (insert_sorted x l) = S (List.length l).
Proof.
  induction l as [|y l IH]; simpl; [reflexivity|].
  destruct (String.leb x y); simpl; [reflexivity | now rewrite IH].
Qed.

Lemma length_sorted (l : list string) :
  List.length (sorted l) = List.length l.
Proof.
  induction l as [|x l IH]; simpl; [reflexivity|].
  now rewrite length_insert_sorted, IH.
Qed.

Lemma In_insert_sorted (x y : string) (l : list string) :
  In y (insert_sorted x l) <-> y = x \/ In y l.
Proof.
  induction l as [|z l IH]; simpl.
  - intuition.
  - destruct (String.leb x z); simpl; [intuition | rewrite IH; intuition].
Qed.

Lemma In_sorted (y : string) (l : list string) : In y (sorted l) <-> In y l.
Proof.
  induction l as [|x l IH]; simpl; [reflexivity|].
  rewrite In_insert_sorted, IH. intuition.
Qed.

Lemma take_drop_while {A} (p : A -> bool) (l : list A) :
  l = (takewhile p l ++ dropwhile p l)%list.
Proof.
  induction l as [|x l IH]; simpl; [reflexivity|].
  destruct (p x); simpl; [now rewrite <- IH | reflexivity].
Qed.

Lemma takewhile_all {A} (p : A -> bool) (l : list A) :
  forallb p (takewhile p l) = true.
Proof.
  induction l as [|x l IH]; simpl; [reflexivity|].
  destruct (p x) eqn:E; simpl; [now rewrite E | reflexivity].
Qed.

Lemma dropwhile_head {A} (p : A -> bool) (l : list A) (x : A) (r : list A) :
  dropwhile p l = x :: r -> p x = false.
Proof.
  induction l as [|y l IH]; simpl; [discriminate|].
  destruct (p y) eqn:E; [assumption|].
  intros H; inversion H; subst. assumption.
Qed.

(** [rstrip] removes a run of whitespace from the end, and all of it. *)
Lemma rstrip_trims (t : string) :
  exists ws,
    t = rstrip t ++ ws
    /\ forallb isspace (chars ws) = true
    /\ (forall a r, rev (chars (rstrip t)) = a :: r -> isspace a = false).
Proof.
  unfold rstrip.
  exists (text (rev (takewhile isspace (rev (chars t))))).
  split; [|split].
  - rewrite <- text_app, <- rev_app_distr, <- take_drop_while.
    now rewrite rev_involutive, text_chars.
  - rewrite chars_text, forallb_forall. intros a Ha.
    apply in_rev in Ha.
    pose proof (takewhile_all isspace (rev (chars t))) as H.
    rewrite forallb_forall in H. now apply H.
  - intros a r. rewrite chars_text, rev_involutive.
    apply dropwhile_head.
Qed.

(* ===================================================================== *)
(** ** Stage D *)

Section StageD.
Variable env : Env.
Variable c : Converter.

(** The layout Stage D relies on: the output document is an entry of the
    output directory and of neither of its two subdirectories. *)
Hypothesis Hparent :
  parent (key env (rmd_output c)) = key env (assets_out c).
Hypothesis Hnougat :
  child_name (key env (nougat_out c)) (key env (rmd_output c)) = None.
Hypothesis Hpng :
  child_name (key env (png_dir c)) (key env (rmd_output c)) = None.
Hypothesis Hroot : key env (rmd_output c) <> [].

Let rmd : Key := key env (rmd_output c).

Lemma with_header_document (f : FS) :
  find_key (with_header env c f) rmd
  = Some (File (Text (rmd_header c)) (stamp env (old_meta f rmd))).
Proof.
  unfold with_header. fold rmd.
  rewrite (find_key_append_data_same _ _ _ "" (stamp env (old_meta f rmd))).
  - reflexivity.
  - apply find_key_put_same.
Qed.

Lemma with_header_other (f : FS) (k : Key) :
  k <> rmd -> find_key (with_header env c f) k = find_key f k.
Proof.
  intros H. unfold with_header. fold rmd.
  rewrite find_key_append_data_other by congruence.
  apply find_key_put_other. congruence.
Qed.

Lemma with_header_nougat (f : FS) :
  listdir (with_header env c f) (key env (nougat_out c))
  = listdir f (key env (nougat_out c)).
Proof.
  unfold with_header. rewrite listdir_append_data.
  now apply listdir_put_other.
Qed.

Lemma with_header_png (f : FS) :
  listdir (with_header env c f) (key env (png_dir c))
  = listdir f (key env (png_dir c)).
Proof.
  unfold with_header. rewrite listdir_append_data.
  now apply listdir_put_other.
Qed.

(** Stage D up to the header, when the output can be opened. *)
Lemma generate_opens (f : FS) (o : list string) (k : M bool) (h : Exn -> M bool) :
  output_writable env c f ->
  try_except
    (open_w env (rmd_output c) ;; fwrite env (rmd_output c) (rmd_header c) ;; k)
    h (mkWorld f o)
  = try_except k h (mkWorld (with_header env c f) o).
Proof.
  intros [Hdir Hfile]. unfold open_w, check_writable, fwrite, with_header.
  fold rmd in Hfile |- *. rewrite <- Hparent in Hdir. fold rmd in Hdir.
  run_with Hdir.
  destruct (lookup f rmd) as [[d m|]|] eqn:E; run; try reflexivity.
  congruence.
Qed.

Lemma generate_placeholder (f : FS) (o : list string) :
  output_writable env c f ->
  entries_with env f (nougat_out c) ".mmd" = [] ->
  exists f' log,
    _generate_base_rmd env c (mkWorld f o) = (Ok true, mkWorld f' log)
    /\ find_key f' rmd
       = Some (File (Text (rmd_header c
                           ++ placeholder_section
                                (List.length
                                   (entries_with env f (png_dir c) ".png"))))
                    (stamp env (old_meta f rmd)))
    /\ (forall k, k <> rmd -> find_key f' k = find_key f k).
Proof.
  intros Hw Hnone. unfold _generate_base_rmd. rewrite after_print.
  cbn [fs out]. rewrite generate_opens by assumption.
  unfold glob, fwrite, entries_with in *. run.
  rewrite with_header_nougat, Hnone. run.
  rewrite with_header_png, length_sorted. fold rmd.
  eexists. eexists. split; [reflexivity|]. split.
  - pose proof (with_header_document f) as H0.
    do 3 eapply find_key_append_data_same in H0. rewrite H0.
    unfold placeholder_section. now rewrite !append_assoc.
  - intros k Hk. rewrite !find_key_append_data_other by congruence.
    now apply with_header_other.
Qed.

Lemma generate_transcript
    (f : FS) (o : list string) (first : string) (rest : list string)
    (t : string) (m : Meta) :
  output_writable env c f ->
  entries_with env f (nougat_out c) ".mmd" = first :: rest ->
  lookup f (key env (child (nougat_out c) first)) = Some (File (Text t) m) ->
  exists f' log,
    _generate_base_rmd env c (mkWorld f o) = (Ok true, mkWorld f' log)
    /\ find_key f' rmd
       = Some (File (Text (rmd_header c ++ transcript_marker
                           ++ rstrip (universal_newlines t) ++ NL))
                    (stamp env (old_meta f rmd)))
    /\ (forall k, k <> rmd -> find_key f' k = find_key f k).
Proof.
  intros Hw Hsome Hread. unfold _generate_base_rmd. rewrite after_print.
  cbn [fs out]. rewrite generate_opens by assumption.
  unfold glob, fwrite, read_text, entries_with in *. run.
  rewrite with_header_nougat, Hsome. run.
  assert (Hne : key env (child (nougat_out c) first) <> rmd).
  { rewrite key_child. intros H. unfold rmd in H.
    rewrite <- H, child_name_last in Hnougat. discriminate. }
  assert (Hk : key env (child (nougat_out c) first) <> []).
  { rewrite key_child. intros H. now apply app_eq_nil in H as [_ H]. }
  rewrite lookup_nonroot in Hread |- * by assumption.
  rewrite with_header_other, Hread by assumption. run. fold rmd.
  eexists. eexists. split; [reflexivity|]. split.
  - pose proof (with_header_document f) as H0.
    do 2 eapply find_key_append_data_same in H0. rewrite H0.
    now rewrite !append_assoc.
  - intros k Hk'. rewrite !find_key_append_data_other by congruence.
    now apply with_header_other.
Qed.

End StageD.

(* ===================================================================== *)
(** ** Stage B: renaming *)

Lemma canonical_not_page_prefix (k : N) :
  startswith "page-" (canonical_name k) = false.
Proof.
  unfold canonical_name, str_of_N. destruct (N.to_uint k); reflexivity.
Qed.

Lemma canonical_not_native_glob (k : N) :
  fnmatch_star "page-" ".png" (canonical_name k) = false.
Proof. unfold fnmatch_star. now rewrite canonical_not_page_prefix. Qed.

Lemma canonical_proper (k : N) :
  ((canonical_name k =? "") || (canonical_name k =? "."))%bool = false.
Proof.
  unfold canonical_name, str_of_N. destruct (N.to_uint k); reflexivity.
Qed.

Lemma joinpath_canonical (d : Path) (k : N) :
  joinpath d (canonical_name k) = child d (canonical_name k).
Proof. unfold joinpath. now rewrite canonical_proper. Qed.

Open Scope list_scope.

(** The entries of [d] after the entry [a] has taken the place of [b]. *)
Lemma In_listdir_move (f : FS) (d : Key) (a b n : string) :
  a <> b ->
  In n (listdir (move f (d ++ [a]) (d ++ [b])) d)
  <-> (In n (listdir f d) /\ n <> a /\ n <> b)
      \/ (n = b /\ In a (listdir f d)).
Proof.
  intros Hab. rewrite !In_listdir. unfold move. split.
  - intros [nd Hin]. apply in_map_iff in Hin as [[k nd'] [Heq Hin]].
    simpl in Heq. injection Heq as Hk Hnd. subst nd'.
    unfold remove_key in Hin. apply filter_In in Hin as [Hin Hne].
    simpl in Hne. apply negb_true_iff, key_eqb_neq in Hne.
    unfold rekey in Hk.
    destruct (strip_prefix (d ++ [a])%list k) as [rest|] eqn:Es.
    + apply strip_prefix_Some in Es. subst k.
      rewrite <- !app_assoc in Hk. apply app_inv_head in Hk.
      simpl in Hk. inversion Hk; subst. right. split; [reflexivity|].
      exists nd. now rewrite app_nil_r in Hin.
    + subst k. left. split; [now exists nd|]. split.
      * intros ->. assert (H : strip_prefix (d ++ [a])%list (d ++ [a])%list = Some [])
          by (apply strip_prefix_Some; now rewrite app_nil_r).
        congruence.
      * intros ->. congruence.
  - intros [[[nd Hin] [Hna Hnb]]|[-> Hin]].
    + exists nd. apply in_map_iff. exists ((d ++ [n])%list, nd). split.
      * simpl. unfold rekey.
        destruct (strip_prefix (d ++ [a])%list (d ++ [n])%list) as [rest|] eqn:Es;
          [|reflexivity].
        apply strip_prefix_Some in Es. rewrite <- app_assoc in Es.
        apply app_inv_head in Es. simpl in Es. inversion Es; congruence.
      * apply filter_In. split; [assumption|]. simpl.
        apply negb_true_iff, key_eqb_neq. intros H.
        apply app_inv_head in H. inversion H; congruence.
    + destruct Hin as [nd Hin].
      exists nd. apply in_map_iff. exists ((d ++ [a])%list, nd). split.
      * simpl. unfold rekey.
        assert (H : strip_prefix (d ++ [a])%list (d ++ [a])%list = Some [])
          by (apply strip_prefix_Some; now rewrite app_nil_r).
        rewrite H. now rewrite app_nil_r.
      * apply filter_In. split; [assumption|]. simpl.
        apply negb_true_iff, key_eqb_neq. intros H.
        apply app_inv_head in H. inversion H; congruence.
Qed.

Lemma rename_done (env : Env) (src dst : Path) (f : FS) (o : list string)
    (w' : World) :
  rename env src dst (mkWorld f o) = (Ok tt, w') ->
  w' = mkWorld (move f (key env src) (key env dst)) o
  /\ lookup f (key env src) <> None.
Proof.
  unfold rename. run.
  destruct (lookup f (key env src)) as [[d m|]|];
    destruct (lookup f (key env dst)) as [[d' m'|]|]; run;
    try discriminate;
    try (intros H; inversion H; split; [reflexivity | discriminate]).
  destruct (has_children f (key env dst)); run; [discriminate|].
  intros H; inversion H; split; [reflexivity | discriminate].
Qed.

Lemma rename_page_done (env : Env) (c : Converter) (m : string)
    (f : FS) (o : list string) (w' : World) :
  rename_page env c m (mkWorld f o) = (Ok tt, w') ->
  match target m with
  | None => w' = mkWorld f o
  | Some b =>
      w' = mkWorld (move f (key env (png_dir c) ++ [m])
                           (key env (png_dir c) ++ [b])) o
      /\ In m (listdir f (key env (png_dir c)))
  end.
Proof.
  unfold rename_page, target.
  destruct (Re.search_page m) as [ds|]; simpl.
  - fold (canonical_name (int_of_digits ds)). rewrite joinpath_canonical.
    intros H. apply rename_done in H as [-> Hsrc].
    rewrite !key_child in *. split; [reflexivity|].
    apply listed_iff_bound. now rewrite <- lookup_child.
  - unfold ret. intros H. now inversion H.
Qed.

Lemma rename_pages_done (env : Env) (c : Converter) (P : list string) :
  (forall m, In m P -> fnmatch_star "page-" ".png" m = true) ->
  forall (f : FS) (o : list string) (w' : World),
  rename_pages env c P (mkWorld f o) = (Ok tt, w') ->
  out w' = o
  /\ forall n,
       In n (listdir (fs w') (key env (png_dir c)))
       <-> (In n (listdir f (key env (png_dir c)))
            /\ ~ (In n P /\ target n <> None))
           \/ (exists m, In m P /\ target m = Some n).
Proof.
  induction P as [|m P IH]; intros HP f o w' Hrun.
  - simpl in Hrun. unfold ret in Hrun. inversion Hrun; subst. simpl.
    split; [reflexivity|]. intros n. split.
    + intros H. left. split; [assumption | intros [[] _]].
    + intros [[H _]|[m [[] _]]]. assumption.
  - simpl in Hrun. unfold bind in Hrun.
    destruct (rename_page env c m (mkWorld f o)) as [[[]|e] w1] eqn:E1;
      [|discriminate].
    apply rename_page_done in E1.
    assert (HP' : forall m', In m' P -> fnmatch_star "page-" ".png" m' = true)
      by (intros; apply HP; now right).
    destruct (target m) as [b|] eqn:Et.
    + destruct E1 as [-> Hm].
      destruct (IH HP' _ _ _ Hrun) as [Hout Hiff]. split; [assumption|].
      assert (Hmb : m <> b).
      { intros ->. unfold target in Et.
        destruct (Re.search_page b) as [ds|]; [|discriminate].
        simpl in Et. inversion Et as [Hb].
        pose proof (HP b (or_introl eq_refl)) as Hg.
        rewrite <- Hb, canonical_not_native_glob in Hg. discriminate. }
      assert (HbP : ~ In b P).
      { intros Hin. apply HP' in Hin. unfold target in Et.
        destruct (Re.search_page m) as [ds|]; [|discriminate].
        simpl in Et. inversion Et as [Hb].
        rewrite <- Hb, canonical_not_native_glob in Hin. discriminate. }
      intros n. rewrite Hiff, (In_listdir_move _ _ _ _ _ Hmb). split.
      * intros [[[[Hn [Hnm Hnb]]|[-> _]] Hno]|[m' [Hin Ht]]].
        -- left. split; [assumption|]. intros [[->|Hin] Ht];
             [congruence | apply Hno; now split].
        -- right. exists m. split; [now left | assumption].
        -- right. exists m'. split; [now right | assumption].
      * intros [[Hn Hno]|[m' [[->|Hin] Ht]]].
        -- assert (Hnm : n <> m).
           { intros ->. apply Hno. split; [now left | congruence]. }
           left. split.
           ++ destruct (string_dec n b) as [->|Hnb];
                [right; now split | left; now repeat split].
           ++ intros [Hin Ht]. apply Hno. split; [now right | assumption].
        -- rewrite Et in Ht. inversion Ht; subst n.
           left. split; [right; now split | intros [Hin _]; now apply HbP].
        -- right. now exists m'.
    + subst w1. destruct (IH HP' _ _ _ Hrun) as [Hout Hiff].
      split; [assumption|]. intros n. rewrite Hiff. split.
      * intros [[Hn Hno]|[m' [Hin Ht]]].
        -- left. split; [assumption|]. intros [[->|Hin] Ht];
             [congruence | apply Hno; now split].
        -- right. exists m'. split; [now right | assumption].
      * intros [[Hn Hno]|[m' [[->|Hin] Ht]]].
        -- left. split; [assumption|]. intros [Hin Ht]. apply Hno.
           split; [now right | assumption].
        -- congruence.
        -- right. now exists m'.
Qed.

Open Scope string_scope.

(* ===================================================================== *)
(** ** Stage B succeeds *)

Lemma native_glob_sorted (l : list string) (m : string) :
  In m (sorted (filter (fnmatch_star "page-" ".png") l)) ->
  fnmatch_star "page-" ".png" m = true.
Proof. rewrite In_sorted, filter_In. tauto. Qed.

(** What a successful Stage B has done. *)
Lemma pdf_to_png_done (env : Env) (c : Converter) (f : FS) (o : list string)
    (w' : World) :
  _pdf_to_png env c (mkWorld f o) = (Ok true, w') ->
  exists w2,
    rename_pages env c
      (sorted (filter (fnmatch_star "page-" ".png")
                      (listdir (rasterized env c f) (key env (png_dir c)))))
      (mkWorld (rasterized env c f) (o ++ stage_B_intro c)%list)
    = (Ok tt, w2)
    /\ w' = mkWorld (fs w2)
              (out w2
               ++ [created_report
                     (List.length (entries_with env (fs w2) (png_dir c) ".png"))])%list.
Proof.
  unfold _pdf_to_png, subprocess_run, rasterized, glob, entries_with,
    created_report, stage_B_intro.
  destruct (pdftoppm env) as [t|]; run; [|discriminate].
  destruct (t (pdftoppm_cmd c) f) as [[rc err] f1]. run.
  destruct (rc =? 0)%Z; run; [|discriminate].
  rewrite <- !app_assoc. cbn [app].
  match goal with
  | |- context [rename_pages env c ?P ?w] =>
      destruct (rename_pages env c P w) as [[[]|e] [f2 o2]]
  end; run.
  - rewrite length_sorted. intros H. inversion H. eexists. split; reflexivity.
  - destruct (is_FileNotFoundError e); run; discriminate.
Qed.

Lemma prefix_nil (s : string) : prefix "" s = true.
Proof. destruct s; reflexivity. Qed.

Lemma prefix_append (a b : string) : prefix a (a ++ b) = true.
Proof.
  induction a as [|x a IH]; simpl; [apply prefix_nil|].
  destruct (ascii_dec x x); [assumption | congruence].
Qed.

Lemma length_append (a b : string) :
  String.length (a ++ b) = String.length a + String.length b.
Proof. induction a as [|x a IH]; simpl; [reflexivity | now rewrite IH]. Qed.

Lemma canonical_is_png (n : string) :
  is_canonicalb n = true -> fnmatch_star "" ".png" n = true.
Proof.
  unfold is_canonicalb. destruct (takewhile isdigit (chars n)); [discriminate|].
  intros H. apply String.eqb_eq in H. rewrite H. unfold canonical_name.
  unfold fnmatch_star, startswith, endswith.
  rewrite prefix_nil, chars_app, rev_app_distr, text_app, prefix_append.
  rewrite length_append. cbn [andb]. apply Nat.leb_le. simpl. lia.
Qed.

(** C4 (as amended).  On Stage B success the count in the last line the
    stage prints is the number of entries of the pages directory whose name
    ends in [.png] once the renames are done; it is the number of canonical
    images whenever every such entry is canonical. *)
Theorem pdf_to_png_reports_png_count
    (env : Env) (c : Converter) (w w' : World) :
  _pdf_to_png env c w = (Ok true, w') ->
  let pngs := entries_with env (fs w') (png_dir c) ".png" in
  last (out w') "" = created_report (List.length pngs)
  /\ ((forall n, In n pngs -> is_canonicalb n = true) ->
      List.length pngs
      = List.length
          (filter is_canonicalb (listdir (fs w') (key env (png_dir c))))).
Proof.
  destruct w as [f o]. intros H pngs.
  apply pdf_to_png_done in H as [w2 [_ ->]]. subst pngs. cbn [fs out].
  split; [apply last_last|].
  intros Hall. unfold entries_with in *. f_equal.
  apply filter_ext_in. intros n Hn.
  destruct (fnmatch_star "" ".png" n) eqn:Eg.
  - symmetry. apply Hall. apply filter_In. now split.
  - destruct (is_canonicalb n) eqn:Ec; [|reflexivity].
    apply canonical_is_png in Ec. congruence.
Qed.

(** The names of the pages directory after a successful Stage B: what was
    there and is not in the native form, and the canonical name of every
    page the native names give. *)
Lemma pdf_to_png_names (env : Env) (c : Converter) (w w' : World) (n : string) :
  _pdf_to_png env c w = (Ok true, w') ->
  In n (listdir (fs w') (key env (png_dir c)))
  <-> (In n (listdir (rasterized env c (fs w)) (key env (png_dir c)))
       /\ native_page n = None)
      \/ (exists m k,
            In m (listdir (rasterized env c (fs w)) (key env (png_dir c)))
            /\ native_page m = Some k /\ n = canonical_name k).
Proof.
  destruct w as [f o]. intros H.
  apply pdf_to_png_done in H as [w2 [Hr ->]]. cbn [fs].
  apply rename_pages_done in Hr as [_ Hiff]; [|apply native_glob_sorted].
  rewrite Hiff. clear Hiff.
  set (L := listdir (rasterized env c f) (key env (png_dir c))).
  assert (Hnat : forall m,
            native_page m
            = if fnmatch_star "page-" ".png" m
              then option_map int_of_digits (Re.search_page m) else None)
    by reflexivity.
  assert (Ht : forall m b, target m = Some b
                 <-> exists ds, Re.search_page m = Some ds
                                /\ b = canonical_name (int_of_digits ds)).
  { intros m b. unfold target. destruct (Re.search_page m) as [ds|]; simpl.
    - split; [intros E; inversion E; eauto | intros [ds' [E ->]]; now inversion E].
    - split; [discriminate | intros [ds' [E _]]; discriminate]. }
  split.
  - intros [[Hn Hno]|[m [Hm Htm]]].
    + left. split; [assumption|]. rewrite Hnat.
      destruct (fnmatch_star "page-" ".png" n) eqn:Eg; [|reflexivity].
      destruct (Re.search_page n) as [ds|] eqn:Es; [|reflexivity].
      exfalso. apply Hno. split.
      * apply In_sorted, filter_In. now split.
      * unfold target. rewrite Es. discriminate.
    + right. apply In_sorted, filter_In in Hm as [Hm Hg].
      apply Ht in Htm as [ds [Es ->]]. exists m, (int_of_digits ds).
      repeat split; [assumption|]. rewrite Hnat, Hg, Es. reflexivity.
  - intros [[Hn Hno]|[m [k [Hm [Hk ->]]]]].
    + left. split; [assumption|]. intros [Hin Htn].
      apply native_glob_sorted in Hin. rewrite Hnat, Hin in Hno.
      unfold target in Htn. destruct (Re.search_page n); [discriminate|].
      now apply Htn.
    + right. rewrite Hnat in Hk.
      destruct (fnmatch_star "page-" ".png" m) eqn:Eg; [|discriminate].
      destruct (Re.search_page m) as [ds|] eqn:Es; [|discriminate].
      simpl in Hk. inversion Hk; subst k. exists m. split.
      * apply In_sorted, filter_In. now split.
      * apply Ht. eauto.
Qed.

(** C2 (as amended).  After a successful Stage B the names in the pages
    directory are the names the rasterizer left there that are not in the
    native form, untouched, together with the canonical name of the page
    number that the pattern match extracts from each native name.  So when
    the page numbers of the native names are exactly 1..N, and no canonical
    name already in the directory lies outside 1..N, the canonical names
    are exactly [1.png] .. [N.png]. *)
Theorem pdf_to_png_canonical_names
    (env : Env) (c : Converter) (w w' : World) :
  _pdf_to_png env c w = (Ok true, w') ->
  let before := listdir (rasterized env c (fs w)) (key env (png_dir c)) in
  let after := listdir (fs w') (key env (png_dir c)) in
  (forall n, In n after
             <-> (In n before /\ native_page n = None)
                 \/ (exists m k, In m before /\ native_page m = Some k
                                 /\ n = canonical_name k))
  /\ (forall n, In n before -> native_page n = None -> In n after)
  /\ (forall N : N,
        (forall k, (exists m, In m before /\ native_page m = Some k)
                   <-> (1 <= k <= N)%N) ->
        (forall n, In n before -> is_canonical n ->
                   exists k, (1 <= k <= N)%N /\ n = canonical_name k) ->
        forall n, (In n after /\ is_canonical n)
                  <-> exists k, (1 <= k <= N)%N /\ n = canonical_name k).
Proof.
  intros H before after.
  assert (Hnames := fun n => pdf_to_png_names env c w w' n H).
  fold before after in Hnames.
  split; [exact Hnames|]. split.
  - intros n Hin Hnat. apply Hnames. now left.
  - intros N Hpages Hstray n. split.
    + intros [Hin Hcan]. apply Hnames in Hin as [[Hb _]|[m [k [Hm [Hk ->]]]]].
      * now apply Hstray.
      * exists k. split; [|reflexivity]. apply Hpages. now exists m.
    + intros [k [Hk ->]]. split; [|now exists k].
      apply Hpages in Hk as [m [Hm Hnat]]. apply Hnames. right. now exists m, k.
Qed.

(* ===================================================================== *)
(** ** Stage D: the two bodies *)

Lemma lookup_as_find (f g : FS) :
  (forall k, find_key g k = find_key f k) ->
  forall k, lookup g k = lookup f k.
Proof. intros H [|x k]; [reflexivity | apply H]. Qed.

Lemma output_document_found (env : Env) (p : Path) (f : FS) (d : string) (m : Meta) :
  find_key f (key env (rmd_output (converter_of p))) = Some (File (Text d) m) ->
  output_document env (converter_of p) f = Some d.
Proof.
  intros H. unfold output_document.
  rewrite lookup_nonroot by apply key_rmd_nonroot. now rewrite H.
Qed.



Lemma generate_unwritable (env : Env) (p : Path) (f : FS) (o : list string) :
  ~ output_writable env (converter_of p) f ->
  exists log,
    _generate_base_rmd env (converter_of p) (mkWorld f o)
    = (Ok false, mkWorld f log).
Proof.
  intros Hw. unfold _generate_base_rmd, open_w, check_writable.
  unfold output_writable in Hw. rewrite <- parent_rmd_output in Hw.
  run.
  destruct (lookup f (parent (key env (rmd_output (converter_of p)))))
    as [[d m|]|] eqn:Ep; run; eauto.
  destruct (lookup f (key env (rmd_output (converter_of p))))
    as [[d m|]|] eqn:Ek; run; eauto;
    exfalso; apply Hw; split; congruence.
Qed.

Lemma generate_unreadable
    (env : Env) (p : Path) (f : FS) (o : list string)
    (first : string) (rest : list string) :
  output_writable env (converter_of p) f ->
  entries_with env f (nougat_out (converter_of p)) ".mmd" = first :: rest ->
  (forall t m, lookup f (key env (child (nougat_out (converter_of p)) first))
               <> Some (File (Text t) m)) ->
  exists log,
    _generate_base_rmd env (converter_of p) (mkWorld f o)
    = (Ok false, mkWorld (with_header env (converter_of p) f) log).
Proof.
  intros Hw Hsome Hbad. unfold _generate_base_rmd. rewrite after_print.
  cbn [fs out].
  rewrite (generate_opens env (converter_of p) (parent_rmd_output env p))
    by assumption.
  unfold glob, read_text, entries_with in *. run.
  rewrite (with_header_nougat env (converter_of p) (rmd_not_in_nougat env p)),
    Hsome. run.
  assert (Hne : key env (child (nougat_out (converter_of p)) first)
                <> key env (rmd_output (converter_of p))).
  { rewrite key_child. intros H.
    pose proof (rmd_not_in_nougat env p) as Hn.
    rewrite <- H, child_name_last in Hn. discriminate. }
  assert (Hk : key env (child (nougat_out (converter_of p)) first) <> []).
  { rewrite key_child. intros H. now apply app_eq_nil in H as [_ H]. }
  rewrite lookup_nonroot by assumption.
  rewrite with_header_other by assumption.
  rewrite <- lookup_nonroot by assumption.
  destruct (lookup f (key env (child (nougat_out (converter_of p)) first)))
    as [[[t|b] m|]|] eqn:E; run; eauto.
  exfalso. now apply (Hbad t m).
Qed.

(** What a successful Stage D has found and written. *)
Lemma generate_done (env : Env) (p : Path) (f : FS) (o : list string)
    (w' : World) :
  _generate_base_rmd env (converter_of p) (mkWorld f o) = (Ok true, w') ->
  output_writable env (converter_of p) f
  /\ (forall k, k <> key env (rmd_output (converter_of p)) ->
                find_key (fs w') k = find_key f k)
  /\ ((entries_with env f (nougat_out (converter_of p)) ".mmd" = []
       /\ output_document env (converter_of p) (fs w')
          = Some (rmd_header (converter_of p)
                  ++ placeholder_section
                       (List.length
                          (entries_with env f (png_dir (converter_of p))
                             ".png"))))
      \/ (exists first rest t m,
            entries_with env f (nougat_out (converter_of p)) ".mmd"
            = first :: rest
            /\ lookup f (key env (child (nougat_out (converter_of p)) first))
               = Some (File (Text t) m)
            /\ output_document env (converter_of p) (fs w')
               = Some (rmd_header (converter_of p)
                       ++ transcript_marker
                       ++ rstrip (universal_newlines t) ++ NL))).
Proof.
  intros H.
  assert (Hw : output_writable env (converter_of p) f).
  { unfold output_writable.
    destruct (lookup f (key env (assets_out (converter_of p))))
      as [[d m|]|] eqn:Ep;
      destruct (lookup f (key env (rmd_output (converter_of p))))
        as [[d' m'|]|] eqn:Ek;
      try (split; [reflexivity | discriminate]);
      exfalso;
      (destruct (generate_unwritable env p f o) as [log Hf];
       [unfold output_writable; rewrite Ep, Ek; intros [H1 H2]; congruence
       | rewrite Hf in H; discriminate]). }
  split; [assumption|].
  destruct (entries_with env f (nougat_out (converter_of p)) ".mmd")
    as [|first rest] eqn:Ee.
  - destruct (generate_placeholder env (converter_of p)
                (parent_rmd_output env p) (rmd_not_in_nougat env p)
                (rmd_not_in_png env p) f o Hw Ee)
      as [f' [log [Hrun [Hdoc Hother]]]].
    rewrite Hrun in H. inversion H; subst w'. cbn [fs].
    split; [assumption|]. left. split; [reflexivity|].
    now apply output_document_found in Hdoc.
  - destruct (lookup f (key env (child (nougat_out (converter_of p)) first)))
      as [[[t|b] m|]|] eqn:El.
    + destruct (generate_transcript env (converter_of p)
                  (parent_rmd_output env p) (rmd_not_in_nougat env p)
                  f o first rest t m Hw Ee El)
        as [f' [log [Hrun [Hdoc Hother]]]].
      rewrite Hrun in H. inversion H; subst w'. cbn [fs].
      split; [assumption|]. right. exists first, rest, t, m.
      repeat split; try assumption.
      now apply output_document_found in Hdoc.
    + destruct (generate_unreadable env p f o first rest Hw Ee) as [log Hf];
        [intros t0 m0; rewrite El; discriminate
        | rewrite Hf in H; discriminate].
    + destruct (generate_unreadable env p f o first rest Hw Ee) as [log Hf];
        [intros t0 m0; rewrite El; discriminate
        | rewrite Hf in H; discriminate].
    + destruct (generate_unreadable env p f o first rest Hw Ee) as [log Hf];
        [intros t0 m0; rewrite El; discriminate
        | rewrite Hf in H; discriminate].
Qed.


(** A text without carriage returns is read as it is. *)
Lemma universal_newlines_plain (s : string) :
  no_cr s = true -> universal_newlines s = s.
Proof.
  unfold no_cr. induction s as [|a s IH]; simpl; [reflexivity|].
  intros H. apply andb_true_iff in H as [Ha Hs].
  apply negb_true_iff in Ha. rewrite Ha. unfold chars in IH.
  now rewrite (IH Hs).
Qed.

(** When every entry that ends in [.png] is canonical, they are as many as
    the canonical entries. *)
Lemma png_count_canonical (l : list string) :
  (forall n, In n (filter (fnmatch_star "" ".png") l) ->
             is_canonicalb n = true) ->
  List.length (filter (fnmatch_star "" ".png") l)
  = List.length (filter is_canonicalb l).
Proof.
  intros Hall. f_equal. apply filter_ext_in. intros n Hn.
  destruct (fnmatch_star "" ".png" n) eqn:Eg.
  - symmetry. apply Hall. apply filter_In. now split.
  - destruct (is_canonicalb n) eqn:Ec; [|reflexivity].
    apply canonical_is_png in Ec. congruence.
Qed.

(** C5 (as amended).  In Stage D, whenever the OCR-output directory holds
    no transcript, the outcome is decided by the output path.  When it can
    be opened for writing the stage returns [True] and the output document
    is the header followed by the placeholder section, which states in
    decimal the number of entries of the pages directory whose name ends in
    [.png], page images or not; no other path changes.  When it cannot be
    opened the stage returns [False] and the file system is as it was.
    The number stated is the number of page images (canonical names)
    whenever every entry that ends in [.png] is one. *)
Theorem placeholder_when_no_transcript (env : Env) (p : Path) (w : World) :
  let c := converter_of p in
  let pngs := entries_with env (fs w) (png_dir c) ".png" in
  entries_with env (fs w) (nougat_out c) ".mmd" = [] ->
  (output_writable env c (fs w) ->
   exists w',
     _generate_base_rmd env c w = (Ok true, w')
     /\ output_document env c (fs w')
        = Some (rmd_header c ++ placeholder_section (List.length pngs))
     /\ (forall k, k <> key env (rmd_output c) ->
                   lookup (fs w') k = lookup (fs w) k))
  /\ (~ output_writable env c (fs w) ->
      fst (_generate_base_rmd env c w) = Ok false
      /\ fs (snd (_generate_base_rmd env c w)) = fs w)
  /\ ((forall n, In n pngs -> is_canonicalb n = true) ->
      List.length pngs
      = List.length
          (filter is_canonicalb (listdir (fs w) (key env (png_dir c))))).
Proof.
  intros c pngs Hnone. destruct w as [f o]. cbn [fs] in *.
  split; [|split].
  - intros Hw.
    destruct (generate_placeholder env c
                (parent_rmd_output env p) (rmd_not_in_nougat env p)
                (rmd_not_in_png env p) f o Hw Hnone)
      as [f' [log [Hrun [Hdoc Hother]]]].
    exists (mkWorld f' log). cbn [fs]. split; [assumption|]. split.
    + now apply output_document_found in Hdoc.
    + intros [|x k] Hk; [reflexivity|]. now apply Hother.
  - intros Hw. destruct (generate_unwritable env p f o Hw) as [log Hf].
    subst c. rewrite Hf. split; reflexivity.
  - apply png_count_canonical.
Qed.

Lemma sorted_least_first (x : string) (l : list string) :
  (forall n, In n l -> String.leb x n = true) ->
  hd "" (sorted (x :: l)) = x.
Proof.
  intros H. simpl.
  assert (Hs : forall n, In n (sorted l) -> String.leb x n = true)
    by (intros n Hn; apply H; now apply In_sorted).
  destruct (sorted l) as [|y r]; [reflexivity|]. simpl.
  now rewrite (Hs y (or_introl eq_refl)).
Qed.

(** C3 (as amended).  In Stage D, whenever the OCR-output directory holds
    at least one transcript and the output path can be opened for writing,
    the outcome is decided by the first transcript in the enumeration order
    of the directory.  When it is a file that holds UTF-8 text, the stage
    returns [True] and the output document is the header, the transcript
    marker comment, and the text read from that file (its text with every
    [CR LF] and every lone [CR] turned into a line feed; the text itself
    when it holds no carriage return) with trailing whitespace trimmed and
    one newline appended.  When it is not (a directory, or bytes that are
    no UTF-8), the stage returns [False] and the output document holds the
    header only.  The first transcript enumerated is the lexically first
    one whenever its name is the least among the transcripts, as it is when
    there is only one. *)
Theorem transcript_first_enumerated
    (env : Env) (p : Path) (w : World)
    (first : string) (rest : list string) :
  let c := converter_of p in
  let transcript := key env (child (nougat_out c) first) in
  entries_with env (fs w) (nougat_out c) ".mmd" = first :: rest ->
  output_writable env c (fs w) ->
  (forall t m,
     lookup (fs w) transcript = Some (File (Text t) m) ->
     (exists w',
        _generate_base_rmd env c w = (Ok true, w')
        /\ output_document env c (fs w')
           = Some (rmd_header c ++ transcript_marker
                   ++ rstrip (universal_newlines t) ++ NL))
     /\ (exists ws,
           universal_newlines t = rstrip (universal_newlines t) ++ ws
           /\ forallb isspace (chars ws) = true
           /\ forall a r, rev (chars (rstrip (universal_newlines t))) = a :: r ->
                          isspace a = false)
     /\ (no_cr t = true -> universal_newlines t = t))
  /\ ((forall t m, lookup (fs w) transcript <> Some (File (Text t) m)) ->
      fst (_generate_base_rmd env c w) = Ok false
      /\ output_document env c (fs (snd (_generate_base_rmd env c w)))
         = Some (rmd_header c))
  /\ ((forall n, In n rest -> String.leb first n = true) ->
      hd "" (sorted (first :: rest)) = first).
Proof.
  intros c transcript Hsome Hw. destruct w as [f o]. cbn [fs] in *.
  split; [|split; [|apply sorted_least_first]].
  - intros t m Hread.
    split; [|split; [apply rstrip_trims | apply universal_newlines_plain]].
    destruct (generate_transcript env c
                (parent_rmd_output env p) (rmd_not_in_nougat env p)
                f o first rest t m Hw Hsome Hread)
      as [f' [log [Hrun [Hdoc _]]]].
    exists (mkWorld f' log). cbn [fs]. split; [assumption|].
    now apply output_document_found in Hdoc.
  - intros Hbad.
    destruct (generate_unreadable env p f o first rest Hw Hsome Hbad)
      as [log Hf].
    subst c. rewrite Hf. split; [reflexivity|]. cbn [snd fs].
    apply output_document_found
      with (m := stamp env
                   (old_meta f (key env (rmd_output (converter_of p))))).
    apply with_header_document.
Qed.

(* ===================================================================== *)
(** ** The sample runs *)

(** C2, as stated, fails: the rasterizer leaves [page-1.png] and
    [page-3.png], both in the native form; Stage B succeeds and the
    canonical names are [1.png] and [3.png], which is [1.png .. N.png] for
    no N. *)
Lemma gap_in_pages_stays :
  fst (_pdf_to_png Sample.env_gap Sample.report (Sample.start Sample.fs_ready))
  = Ok true
  /\ listdir (rasterized Sample.env_gap Sample.report Sample.fs_ready)
             Sample.pages_dir
     = [ "page-1.png"; "page-3.png" ]
  /\ map native_page [ "page-1.png"; "page-3.png" ] = [ Some 1%N; Some 3%N ]
  /\ listdir (fs (snd (_pdf_to_png Sample.env_gap Sample.report
                         (Sample.start Sample.fs_ready))))
             Sample.pages_dir
     = [ "1.png"; "3.png" ]
  /\ ~ (exists N : N,
          forall n,
            (In n (listdir (fs (snd (_pdf_to_png Sample.env_gap Sample.report
                                       (Sample.start Sample.fs_ready))))
                           Sample.pages_dir)
             /\ is_canonical n)
            <-> exists k, (1 <= k <= N)%N /\ n = canonical_name k).
Proof.
  assert (Hafter :
            listdir (fs (snd (_pdf_to_png Sample.env_gap Sample.report
                                (Sample.start Sample.fs_ready))))
                    Sample.pages_dir
            = [ "1.png"; "3.png" ]) by (vm_compute; reflexivity).
  split; [vm_compute; reflexivity|].
  split; [vm_compute; reflexivity|].
  split; [vm_compute; reflexivity|].
  split; [exact Hafter|].
  rewrite Hafter. intros [N H].
  destruct (N.le_gt_cases 2 N) as [Hle|Hgt].
  - destruct (proj2 (H "2.png")) as [Hin _].
    + exists 2%N. split; [lia | reflexivity].
    + simpl in Hin. destruct Hin as [E|[E|[]]]; discriminate.
  - destruct (proj1 (H "3.png")) as [k [Hk E]].
    + split; [simpl; auto | exists 3%N; reflexivity].
    + assert (k = 1%N) by lia. subst k. vm_compute in E. discriminate.
Qed.

Lemma pdf_to_png_canonical_names_witness :
  fst (_pdf_to_png Sample.env_no_ocr Sample.report
         (Sample.start Sample.fs_cover)) = Ok true
  /\ forall n,
       (In n (listdir (fs (snd (_pdf_to_png Sample.env_no_ocr Sample.report
                                  (Sample.start Sample.fs_cover))))
                      (key Sample.env_no_ocr (png_dir Sample.report)))
        /\ is_canonical n)
       <-> exists k, (1 <= k <= 2)%N /\ n = canonical_name k.
Proof.
  assert (Hrun : _pdf_to_png Sample.env_no_ocr Sample.report
                   (Sample.start Sample.fs_cover)
                 = (Ok true,
                    snd (_pdf_to_png Sample.env_no_ocr Sample.report
                           (Sample.start Sample.fs_cover))))
    by (vm_compute; reflexivity).
  split; [vm_compute; reflexivity|].
  apply (proj2 (proj2
           (pdf_to_png_canonical_names Sample.env_no_ocr Sample.report
              (Sample.start Sample.fs_cover) _ Hrun)) 2%N).
  - assert (Hb : listdir (rasterized Sample.env_no_ocr Sample.report
                            (fs (Sample.start Sample.fs_cover)))
                         (key Sample.env_no_ocr (png_dir Sample.report))
                 = [ "cover.png"; "page-1.png"; "page-2.png" ])
      by (vm_compute; reflexivity).
    rewrite Hb. intros k. split.
    + intros [m [Hin Hn]]. simpl in Hin.
      destruct Hin as [E|[E|[E|[]]]]; subst m; vm_compute in Hn;
        inversion Hn; lia.
    + intros Hk. assert (Hc : k = 1%N \/ k = 2%N) by lia.
      destruct Hc as [E|E]; subst k;
        [exists "page-1.png" | exists "page-2.png"];
        (split; [simpl; auto | vm_compute; reflexivity]).
  - assert (Hb : listdir (rasterized Sample.env_no_ocr Sample.report
                            (fs (Sample.start Sample.fs_cover)))
                         (key Sample.env_no_ocr (png_dir Sample.report))
                 = [ "cover.png"; "page-1.png"; "page-2.png" ])
      by (vm_compute; reflexivity).
    rewrite Hb. intros n Hin [k Hk]. exfalso. simpl in Hin.
    destruct Hin as [E|[E|[E|[]]]]; subst n;
      unfold canonical_name, str_of_N in Hk;
      destruct (N.to_uint k); simpl in Hk; discriminate.
Defined.

(** C4, as stated, fails: with a picture [cover.png] in the pages directory
    and two pages rasterized, Stage B succeeds and reports three images,
    while the canonical images are two. *)
Lemma cover_is_counted :
  fst (_pdf_to_png Sample.env_no_ocr Sample.report
         (Sample.start Sample.fs_cover)) = Ok true
  /\ listdir (fs (snd (_pdf_to_png Sample.env_no_ocr Sample.report
                         (Sample.start Sample.fs_cover))))
             Sample.pages_dir
     = [ "cover.png"; "1.png"; "2.png" ]
  /\ last (out (snd (_pdf_to_png Sample.env_no_ocr Sample.report
                       (Sample.start Sample.fs_cover)))) ""
     = "  ✓ Created 3 PNG images"
  /\ List.length
       (filter is_canonicalb
          (listdir (fs (snd (_pdf_to_png Sample.env_no_ocr Sample.report
                              (Sample.start Sample.fs_cover))))
                   Sample.pages_dir))
     = 2.
Proof. repeat split; vm_compute; reflexivity. Qed.

Lemma pdf_to_png_reports_png_count_witness :
  fst (_pdf_to_png Sample.env_no_ocr Sample.report
         (Sample.start Sample.fs_ready)) = Ok true
  /\ last (out (snd (_pdf_to_png Sample.env_no_ocr Sample.report
                       (Sample.start Sample.fs_ready)))) ""
     = created_report
         (List.length
            (entries_with Sample.env_no_ocr
               (fs (snd (_pdf_to_png Sample.env_no_ocr Sample.report
                           (Sample.start Sample.fs_ready))))
               (png_dir Sample.report) ".png")).
Proof.
  assert (Hrun : _pdf_to_png Sample.env_no_ocr Sample.report
                   (Sample.start Sample.fs_ready)
                 = (Ok true,
                    snd (_pdf_to_png Sample.env_no_ocr Sample.report
                           (Sample.start Sample.fs_ready))))
    by (vm_compute; reflexivity).
  split; [vm_compute; reflexivity|].
  exact (proj1 (pdf_to_png_reports_png_count _ _ _ _ Hrun)).
Defined.

(** C3, as stated, fails: the directory enumerates [b.mmd] before [a.mmd];
    Stage D writes the text of [b.mmd], not that of the lexically first
    transcript [a.mmd]. *)
Lemma second_transcript_is_written :
  entries_with Sample.env_ocr Sample.fs_two_transcripts
               (nougat_out Sample.report) ".mmd"
  = [ "b.mmd"; "a.mmd" ]
  /\ hd "" (sorted [ "b.mmd"; "a.mmd" ]) = "a.mmd"
  /\ lookup Sample.fs_two_transcripts
            (key Sample.env_ocr (child (nougat_out Sample.report) "a.mmd"))
     = Some (File (Text ("first" ++ NL)) Sample.meta0)
  /\ fst (_generate_base_rmd Sample.env_ocr Sample.report
            (Sample.start Sample.fs_two_transcripts)) = Ok true
  /\ output_document Sample.env_ocr Sample.report
       (fs (snd (_generate_base_rmd Sample.env_ocr Sample.report
                   (Sample.start Sample.fs_two_transcripts))))
     = Some (rmd_header Sample.report ++ transcript_marker ++ "second" ++ NL)
  /\ output_document Sample.env_ocr Sample.report
       (fs (snd (_generate_base_rmd Sample.env_ocr Sample.report
                   (Sample.start Sample.fs_two_transcripts))))
     <> Some (rmd_header Sample.report ++ transcript_marker
              ++ rstrip ("first" ++ NL) ++ NL).
Proof.
  assert (Hdoc :
            output_document Sample.env_ocr Sample.report
              (fs (snd (_generate_base_rmd Sample.env_ocr Sample.report
                          (Sample.start Sample.fs_two_transcripts))))
            = Some (rmd_header Sample.report ++ transcript_marker
                    ++ "second" ++ NL)) by (vm_compute; reflexivity).
  repeat split; try (vm_compute; reflexivity).
  rewrite Hdoc. intros E. vm_compute in E. discriminate.
Qed.

Lemma transcript_first_enumerated_witness :
  output_writable Sample.env_ocr Sample.report Sample.fs_crlf_transcript
  /\ (exists w',
        _generate_base_rmd Sample.env_ocr Sample.report
          (Sample.start Sample.fs_crlf_transcript) = (Ok true, w')
        /\ output_document Sample.env_ocr Sample.report (fs w')
           = Some (rmd_header Sample.report ++ transcript_marker
                   ++ ("# Title" ++ NL ++ "text") ++ NL))
  /\ fst (_generate_base_rmd Sample.env_ocr Sample.report
            (Sample.start Sample.fs_binary_transcript)) = Ok false.
Proof.
  assert (Hw : output_writable Sample.env_ocr
                 (converter_of (Path_of "/work/report.pdf"))
                 (fs (Sample.start Sample.fs_crlf_transcript)))
    by (split; [vm_compute; reflexivity | vm_compute; discriminate]).
  assert (Hb : output_writable Sample.env_ocr
                 (converter_of (Path_of "/work/report.pdf"))
                 (fs (Sample.start Sample.fs_binary_transcript)))
    by (split; [vm_compute; reflexivity | vm_compute; discriminate]).
  split; [exact Hw|]. split.
  - destruct (proj1
                (proj1
                   (transcript_first_enumerated Sample.env_ocr
                      (Path_of "/work/report.pdf")
                      (Sample.start Sample.fs_crlf_transcript)
                      "report.mmd" [] eq_refl Hw)
                   _ Sample.meta0 eq_refl))
      as [w' [Hrun Hdoc]].
    exists w'. split; [exact Hrun|].
    etransitivity; [exact Hdoc|]. vm_compute. reflexivity.
  - apply (proj1 (proj2
             (transcript_first_enumerated Sample.env_ocr
                (Path_of "/work/report.pdf")
                (Sample.start Sample.fs_binary_transcript)
                "report.mmd" [] eq_refl Hb))).
    intros t m. vm_compute. discriminate.
Defined.

(** C5, as stated, fails: with a picture [cover.png] in the pages directory
    and two pages rasterized, the run succeeds without a transcript and the
    placeholder states three pages, while the page images are two. *)
Lemma placeholder_counts_cover :
  fst (main Sample.env_no_transcript (Sample.start Sample.fs_cover)) = Ok 0%Z
  /\ entries_with Sample.env_no_transcript
       (fs (snd (main Sample.env_no_transcript (Sample.start Sample.fs_cover))))
       (nougat_out Sample.report) ".mmd"
     = []
  /\ listdir (fs (snd (main Sample.env_no_transcript
                         (Sample.start Sample.fs_cover))))
             Sample.pages_dir
     = [ "cover.png"; "1.png"; "2.png" ]
  /\ filter is_canonicalb
       (listdir (fs (snd (main Sample.env_no_transcript
                            (Sample.start Sample.fs_cover))))
                Sample.pages_dir)
     = [ "1.png"; "2.png" ]
  /\ output_document Sample.env_no_transcript Sample.report
       (fs (snd (main Sample.env_no_transcript (Sample.start Sample.fs_cover))))
     = Some (rmd_header Sample.report ++ placeholder_section 3)
  /\ placeholder_section 3 <> placeholder_section 2.
Proof.
  repeat split; try (vm_compute; reflexivity).
  intros E. vm_compute in E. discriminate.
Qed.

Lemma placeholder_when_no_transcript_witness :
  output_writable Sample.env_no_ocr Sample.report Sample.fs_two_pages
  /\ (exists w',
        _generate_base_rmd Sample.env_no_ocr Sample.report
          (Sample.start Sample.fs_two_pages) = (Ok true, w')
        /\ output_document Sample.env_no_ocr Sample.report (fs w')
           = Some (rmd_header Sample.report ++ placeholder_section 2))
  /\ fst (_generate_base_rmd Sample.env_no_ocr Sample.report
            (Sample.start Sample.fs_fresh)) = Ok false.
Proof.
  assert (Hw : output_writable Sample.env_no_ocr
                 (converter_of (Path_of "/work/report.pdf"))
                 (fs (Sample.start Sample.fs_two_pages)))
    by (split; [vm_compute; reflexivity | vm_compute; discriminate]).
  split; [exact Hw|]. split.
  - destruct (proj1
                (placeholder_when_no_transcript Sample.env_no_ocr
                   (Path_of "/work/report.pdf")
                   (Sample.start Sample.fs_two_pages) eq_refl) Hw)
      as [w' [Hrun [Hdoc _]]].
    exists w'. split; [exact Hrun | exact Hdoc].
  - apply (proj1 (proj2
             (placeholder_when_no_transcript Sample.env_no_ocr
                (Path_of "/work/report.pdf")
                (Sample.start Sample.fs_fresh) eq_refl))).
    intros [H _]. vm_compute in H. discriminate.
Defined.


(* ===================================================================== *)
(** ** More on input validation *)

Lemma substring_whole (s : string) : substring 0 (String.length s) s = s.
Proof. induction s as [|a s IH]; simpl; [reflexivity | now rewrite IH]. Qed.

Lemma substring_split (s : string) (i : nat) :
  i <= String.length s ->
  substring 0 i s ++ substring i (String.length s - i) s = s.
Proof.
  revert i; induction s as [|a s IH]; intros [|i] H; simpl in *;
    try reflexivity; try lia.
  - now rewrite substring_whole.
  - rewrite IH by lia. reflexivity.
Qed.

(** [p.name == p.stem + p.suffix] *)
Lemma name_stem_suffix (p : Path) : name p = stem p ++ suffix p.
Proof.
  unfold stem, suffix. destruct (rfind "."%char (chars (name p))) as [i|];
    [|now rewrite append_nil_r].
  destruct ((0 <? i) && (i <? String.length (name p) - 1))%nat eqn:E;
    [|now rewrite append_nil_r].
  apply andb_true_iff in E as [_ E]. apply Nat.ltb_lt in E.
  symmetry. apply substring_split. lia.
Qed.

Lemma get_pdf_input_eof (env : Env) (w : World) :
  supplied_path env = None ->
  get_pdf_input env w
  = (Raised (mkExn EOFError "EOF when reading a line"),
     mkWorld (fs w) (out w ++ greeting env)%list).
Proof.
  intros Hp. destruct w as [f o].
  unfold get_pdf_input, supplied_path, greeting in *.
  rewrite !after_print. cbn [fs out].
  destruct (argv env) as [|a0 [|a1 args]]; [| |discriminate];
    (destruct (stdin env) as [line|] eqn:Ein; [discriminate|]);
    unfold bind at 1; unfold bind at 1; unfold input; rewrite Ein;
    cbn [fs out]; rewrite <- !app_assoc; reflexivity.
Qed.

Lemma length_text (l : list ascii) : String.length (text l) = List.length l.
Proof. induction l as [|a l IH]; simpl; [reflexivity | now rewrite IH]. Qed.

Lemma length_chars (s : string) : List.length (chars s) = String.length s.
Proof. induction s as [|a s IH]; simpl; [reflexivity | now rewrite IH]. Qed.

Lemma length_lower (s : string) : String.length (lower s) = String.length s.
Proof. unfold lower. now rewrite length_text, length_map, length_chars. Qed.

(** What holds when [get_pdf_input] returns a path. *)
Lemma get_pdf_input_returned (env : Env) (w w' : World) (q : Path) :
  get_pdf_input env w = (Ok (Some q), w') ->
  exists p,
    supplied_path env = Some p
    /\ q = resolve env p
    /\ lookup (fs w) (key env q) <> None
    /\ lower (suffix q) = ".pdf"
    /\ w' = mkWorld (fs w)
              (out w ++ greeting env ++ snd (validated env (fs w) p))%list.
Proof.
  intros H. destruct (supplied_path env) as [p|] eqn:Hp.
  - rewrite (get_pdf_input_supplied env w p Hp) in H.
    exists p. unfold validated in *.
    destruct (lookup (fs w) (key env (resolve env p))) as [nd|] eqn:El;
      [|discriminate].
    destruct (lower (suffix (resolve env p)) =? ".pdf") eqn:Es;
      [|discriminate].
    simpl in H. inversion H; subst. apply String.eqb_eq in Es.
    repeat split; auto. congruence.
  - rewrite (get_pdf_input_eof env w Hp) in H. discriminate.
Qed.

(** X1. [get_pdf_input] returns a path exactly when a path is supplied
    that, resolved against the working directory, exists and has the
    suffix [.pdf] up to case; the path returned is that resolved path and
    the file system is untouched. *)
Theorem get_pdf_input_accepts (env : Env) (w w' : World) (q : Path) :
  get_pdf_input env w = (Ok (Some q), w') <->
  exists p,
    supplied_path env = Some p
    /\ q = resolve env p
    /\ lookup (fs w) (key env q) <> None
    /\ lower (suffix q) = ".pdf"
    /\ w' = mkWorld (fs w)
              (out w ++ greeting env ++ snd (validated env (fs w) p))%list.
Proof.
  split; [apply get_pdf_input_returned|].
  intros [p [Hp [-> [Hl [Hs ->]]]]].
  rewrite (get_pdf_input_supplied env w p Hp). unfold validated.
  destruct (lookup (fs w) (key env (resolve env p))) as [nd|];
    [|congruence].
  apply String.eqb_eq in Hs. rewrite Hs. reflexivity.
Qed.

(** X2. A path [get_pdf_input] returns is absolute; its name is its stem
    followed by a suffix of four characters, and the output document of the
    converter built from it is the entry [<stem>.Rmd] of [assets/out]. *)
Theorem accepted_path_shape (env : Env) (w w' : World) (q : Path) :
  get_pdf_input env w = (Ok (Some q), w') ->
  is_absolute q = true
  /\ name q = stem q ++ suffix q
  /\ String.length (suffix q) = 4
  /\ rmd_output (converter_of q)
     = child (Path_of "assets/out") (stem q ++ ".Rmd")
  /\ fs w' = fs w.
Proof.
  intros H. apply get_pdf_input_returned in H
    as [p [Hp [-> [Hl [Hs ->]]]]].
  split; [apply resolve_absolute|].
  split; [apply name_stem_suffix|].
  split; [now rewrite <- length_lower, Hs|].
  split; [apply rmd_output_child | reflexivity].
Qed.

Lemma accepted_path_shape_witness :
  name (Path_of "/work/report.pdf")
  = stem (Path_of "/work/report.pdf") ++ suffix (Path_of "/work/report.pdf")
  /\ String.length (suffix (Path_of "/work/report.pdf")) = 4.
Proof.
  assert (H : get_pdf_input Sample.env_ocr (Sample.start Sample.fs_fresh)
              = (Ok (Some (Path_of "/work/report.pdf")),
                 snd (get_pdf_input Sample.env_ocr
                        (Sample.start Sample.fs_fresh))))
    by (vm_compute; reflexivity).
  pose proof (accepted_path_shape _ _ _ _ H) as [_ [H1 [H2 _]]].
  split; assumption.
Defined.

(** X3. Without a path on the command line and without a line to read,
    [main] ends in an uncaught [EOFError]: the file system is untouched and
    only the greeting, which ends with the prompt, is printed. *)
Theorem main_raises_at_end_of_input (env : Env) (w : World) :
  supplied_path env = None ->
  main env w
  = (Raised (mkExn EOFError "EOF when reading a line"),
     mkWorld (fs w) (out w ++ greeting env)%list)
  /\ last (greeting env) "" = "Enter path to PDF file: ".
Proof.
  intros Hp. split.
  - unfold main. unfold bind at 1. now rewrite (get_pdf_input_eof env w Hp).
  - unfold supplied_path, greeting in *.
    destruct (argv env) as [|a0 [|a1 args]]; [reflexivity|reflexivity|discriminate].
Qed.

Lemma main_raises_at_end_of_input_witness :
  fst (main Sample.env_silent (Sample.start Sample.fs_fresh))
  = Raised (mkExn EOFError "EOF when reading a line").
Proof.
  exact (f_equal fst
           (proj1 (main_raises_at_end_of_input Sample.env_silent
                     (Sample.start Sample.fs_fresh) eq_refl))).
Defined.

(* ===================================================================== *)
(** ** [PDFConverter.__init__]: the working tree *)

Open Scope list_scope.

Lemma is_file_added (f added : FS) (k : Key) :
  Forall (fun e => snd e = Dir) added ->
  is_file (f ++ added) k = is_file f k.
Proof.
  intros Hd. unfold is_file, lookup. destruct k as [|x k]; [reflexivity|].
  rewrite find_key_app. destruct (find_key f (x :: k)); [reflexivity|].
  destruct (find_key added (x :: k)) as [nd|] eqn:E; [|reflexivity].
  apply find_key_Some_In in E. rewrite Forall_forall in Hd.
  apply Hd in E. simpl in E. now subst nd.
Qed.

Lemma find_key_added (f added : FS) (k : Key) (nd : Node) :
  find_key f k = Some nd -> find_key (f ++ added) k = Some nd.
Proof. intros H. now rewrite find_key_app, H. Qed.

Lemma firstn_snoc_prefix (done : Key) (n : string) (r : list string) (i : nat) :
  done ++ firstn (S i) (n :: r) = (done ++ [n]) ++ firstn i r.
Proof. simpl. now rewrite <- app_assoc. Qed.

(** What [mkdirs] has done when it succeeds: directories only are added, at
    the end, and every path on the way is then a directory. *)
Lemma mkdirs_Some (todo : list string) :
  forall (f : FS) (done : Key) (f' : FS),
  mkdirs f done todo = inl f' ->
  (exists added, f' = f ++ added /\ Forall (fun e => snd e = Dir) added)
  /\ forall i, 0 < i <= List.length todo ->
               find_key f' (done ++ firstn i todo) = Some Dir.
Proof.
  induction todo as [|n r IH]; intros f done f' H; simpl in H.
  - inversion H; subst. split.
    + exists []. split; [now rewrite app_nil_r | constructor].
    + intros i Hi. simpl in Hi. lia.
  - rewrite lookup_child in H.
    destruct (find_key f (done ++ [n])) as [[d m|]|] eqn:E; [discriminate| |].
    + destruct (IH _ _ _ H) as [[added [-> Hd]] Hp]. split.
      * now exists added.
      * intros [|i] Hi; [lia|]. rewrite firstn_snoc_prefix.
        destruct i as [|i].
        -- simpl. rewrite app_nil_r. now apply find_key_added.
        -- apply Hp. simpl in Hi |- *. lia.
    + destruct (IH _ _ _ H) as [[added [-> Hd]] Hp]. split.
      * exists ((done ++ [n], Dir) :: added). split.
        -- now rewrite <- app_assoc.
        -- constructor; [reflexivity | assumption].
      * intros [|i] Hi; [lia|]. rewrite firstn_snoc_prefix.
        destruct i as [|i].
        -- simpl. rewrite app_nil_r. apply find_key_added.
           rewrite find_key_app, E. simpl. now rewrite key_eqb_refl.
        -- apply Hp. simpl in Hi |- *. lia.
Qed.

(** [mkdirs] changes nothing when every path on the way is a directory. *)
Lemma mkdirs_noop (todo : list string) :
  forall (f : FS) (done : Key),
  (forall i, 0 < i <= List.length todo ->
             find_key f (done ++ firstn i todo) = Some Dir) ->
  mkdirs f done todo = inl f.
Proof.
  induction todo as [|n r IH]; intros f done H; simpl; [reflexivity|].
  rewrite lookup_child.
  assert (E : find_key f (done ++ [n]) = Some Dir).
  { specialize (H 1). simpl in H. apply H. lia. }
  rewrite E. apply IH. intros i Hi.
  rewrite <- firstn_snoc_prefix. apply H. simpl. lia.
Qed.

(** [mkdirs] fails exactly when a path on the way is a regular file. *)
Lemma mkdirs_None (todo : list string) :
  forall (f : FS) (done : Key),
  (exists c, mkdirs f done todo = inr c)
  <-> exists i, 0 < i <= List.length todo
                /\ is_file f (done ++ firstn i todo) = true.
Proof.
  induction todo as [|n r IH]; intros f done; simpl.
  - split; [intros [c H]; discriminate | intros [i [Hi _]]; lia].
  - rewrite lookup_child.
    assert (Hfirst : is_file f (done ++ [n])
                     = match find_key f (done ++ [n]) with
                       | Some (File _ _) => true
                       | _ => false
                       end).
    { unfold is_file. now rewrite lookup_child. }
    destruct (find_key f (done ++ [n])) as [[d m|]|] eqn:E.
    + split; [intros _ | intros _; eauto]. exists 1. split; [simpl; lia|].
      simpl. assumption.
    + rewrite IH. split.
      * intros [i [Hi Hf]]. exists (S i). split; [simpl; lia|].
        now rewrite firstn_snoc_prefix.
      * intros [[|[|i]] [Hi Hf]]; [lia| |].
        -- simpl in Hf. rewrite Hfirst in Hf. discriminate.
        -- exists (S i). split; [simpl in Hi; lia|].
           now rewrite <- firstn_snoc_prefix.
    + rewrite IH. split.
      * intros [i [Hi Hf]]. exists (S i). split; [simpl; lia|].
        rewrite firstn_snoc_prefix.
        rewrite (is_file_added f [(done ++ [n], Dir)]) in Hf;
          [assumption | repeat constructor].
      * intros [[|[|i]] [Hi Hf]]; [lia| |].
        -- simpl in Hf. rewrite Hfirst in Hf. discriminate.
        -- exists (S i). split; [simpl in Hi; lia|].
           rewrite is_file_added by (repeat constructor).
           now rewrite <- firstn_snoc_prefix.
Qed.

Lemma existsb_same {A} (p q : A -> bool) (l : list A) :
  (forall x, p x = q x) -> existsb p l = existsb q l.
Proof.
  intros H. induction l as [|x l IH]; simpl; [reflexivity|].
  now rewrite H, IH.
Qed.

Lemma existsb_seq_shift (g : nat -> bool) (a n : nat) :
  existsb g (seq (S a) n) = existsb (fun i => g (S i)) (seq a n).
Proof.
  revert a; induction n as [|n IH]; intros a; simpl; [reflexivity|].
  now rewrite IH.
Qed.

(** The class [mkdirs] fails with: [NotADirectoryError] when a path above
    the last one is a regular file, [FileExistsError] when the last one
    only is. *)
Lemma mkdirs_class (todo : list string) :
  forall (f : FS) (done : Key) (c : ExnClass),
  mkdirs f done todo = inr c ->
  c = if existsb (fun i => is_file f (done ++ firstn i todo))
                 (seq 1 (List.length todo - 1))
      then NotADirectoryError else FileExistsError.
Proof.
  induction todo as [|n r IH]; intros f done c H; simpl in H;
    [discriminate|].
  rewrite lookup_child in H.
  assert (Hfirst : is_file f (done ++ [n])
                   = match find_key f (done ++ [n]) with
                     | Some (File _ _) => true
                     | _ => false
                     end).
  { unfold is_file. now rewrite lookup_child. }
  assert (Hlen : List.length (n :: r) - 1 = List.length r)
    by (simpl; lia).
  rewrite Hlen.
  destruct r as [|n' r'].
  - destruct (find_key f (done ++ [n])) as [[d m|]|];
      simpl in H; inversion H; reflexivity.
  - assert (Hseq : seq 1 (List.length (n' :: r'))
                   = 1 :: seq 2 (List.length (n' :: r') - 1))
      by (simpl; now rewrite Nat.sub_0_r).
    rewrite Hseq. cbn [existsb].
    replace (done ++ firstn 1 (n :: n' :: r')) with (done ++ [n])
      by reflexivity.
    rewrite Hfirst.
    destruct (find_key f (done ++ [n])) as [[d m|]|] eqn:E.
    + inversion H. reflexivity.
    + apply IH in H. subst c. cbn [orb].
      rewrite (existsb_seq_shift
                 (fun i => is_file f (done ++ firstn i (n :: n' :: r'))) 1).
      rewrite (existsb_same
                 (fun i => is_file f (done ++ firstn (S i) (n :: n' :: r')))
                 (fun i => is_file f ((done ++ [n]) ++ firstn i (n' :: r'))));
        [reflexivity|].
      intros i. now rewrite firstn_snoc_prefix.
    + apply IH in H. subst c. cbn [orb].
      rewrite (existsb_seq_shift
                 (fun i => is_file f (done ++ firstn i (n :: n' :: r'))) 1).
      rewrite (existsb_same
                 (fun i => is_file f (done ++ firstn (S i) (n :: n' :: r')))
                 (fun i => is_file (f ++ [(done ++ [n], Dir)])
                                   ((done ++ [n]) ++ firstn i (n' :: r'))));
        [reflexivity|].
      intros i. rewrite firstn_snoc_prefix. symmetry.
      apply is_file_added. repeat constructor.
Qed.

Lemma blocked_iff (env : Env) (f : FS) (d : Path) :
  blocked env f d = true
  <-> exists i, 0 < i <= List.length (key env d)
                /\ is_file f ([] ++ firstn i (key env d)) = true.
Proof.
  unfold blocked. rewrite existsb_exists. split.
  - intros [i [Hin Hf]]. apply in_seq in Hin. exists i. split; [lia | assumption].
  - intros [i [Hi Hf]]. exists i. split; [apply in_seq; lia | assumption].
Qed.

Lemma blocked_added (env : Env) (f added : FS) (d : Path) :
  Forall (fun e => snd e = Dir) added ->
  blocked env (f ++ added) d = blocked env f d.
Proof.
  intros Hd. unfold blocked. apply existsb_same. intros i.
  now apply is_file_added.
Qed.

Lemma blocked_class_added (env : Env) (f added : FS) (d : Path) :
  Forall (fun e => snd e = Dir) added ->
  blocked_class env (f ++ added) d = blocked_class env f d.
Proof.
  intros Hd. unfold blocked_class, blocked_above.
  rewrite (existsb_same
             (fun i => is_file (f ++ added) (firstn i (key env d)))
             (fun i => is_file f (firstn i (key env d))));
    [reflexivity|].
  intros i. now apply is_file_added.
Qed.

(** One [mkdir] of the constructor. *)
Lemma mkdir_run (env : Env) (d : Path) (f : FS) (o : list string) :
  (blocked env f d = false
   /\ exists added,
        mkdir env d (mkWorld f o) = (Ok tt, mkWorld (f ++ added) o)
        /\ Forall (fun e => snd e = Dir) added
        /\ forall i, 0 < i <= List.length (key env d) ->
                     find_key (f ++ added) (firstn i (key env d)) = Some Dir)
  \/ (blocked env f d = true
      /\ mkdir env d (mkWorld f o)
         = (Raised (mkExn (blocked_class env f d)
                      (mkdir_error (blocked_class env f d) d)),
            mkWorld f o)).
Proof.
  unfold mkdir. run.
  destruct (mkdirs f [] (key env d)) as [f'|c] eqn:E.
  - left. split.
    + destruct (blocked env f d) eqn:Eb; [|reflexivity].
      apply blocked_iff, mkdirs_None in Eb as [c Hc]. congruence.
    + apply mkdirs_Some in E as [[added [-> Hd]] Hp].
      exists added. repeat split; assumption.
  - right. split.
    + apply blocked_iff, mkdirs_None. eauto.
    + apply mkdirs_class in E. unfold blocked_class, blocked_above.
      simpl in E. now rewrite <- E.
Qed.

Lemma mkdir_noop (env : Env) (d : Path) (f : FS) (o : list string) :
  (forall i, 0 < i <= List.length (key env d) ->
             find_key f (firstn i (key env d)) = Some Dir) ->
  mkdir env d (mkWorld f o) = (Ok tt, mkWorld f o).
Proof.
  intros H. unfold mkdir. run. now rewrite (mkdirs_noop _ f [] H).
Qed.

Open Scope string_scope.

Open Scope list_scope.

Lemma PDFConverter_as_mkdir_all (env : Env) (p : Path) (w : World) :
  PDFConverter env p w
  = match mkdir_all env (tree_dirs (converter_of p)) w with
    | (Ok _, w') => (Ok (converter_of p), w')
    | (Raised e, w') => (Raised e, w')
    end.
Proof.
  unfold PDFConverter, tree_dirs, mkdir_all, bind, ret.
  destruct (mkdir env (assets_in (converter_of p)) w) as [[[]|e] w1];
    [|reflexivity].
  destruct (mkdir env (assets_out (converter_of p)) w1) as [[[]|e] w2];
    [|reflexivity].
  destruct (mkdir env (png_dir (converter_of p)) w2) as [[[]|e] w3];
    [|reflexivity].
  destruct (mkdir env (nougat_out (converter_of p)) w3) as [[[]|e] w4];
    reflexivity.
Qed.

Lemma find_same {A} (p q : A -> bool) (l : list A) :
  (forall x, p x = q x) -> find p l = find q l.
Proof.
  intros H. induction l as [|x l IH]; simpl; [reflexivity|].
  now rewrite H, IH.
Qed.

(** The directories of [ds] are created in turn; the first one that is
    blocked stops the sequence with the exception of its class. *)
Lemma mkdir_all_run (env : Env) (ds : list Path) :
  forall (f : FS) (o : list string),
  (existsb (blocked env f) ds = false
   /\ exists added,
        mkdir_all env ds (mkWorld f o) = (Ok tt, mkWorld (f ++ added) o)
        /\ Forall (fun e => snd e = Dir) added
        /\ forall d, In d ds ->
           forall i, 0 < i <= List.length (key env d) ->
                     find_key (f ++ added) (firstn i (key env d)) = Some Dir)
  \/ (existsb (blocked env f) ds = true
      /\ exists e added d,
           find (blocked env f) ds = Some d
           /\ mkdir_all env ds (mkWorld f o) = (Raised e, mkWorld (f ++ added) o)
           /\ exn_class e = blocked_class env f d
           /\ Forall (fun e => snd e = Dir) added).
Proof.
  induction ds as [|d ds IH]; intros f o.
  - left. split; [reflexivity|]. exists []. rewrite app_nil_r.
    repeat split; [constructor | intros d []].
  - simpl mkdir_all. unfold bind. simpl existsb. simpl find.
    destruct (mkdir_run env d f o)
      as [[Hb [added [Hrun [Hd Hp]]]]|[Hb Hrun]]; rewrite Hrun, Hb.
    + destruct (IH (f ++ added) o)
        as [[Hbs [added' [Hrun' [Hd' Hp']]]]
           |[Hbs [e [added' [d' [Hfind [Hrun' [He Hd']]]]]]]];
        rewrite Hrun'; rewrite <- app_assoc;
        [left | right]; (split; [simpl; rewrite <- Hbs;
                                 apply existsb_same; intros x;
                                 symmetry; now apply blocked_added|]).
      * exists (added ++ added'). split; [reflexivity|].
        split; [now apply Forall_app|].
        intros d0 [<-|Hin] i Hi.
        -- rewrite app_assoc. apply find_key_added. now apply Hp.
        -- rewrite app_assoc. now apply Hp'.
      * exists e, (added ++ added'), d'. split.
        { rewrite <- Hfind. apply find_same. intros x.
          symmetry. now apply blocked_added. }
        split; [reflexivity|].
        split; [now rewrite He, blocked_class_added | now apply Forall_app].
    + right. split; [reflexivity|].
      eexists. exists [], d. rewrite app_nil_r.
      split; [reflexivity|]. split; [reflexivity|].
      split; [reflexivity | constructor].
Qed.

Lemma mkdir_all_noop (env : Env) (ds : list Path) (f : FS) (o : list string) :
  (forall d, In d ds ->
     forall i, 0 < i <= List.length (key env d) ->
               find_key f (firstn i (key env d)) = Some Dir) ->
  mkdir_all env ds (mkWorld f o) = (Ok tt, mkWorld f o).
Proof.
  induction ds as [|d ds IH]; intros H; [reflexivity|].
  simpl. unfold bind. rewrite mkdir_noop by (apply H; now left).
  apply IH. intros d0 Hin. apply H. now right.
Qed.

(** X4. When [PDFConverter(pdf_path)] returns, the four directories of the
    working tree are directories; the constructor has only added
    directories, after the entries that were there, and printed nothing;
    and constructing again on the tree it left changes nothing. *)
Theorem PDFConverter_builds_tree
    (env : Env) (p : Path) (w w' : World) (c : Converter) :
  PDFConverter env p w = (Ok c, w') ->
  c = converter_of p
  /\ out w' = out w
  /\ (exists added,
        fs w' = fs w ++ added /\ Forall (fun e => snd e = Dir) added)
  /\ Forall (fun d => lookup (fs w') (key env d) = Some Dir) (tree_dirs c)
  /\ PDFConverter env p w' = (Ok c, w').
Proof.
  destruct w as [f o]. rewrite PDFConverter_as_mkdir_all.
  destruct (mkdir_all_run env (tree_dirs (converter_of p)) f o)
    as [[_ [added [Hrun [Hd Hp]]]]|[_ [e [added [d [_ [Hrun _]]]]]]];
    rewrite Hrun; [|discriminate].
  intros H; inversion H; subst. cbn [fs out].
  split; [reflexivity|]. split; [reflexivity|].
  split; [now exists added|]. split.
  - apply Forall_forall. intros d Hin.
    destruct (key env d) as [|x k] eqn:Ek; [reflexivity|].
    rewrite lookup_nonroot by discriminate.
    rewrite <- (firstn_all (x :: k)), <- Ek. apply (Hp d Hin).
    rewrite Ek. simpl. lia.
  - rewrite PDFConverter_as_mkdir_all.
    now rewrite mkdir_all_noop.
Qed.

Lemma PDFConverter_builds_tree_witness :
  Forall (fun d =>
            lookup (fs (snd (PDFConverter Sample.env_ocr
                               (Path_of "/work/report.pdf")
                               (Sample.start Sample.fs_fresh))))
                   (key Sample.env_ocr d) = Some Dir)
         (tree_dirs Sample.report).
Proof.
  assert (H : PDFConverter Sample.env_ocr (Path_of "/work/report.pdf")
                (Sample.start Sample.fs_fresh)
              = (Ok Sample.report,
                 snd (PDFConverter Sample.env_ocr (Path_of "/work/report.pdf")
                        (Sample.start Sample.fs_fresh))))
    by (vm_compute; reflexivity).
  exact (proj1 (proj2 (proj2 (proj2
           (PDFConverter_builds_tree _ _ _ _ _ H))))).
Defined.

(** X5. [PDFConverter(pdf_path)] returns exactly when no path on the way to
    one of its four directories is a regular file.  Otherwise the first
    directory that is blocked stops it with [NotADirectoryError] when a
    path above that directory is the file (as when [assets] is one) and
    with [FileExistsError] when the directory's own path is; only
    directories have been added, and [main], which catches nothing, ends
    with that exception. *)
Theorem PDFConverter_blocked_by_file (env : Env) (p : Path) (w : World) :
  (existsb (blocked env (fs w)) (tree_dirs (converter_of p)) = false
   -> exists w', PDFConverter env p w = (Ok (converter_of p), w'))
  /\ (existsb (blocked env (fs w)) (tree_dirs (converter_of p)) = true
      -> exists e added d,
           find (blocked env (fs w)) (tree_dirs (converter_of p)) = Some d
           /\ PDFConverter env p w
              = (Raised e, mkWorld (fs w ++ added) (out w))
           /\ exn_class e
              = (if blocked_above env (fs w) d
                 then NotADirectoryError else FileExistsError)
           /\ Forall (fun e => snd e = Dir) added
           /\ forall w0,
                get_pdf_input env w0 = (Ok (Some p), w) ->
                main env w0 = (Raised e, mkWorld (fs w ++ added) (out w))).
Proof.
  destruct w as [f o]. cbn [fs out]. rewrite PDFConverter_as_mkdir_all.
  destruct (mkdir_all_run env (tree_dirs (converter_of p)) f o)
    as [[Hb [added [Hrun [Hd Hp]]]]
       |[Hb [e [added [d [Hfind [Hrun [He Hd]]]]]]]];
    rewrite Hrun, Hb; split; intros H; try discriminate.
  - eauto.
  - exists e, added, d. repeat split; try assumption.
    intros w0 Hin. unfold main. unfold bind at 1. rewrite Hin.
    unfold bind. rewrite PDFConverter_as_mkdir_all, Hrun. reflexivity.
Qed.

Lemma PDFConverter_blocked_by_file_witness :
  (exists e added,
     PDFConverter Sample.env_ocr (Path_of "/work/report.pdf")
       (Sample.start Sample.fs_assets_is_file)
     = (Raised e, mkWorld (Sample.fs_assets_is_file ++ added) [])
     /\ exn_class e = NotADirectoryError)
  /\ (exists e added,
        PDFConverter Sample.env_ocr (Path_of "/work/report.pdf")
          (Sample.start Sample.fs_in_is_file)
        = (Raised e, mkWorld (Sample.fs_in_is_file ++ added) [])
        /\ exn_class e = FileExistsError).
Proof.
  split.
  - destruct (proj2 (PDFConverter_blocked_by_file Sample.env_ocr
                       (Path_of "/work/report.pdf")
                       (Sample.start Sample.fs_assets_is_file)) eq_refl)
      as [e [added [d [Hfind [Hrun [He _]]]]]].
    exists e, added. split; [exact Hrun|].
    vm_compute in Hfind. inversion Hfind; subst d. exact He.
  - destruct (proj2 (PDFConverter_blocked_by_file Sample.env_ocr
                       (Path_of "/work/report.pdf")
                       (Sample.start Sample.fs_in_is_file)) eq_refl)
      as [e [added [d [Hfind [Hrun [He _]]]]]].
    exists e, added. split; [exact Hrun|].
    vm_compute in Hfind. inversion Hfind; subst d. exact He.
Defined.

Open Scope string_scope.

(* ===================================================================== *)
(** ** Stage D fails *)

(** X6. Stage D fails without touching the file system when the output
    path cannot be opened for writing: the output directory is not a
    directory, or the output path is one. *)
Theorem generate_fails_on_unwritable_output
    (env : Env) (p : Path) (w : World) :
  let c := converter_of p in
  lookup (fs w) (key env (assets_out c)) <> Some Dir
  \/ lookup (fs w) (key env (rmd_output c)) = Some Dir ->
  fst (_generate_base_rmd env c w) = Ok false
  /\ fs (snd (_generate_base_rmd env c w)) = fs w.
Proof.
  intros c Hbad. subst c. destruct w as [f o]. cbn [fs] in *.
  destruct (generate_unwritable env p f o) as [log Hf].
  - intros [H1 H2]. destruct Hbad; congruence.
  - rewrite Hf. split; reflexivity.
Qed.

Lemma generate_fails_on_unwritable_output_witness :
  fst (_generate_base_rmd Sample.env_ocr Sample.report
         (Sample.start Sample.fs_fresh)) = Ok false
  /\ fs (snd (_generate_base_rmd Sample.env_ocr Sample.report
                (Sample.start Sample.fs_fresh))) = Sample.fs_fresh.
Proof.
  apply (generate_fails_on_unwritable_output Sample.env_ocr
           (Path_of "/work/report.pdf") (Sample.start Sample.fs_fresh)).
  left. vm_compute. discriminate.
Defined.

(** X7. When the first transcript enumerated cannot be read as a file (it
    is a directory, say), Stage D fails after it has opened the output: the
    output document is left holding the header and nothing else. *)
Theorem generate_leaves_header_on_unreadable_transcript
    (env : Env) (p : Path) (w : World) (first : string) (rest : list string) :
  let c := converter_of p in
  output_writable env c (fs w) ->
  entries_with env (fs w) (nougat_out c) ".mmd" = first :: rest ->
  (forall t m, lookup (fs w) (key env (child (nougat_out c) first))
               <> Some (File t m)) ->
  fst (_generate_base_rmd env c w) = Ok false
  /\ output_document env c (fs (snd (_generate_base_rmd env c w)))
     = Some (rmd_header c).
Proof.
  intros c Hw Hsome Hbad. subst c. destruct w as [f o]. cbn [fs] in *.
  destruct (generate_unreadable env p f o first rest Hw Hsome
              (fun t m => Hbad (Text t) m))
    as [log Hf].
  rewrite Hf. split; [reflexivity|]. cbn [snd fs].
  apply output_document_found
    with (m := stamp env
                 (old_meta f (key env (rmd_output (converter_of p))))).
  apply with_header_document.
Qed.

Lemma generate_leaves_header_on_unreadable_transcript_witness :
  fst (_generate_base_rmd Sample.env_ocr Sample.report
         (Sample.start Sample.fs_transcript_dir)) = Ok false
  /\ output_document Sample.env_ocr Sample.report
       (fs (snd (_generate_base_rmd Sample.env_ocr Sample.report
                   (Sample.start Sample.fs_transcript_dir))))
     = Some (rmd_header Sample.report).
Proof.
  apply (generate_leaves_header_on_unreadable_transcript Sample.env_ocr
           (Path_of "/work/report.pdf")
           (Sample.start Sample.fs_transcript_dir) "report.mmd" []).
  - split; [vm_compute; reflexivity | vm_compute; discriminate].
  - vm_compute. reflexivity.
  - intros t m. vm_compute. discriminate.
Defined.

(* ===================================================================== *)
(** ** The pipeline as a whole *)

(** X8. [convert] never raises and returns 0 or 1; it returns 0 exactly
    when the four stages return [True] one after the other, each started in
    the world the one before left, and then it only adds the summary to the
    log. *)
Theorem convert_exit_code (env : Env) (c : Converter) (w : World) :
  exists code w',
    convert env c w = (Ok code, w')
    /\ (code = 0%Z \/ code = 1%Z)
    /\ (code = 0%Z
        <-> exists w1 w2 w3 w4,
              _copy_pdf env c (mkWorld (fs w) (out w ++ convert_banner)%list)
              = (Ok true, w1)
              /\ _pdf_to_png env c w1 = (Ok true, w2)
              /\ _run_nougat env c w2 = (Ok true, w3)
              /\ _generate_base_rmd env c w3 = (Ok true, w4)
              /\ w' = mkWorld (fs w4) (out w4 ++ summary c)%list).
Proof.
  rewrite convert_stages.
  destruct (copy_pdf_total env c
              (mkWorld (fs w) (out w ++ convert_banner)%list))
    as [b1 [w1 H1]]. rewrite H1.
  destruct b1.
  2:{ exists 1%Z, w1. repeat split; auto; try discriminate.
      intros [x1 [x2 [x3 [x4 [E _]]]]]. discriminate. }
  destruct (pdf_to_png_total env c w1) as [b2 [w2 H2]]. rewrite H2.
  destruct b2.
  2:{ exists 1%Z, w2. repeat split; auto; try discriminate.
      intros [x1 [x2 [x3 [x4 [E [E2 _]]]]]].
      inversion E; subst x1. rewrite H2 in E2. discriminate. }
  destruct (run_nougat_total env c w2) as [b3 [w3 H3]]. rewrite H3.
  destruct b3.
  2:{ exists 1%Z, w3. repeat split; auto; try discriminate.
      intros [x1 [x2 [x3 [x4 [E [E2 [E3 _]]]]]]].
      inversion E; subst x1. rewrite H2 in E2. inversion E2; subst x2.
      rewrite H3 in E3. discriminate. }
  destruct (generate_base_rmd_total env c w3) as [b4 [w4 H4]]. rewrite H4.
  destruct b4.
  2:{ exists 1%Z, w4. repeat split; auto; try discriminate.
      intros [x1 [x2 [x3 [x4 [E [E2 [E3 [E4 _]]]]]]]].
      inversion E; subst x1. rewrite H2 in E2. inversion E2; subst x2.
      rewrite H3 in E3. inversion E3; subst x3.
      rewrite H4 in E4. discriminate. }
  eexists. eexists. split; [reflexivity|]. split; [now left|].
  split; [intros _|reflexivity].
  exists w1, w2, w3, w4. repeat split; assumption.
Qed.

(** X9. Stage A is fatal on failure: with no staged copy, when the supplied
    path is not a regular file (a directory named like a PDF passes
    validation) or the staging directory is not a directory, Stage A
    returns [False] and [convert] returns 1 with the file system as it
    was. *)
Theorem copy_failure_is_fatal (env : Env) (c : Converter) (w : World) :
  lookup (fs w) (key env (copied_pdf c)) = None ->
  (forall d m, lookup (fs w) (key env (pdf_path c)) <> Some (File d m))
  \/ lookup (fs w) (parent (key env (copied_pdf c))) <> Some Dir ->
  fst (_copy_pdf env c w) = Ok false
  /\ fst (convert env c w) = Ok 1%Z
  /\ fs (snd (convert env c w)) = fs w.
Proof.
  intros Hnone Hbad.
  assert (Hc : copyable env c (fs w) = None).
  { unfold copyable. destruct (key_eqb _ _); [reflexivity|].
    destruct (lookup (fs w) (key env (pdf_path c))) as [[d m|]|] eqn:Es;
      try reflexivity.
    destruct (lookup (fs w) (parent (key env (copied_pdf c))))
      as [[d' m'|]|] eqn:Ep; try reflexivity.
    exfalso. destruct Hbad as [H|H]; [now apply (H d m) | now apply H]. }
  split.
  - destruct (copy_pdf_fresh env c w Hnone) as [log H].
    rewrite Hc in H. now rewrite H.
  - rewrite convert_stages.
    destruct (copy_pdf_fresh env c
                (mkWorld (fs w) (out w ++ convert_banner)%list) Hnone)
      as [log H].
    cbn [fs] in H. rewrite Hc in H. rewrite H. split; reflexivity.
Qed.

Lemma copy_failure_is_fatal_witness :
  fst (convert Sample.env_ocr (converter_of (Path_of "/work"))
         (Sample.start Sample.fs_ready)) = Ok 1%Z
  /\ fs (snd (convert Sample.env_ocr (converter_of (Path_of "/work"))
                (Sample.start Sample.fs_ready))) = Sample.fs_ready.
Proof.
  apply (copy_failure_is_fatal Sample.env_ocr (converter_of (Path_of "/work"))
           (Sample.start Sample.fs_ready)).
  - vm_compute. reflexivity.
  - left. intros d m. vm_compute. discriminate.
Defined.

(** X10. Stage C changes the file system only through the OCR tool, which
    it starts only when the lookup reports the executable as resolvable; it
    returns [False] exactly when the lookup reports it as not resolvable
    and [True] in every other case, whatever the OCR tool's exit code. *)
Theorem run_nougat_frame (env : Env) (c : Converter) (w : World) :
  fs (snd (_run_nougat env c w)) = transcribed env c (fs w)
  /\ (nougat_unresolved env -> fst (_run_nougat env c w) = Ok false)
  /\ (~ nougat_unresolved env -> fst (_run_nougat env c w) = Ok true).
Proof.
  split; [|split].
  - destruct w as [f o]. unfold transcribed, _run_nougat, run_which.
    destruct (which env) as [look|]; run; [|reflexivity].
    destruct (look "nougat" =? 0)%Z; run; [|reflexivity].
    unfold subprocess_run. destruct (nougat env) as [t|]; run; [|reflexivity].
    destruct (t (nougat_cmd c) f) as [[rc err] f']. run.
    destruct (rc =? 0)%Z; run; unfold glob; run;
      match goal with
      | |- context [filter ?p ?l] => destruct (filter p l); run; reflexivity
      end.
  - intros H. now rewrite (run_nougat_unresolved env c w H).
  - intros H. destruct (run_nougat_continues env c w H) as [w3 E].
    now rewrite E.
Qed.


(* ===================================================================== *)
(** ** Native and canonical names *)

Lemma digits_of_uint (d : Decimal.uint) :
  forallb isdigit (chars (NilEmpty.string_of_uint d)) = true.
Proof. induction d; simpl; auto. Qed.

Lemma str_of_N_digits (k : N) :
  forallb isdigit (chars (str_of_N k)) = true.
Proof. apply digits_of_uint. Qed.

Lemma str_of_N_nonempty (k : N) : str_of_N k <> "".
Proof.
  unfold str_of_N. intros H.
  assert (E : N.to_uint k = Decimal.Nil).
  { destruct (N.to_uint k); simpl in H; try discriminate. reflexivity. }
  pose proof (DecimalN.Unsigned.of_to k) as Hk. rewrite E in Hk.
  simpl in Hk. subst k. discriminate.
Qed.

(** [int(str(k)) == k] *)
Lemma int_of_str (k : N) : int_of_digits (str_of_N k) = k.
Proof.
  unfold int_of_digits, str_of_N. rewrite NilEmpty.usu.
  apply DecimalN.Unsigned.of_to.
Qed.



Lemma takewhile_digits_then_dot (ds : string) (r : string) :
  forallb isdigit (chars ds) = true ->
  takewhile isdigit (chars (ds ++ String "."%char r)) = chars ds
  /\ dropwhile isdigit (chars (ds ++ String "."%char r))
     = chars (String "."%char r).
Proof.
  induction ds as [|a ds IH]; simpl; intros H; [split; reflexivity|].
  apply andb_true_iff in H as [Ha Hd]. unfold chars in *. rewrite Ha.
  destruct (IH Hd) as [-> ->]. split; reflexivity.
Qed.





Lemma takewhile_canonical (k : N) :
  takewhile isdigit (chars (canonical_name k)) = chars (str_of_N k).
Proof.
  unfold canonical_name.
  now destruct (takewhile_digits_then_dot (str_of_N k) "png"
                  (str_of_N_digits k)) as [-> _].
Qed.

Lemma canonical_name_inj (k1 k2 : N) :
  canonical_name k1 = canonical_name k2 -> k1 = k2.
Proof.
  intros H.
  assert (E : chars (str_of_N k1) = chars (str_of_N k2))
    by now rewrite <- !takewhile_canonical, H.
  rewrite <- (int_of_str k1), <- (int_of_str k2).
  now rewrite <- (text_chars (str_of_N k1)), E, text_chars.
Qed.

(** X13. Canonical names are told apart by [is_canonicalb], and distinct
    page numbers have distinct canonical names. *)
Theorem canonical_names_decided (n : string) :
  (is_canonicalb n = true <-> is_canonical n)
  /\ forall k1 k2, canonical_name k1 = canonical_name k2 -> k1 = k2.
Proof.
  split.
  - split.
    + unfold is_canonicalb, is_canonical.
      destruct (takewhile isdigit (chars n)) as [|a l]; [discriminate|].
      intros H. apply String.eqb_eq in H. eauto.
    + intros [k ->]. unfold is_canonicalb. rewrite takewhile_canonical.
      destruct (chars (str_of_N k)) as [|a l] eqn:E.
      * exfalso. apply (str_of_N_nonempty k).
        rewrite <- (text_chars (str_of_N k)), E. reflexivity.
      * rewrite <- E, text_chars, int_of_str. apply String.eqb_refl.
  - apply canonical_name_inj.
Qed.

(** X14. After a successful Stage B no entry of the pages directory is a
    native name with a page number: each one has been renamed, and no
    canonical name is one. *)
Theorem pdf_to_png_leaves_no_native_name
    (env : Env) (c : Converter) (w w' : World) (n : string) :
  _pdf_to_png env c w = (Ok true, w') ->
  In n (listdir (fs w') (key env (png_dir c))) ->
  native_page n = None.
Proof.
  intros H Hin.
  apply (pdf_to_png_names env c w w' n H) in Hin
    as [[_ Hn]|[m [k [_ [_ ->]]]]]; [assumption|].
  unfold native_page. now rewrite canonical_not_native_glob.
Qed.

Lemma pdf_to_png_leaves_no_native_name_witness :
  native_page "2.png" = None /\ native_page "cover.png" = None.
Proof.
  assert (Hrun : _pdf_to_png Sample.env_no_ocr Sample.report
                   (Sample.start Sample.fs_cover)
                 = (Ok true,
                    snd (_pdf_to_png Sample.env_no_ocr Sample.report
                           (Sample.start Sample.fs_cover))))
    by (vm_compute; reflexivity).
  split.
  - apply (pdf_to_png_leaves_no_native_name _ _ _ _ "2.png" Hrun).
    vm_compute. tauto.
  - apply (pdf_to_png_leaves_no_native_name _ _ _ _ "cover.png" Hrun).
    vm_compute. tauto.
Defined.

(* ===================================================================== *)
(** ** The header *)

Lemma no_newline_app (a b : string) :
  no_newline (a ++ b) = no_newline a && no_newline b.
Proof. unfold no_newline. now rewrite chars_app, forallb_app. Qed.

Lemma split_on_plain (c : ascii) (s : string) :
  forallb (fun a => negb (Ascii.eqb a c)) (chars s) = true ->
  split_on c s = [s].
Proof.
  induction s as [|a s IH]; simpl; intros H; [reflexivity|].
  apply andb_true_iff in H as [Ha Hs]. apply negb_true_iff in Ha.
  rewrite Ha. unfold chars in IH. now rewrite (IH Hs).
Qed.

Lemma split_on_line (c : ascii) (l r : string) :
  forallb (fun a => negb (Ascii.eqb a c)) (chars l) = true ->
  split_on c (l ++ String c r) = l :: split_on c r.
Proof.
  induction l as [|a l IH]; simpl; intros H.
  - now rewrite Ascii.eqb_refl.
  - apply andb_true_iff in H as [Ha Hs]. apply negb_true_iff in Ha.
    rewrite Ha. unfold chars in IH. now rewrite (IH Hs).
Qed.

(** Splitting the lines that [join] has put together gives them back. *)
Lemma split_join_lines (l : string) (ls : list string) :
  Forall (fun x => no_newline x = true) (l :: ls) ->
  split_on (ascii_of_nat 10) (join NL (l :: ls)) = l :: ls.
Proof.
  revert l; induction ls as [|l' ls IH]; intros l H.
  - inversion H; subst. simpl. now apply split_on_plain.
  - inversion H; subst.
    change (join NL (l :: l' :: ls))
      with (l ++ String (ascii_of_nat 10) (join NL (l' :: ls))).
    rewrite split_on_line by assumption. f_equal. now apply IH.
Qed.

Lemma lstrip_after_newline (a : ascii) (s : string) :
  isspace a = false -> lstrip (NL ++ String a s) = String a s.
Proof.
  intros Ha. unfold lstrip. simpl. rewrite Ha.
  simpl. now rewrite text_chars.
Qed.

Lemma lstrip_join (a : ascii) (s : string) (ls : list string) :
  isspace a = false ->
  lstrip (join NL ("" :: String a s :: ls)) = join NL (String a s :: ls).
Proof.
  intros Ha.
  assert (E : exists r, join NL (String a s :: ls) = String a r)
    by (destruct ls; simpl; eauto).
  destruct E as [r E].
  change (join NL ("" :: String a s :: ls))
    with (NL ++ join NL (String a s :: ls)).
  rewrite E. now apply lstrip_after_newline.
Qed.

Lemma remove_margin_prefix (m s : string) : Textwrap.remove_margin m (m ++ s) = s.
Proof.
  unfold Textwrap.remove_margin. rewrite prefix_append, length_append.
  replace (String.length m + String.length s - String.length m)
    with (String.length s) by lia.
  induction m as [|a m IH]; simpl; [apply substring_whole | exact IH].
Qed.

Lemma remove_margin_indented (m l : string) :
  Textwrap.remove_margin m (indented m l) = l.
Proof.
  unfold indented. destruct (String.eqb_spec l "") as [->|_].
  - unfold Textwrap.remove_margin. destruct (prefix m ""); [|reflexivity].
    now destruct (String.length m).
  - apply remove_margin_prefix.
Qed.

(** X15. For a source whose name holds no line feed, the header Stage D
    writes is the template with its margin of sixteen blanks removed from
    every line: the lines of [header_lines] joined by line feeds, starting
    with the rule [---] and the title line and ending with an empty
    line. *)
Theorem header_of_plain_title (c : Converter) :
  no_newline (pdf_name c) = true ->
  rmd_header c = header_text (pdf_name c).
Proof.
  intros Hn. unfold rmd_header, header_text.
  set (title := pdf_name c) in *.
  assert (Hlines : Forall (fun x => no_newline x = true)
                     ("" :: map (fun l => times " " 16 ++ l)
                                (header_lines title))).
  { unfold header_lines.
    repeat (constructor; [first [reflexivity|idtac]|]); [|constructor].
    rewrite !no_newline_app, Hn. reflexivity. }
  assert (Ht : header_template title
               = join NL ("" :: map (fun l => times " " 16 ++ l)
                                    (header_lines title)))
    by reflexivity.
  unfold Textwrap.dedent. rewrite Ht, split_join_lines by assumption.
  clear Hlines Ht Hn.
  assert (Hnorm : map Textwrap.normalize_line
                    ("" :: map (fun l => times " " 16 ++ l)
                               (header_lines title))
                  = "" :: map (indented (times " " 16)) (header_lines title)).
  { unfold header_lines. cbn [append].
    generalize (DQ ++ title ++ DQ). intros r.
    vm_compute. reflexivity. }
  rewrite Hnorm.
  assert (Hmargin : Textwrap.margin_of
                      ("" :: map (indented (times " " 16))
                                 (header_lines title))
                    = Some (times " " 16)).
  { unfold header_lines. cbn [append].
    generalize (DQ ++ title ++ DQ). intros r.
    vm_compute. reflexivity. }
  rewrite Hmargin.
  cbn [map]. rewrite map_map.
  rewrite (map_ext _ (fun l => l))
    by (intros l; apply remove_margin_indented).
  rewrite map_id.
  change (Textwrap.remove_margin (times " " 16) "") with "".
  unfold header_lines. apply lstrip_join. reflexivity.
Qed.

Lemma header_of_plain_title_witness :
  rmd_header Sample.report = header_text "report".
Proof.
  apply (header_of_plain_title Sample.report). reflexivity.
Defined.

(* ===================================================================== *)
(** ** Stage D again *)

(** A successful Stage D leaves the listings of the two subdirectories of
    the output directory as they were. *)
Lemma generate_listing (env : Env) (p : Path) (f : FS) (o : list string)
    (w' : World) :
  _generate_base_rmd env (converter_of p) (mkWorld f o) = (Ok true, w') ->
  listdir (fs w') (key env (nougat_out (converter_of p)))
  = listdir f (key env (nougat_out (converter_of p)))
  /\ listdir (fs w') (key env (png_dir (converter_of p)))
     = listdir f (key env (png_dir (converter_of p))).
Proof.
  intros H. pose proof (generate_done env p f o w' H) as [Hw [_ Hcase]].
  revert H. unfold _generate_base_rmd. rewrite after_print. cbn [fs out].
  rewrite (generate_opens env (converter_of p) (parent_rmd_output env p))
    by assumption.
  unfold glob, fwrite, read_text, entries_with in *. run.
  rewrite (with_header_nougat env (converter_of p) (rmd_not_in_nougat env p)).
  destruct Hcase as [[Ee _]|[first [rest [t [m [Ee [El _]]]]]]]; rewrite Ee; run.
  - intros H. inversion H; subst w'. cbn [fs].
    rewrite !listdir_append_data.
    split; [now apply with_header_nougat, rmd_not_in_nougat
           | now apply with_header_png, rmd_not_in_png].
  - assert (Hne : key env (child (nougat_out (converter_of p)) first)
                  <> key env (rmd_output (converter_of p))).
    { rewrite key_child. intros E.
      pose proof (rmd_not_in_nougat env p) as Hn.
      rewrite <- E, child_name_last in Hn. discriminate. }
    assert (Hk : key env (child (nougat_out (converter_of p)) first) <> []).
    { rewrite key_child. intros E. now apply app_eq_nil in E as [_ E]. }
    rewrite lookup_nonroot in El |- * by assumption.
    rewrite with_header_other, El by assumption. run.
    intros H. inversion H; subst w'. cbn [fs].
    rewrite !listdir_append_data.
    split; [now apply with_header_nougat, rmd_not_in_nougat
           | now apply with_header_png, rmd_not_in_png].
Qed.

Lemma assets_out_not_rmd (env : Env) (p : Path) :
  key env (assets_out (converter_of p))
  <> key env (rmd_output (converter_of p)).
Proof.
  rewrite key_rmd_output. intros H.
  apply (f_equal (@List.length _)) in H. rewrite length_app in H.
  simpl in H. lia.
Qed.

(** X16. Stage D can be repeated: after a run that returned [True], a
    second run on the file system the first left returns [True] again and
    writes the same document over the first. *)
Theorem generate_is_repeatable (env : Env) (p : Path) (w w1 : World) :
  let c := converter_of p in
  _generate_base_rmd env c w = (Ok true, w1) ->
  exists w2,
    _generate_base_rmd env c w1 = (Ok true, w2)
    /\ output_document env c (fs w2) = output_document env c (fs w1)
    /\ output_document env c (fs w1) <> None.
Proof.
  intros c H. subst c. destruct w as [f o]. destruct w1 as [f1 o1].
  pose proof (generate_listing env p f o _ H) as [Hn Hp]. cbn [fs] in *.
  pose proof (generate_done env p f o _ H) as [[Hdir Hfile] [Hother Hcase]].
  cbn [fs] in *.
  assert (Hlook : forall k, k <> key env (rmd_output (converter_of p)) ->
                            lookup f1 k = lookup f k).
  { intros [|x k] Hk; [reflexivity|]. now apply Hother. }
  assert (Hw1 : forall d, output_document env (converter_of p) f1 = Some d ->
                          output_writable env (converter_of p) f1).
  { intros d Hd. split.
    - rewrite Hlook; [assumption | apply assets_out_not_rmd].
    - unfold output_document in Hd.
      destruct (lookup f1 (key env (rmd_output (converter_of p))))
        as [[d' m'|]|]; discriminate. }
  destruct Hcase as [[Ee Hdoc]|[first [rest [t [m [Ee [El Hdoc]]]]]]].
  - assert (Ee1 : entries_with env f1 (nougat_out (converter_of p)) ".mmd" = [])
      by (unfold entries_with in *; now rewrite Hn).
    destruct (generate_placeholder env (converter_of p)
                (parent_rmd_output env p) (rmd_not_in_nougat env p)
                (rmd_not_in_png env p) f1 o1 (Hw1 _ Hdoc) Ee1)
      as [f2 [log [Hrun [Hdoc2 _]]]].
    exists (mkWorld f2 log). cbn [fs]. split; [assumption|].
    apply output_document_found in Hdoc2. rewrite Hdoc2, Hdoc.
    unfold entries_with. rewrite Hp. split; [reflexivity | discriminate].
  - assert (Ee1 : entries_with env f1 (nougat_out (converter_of p)) ".mmd"
                  = first :: rest)
      by (unfold entries_with in *; now rewrite Hn).
    assert (El1 : lookup f1 (key env (child (nougat_out (converter_of p)) first))
                  = Some (File (Text t) m)).
    { rewrite Hlook; [assumption|]. rewrite key_child. intros E.
      pose proof (rmd_not_in_nougat env p) as Hx.
      rewrite <- E, child_name_last in Hx. discriminate. }
    destruct (generate_transcript env (converter_of p)
                (parent_rmd_output env p) (rmd_not_in_nougat env p)
                f1 o1 first rest t m (Hw1 _ Hdoc) Ee1 El1)
      as [f2 [log [Hrun [Hdoc2 _]]]].
    exists (mkWorld f2 log). cbn [fs]. split; [assumption|].
    apply output_document_found in Hdoc2. rewrite Hdoc2, Hdoc.
    split; [reflexivity | discriminate].
Qed.

Lemma generate_is_repeatable_witness :
  exists w2,
    _generate_base_rmd Sample.env_ocr Sample.report
      (snd (_generate_base_rmd Sample.env_ocr Sample.report
              (Sample.start Sample.fs_two_transcripts)))
    = (Ok true, w2).
Proof.
  assert (H : _generate_base_rmd Sample.env_ocr
                (converter_of (Path_of "/work/report.pdf"))
                (Sample.start Sample.fs_two_transcripts)
              = (Ok true,
                 snd (_generate_base_rmd Sample.env_ocr Sample.report
                        (Sample.start Sample.fs_two_transcripts))))
    by (vm_compute; reflexivity).
  destruct (generate_is_repeatable _ _ _ _ H) as [w2 [Hrun _]].
  exists w2. exact Hrun.
Defined.

(* ===================================================================== *)
(** ** Stage B: what the renamed files hold *)

Open Scope list_scope.

Lemma strip_prefix_self (k : Key) : strip_prefix k k = Some [].
Proof. apply strip_prefix_Some. now rewrite app_nil_r. Qed.

(** After [a] has taken the place of [b], the node at [b] is the one that
    was at [a]. *)
Lemma find_key_move_target (f : FS) (d : Key) (a b : string) :
  a <> b ->
  find_key (move f (d ++ [a]) (d ++ [b])) (d ++ [b]) = find_key f (d ++ [a]).
Proof.
  intros Hab. unfold move, remove_key.
  induction f as [|[k0 n0] f IH]; [reflexivity|]. simpl.
  destruct (key_eqb k0 (d ++ [b])) eqn:Eb; simpl.
  - apply key_eqb_eq in Eb. subst k0.
    assert (E : key_eqb (d ++ [b]) (d ++ [a]) = false).
    { apply key_eqb_neq. intros H. apply app_inv_head in H.
      inversion H; congruence. }
    now rewrite E.
  - apply key_eqb_neq in Eb. unfold rekey at 1.
    destruct (strip_prefix (d ++ [a]) k0) as [rest|] eqn:Es.
    + apply strip_prefix_Some in Es. subst k0.
      destruct rest as [|x rest].
      * rewrite !app_nil_r, !key_eqb_refl. reflexivity.
      * assert (E1 : key_eqb ((d ++ [b]) ++ x :: rest) (d ++ [b]) = false).
        { apply key_eqb_neq. intros H.
          rewrite <- (app_nil_r (d ++ [b])) in H at 2.
          apply app_inv_head in H. discriminate. }
        assert (E2 : key_eqb ((d ++ [a]) ++ x :: rest) (d ++ [a]) = false).
        { apply key_eqb_neq. intros H.
          rewrite <- (app_nil_r (d ++ [a])) in H at 2.
          apply app_inv_head in H. discriminate. }
        rewrite E1, E2. exact IH.
    + assert (E1 : key_eqb k0 (d ++ [b]) = false) by now apply key_eqb_neq.
      assert (E2 : key_eqb k0 (d ++ [a]) = false).
      { apply key_eqb_neq. intros ->. rewrite strip_prefix_self in Es.
        discriminate. }
      rewrite E1, E2. exact IH.
Qed.

(** The other entries of the directory keep their node. *)
Lemma find_key_move_other (f : FS) (d : Key) (a b n : string) :
  n <> a -> n <> b ->
  find_key (move f (d ++ [a]) (d ++ [b])) (d ++ [n]) = find_key f (d ++ [n]).
Proof.
  intros Hna Hnb. unfold move, remove_key.
  induction f as [|[k0 n0] f IH]; [reflexivity|]. simpl.
  destruct (key_eqb k0 (d ++ [b])) eqn:Eb; simpl.
  - apply key_eqb_eq in Eb. subst k0.
    assert (E : key_eqb (d ++ [b]) (d ++ [n]) = false).
    { apply key_eqb_neq. intros H. apply app_inv_head in H.
      inversion H; congruence. }
    now rewrite E.
  - unfold rekey at 1.
    destruct (strip_prefix (d ++ [a]) k0) as [rest|] eqn:Es.
    + apply strip_prefix_Some in Es. subst k0.
      assert (E1 : key_eqb ((d ++ [b]) ++ rest) (d ++ [n]) = false).
      { apply key_eqb_neq. intros H. rewrite <- app_assoc in H.
        apply app_inv_head in H. inversion H; congruence. }
      assert (E2 : key_eqb ((d ++ [a]) ++ rest) (d ++ [n]) = false).
      { apply key_eqb_neq. intros H. rewrite <- app_assoc in H.
        apply app_inv_head in H. inversion H; congruence. }
      rewrite E1, E2. exact IH.
    + destruct (key_eqb k0 (d ++ [n])); [reflexivity | exact IH].
Qed.

Lemma target_is_canonical (m b : string) :
  target m = Some b -> exists k, b = canonical_name k.
Proof.
  unfold target. destruct (Re.search_page m) as [ds|]; [|discriminate].
  simpl. intros H. inversion H. eauto.
Qed.

Lemma native_is_no_target (m m' b : string) :
  fnmatch_star "page-" ".png" m = true -> target m' = Some b -> m <> b.
Proof.
  intros Hg Ht ->. apply target_is_canonical in Ht as [k ->].
  rewrite canonical_not_native_glob in Hg. discriminate.
Qed.

Section Renamed.
Variable env : Env.
Variable c : Converter.

(** Every page file that is renamed was in the directory from the start. *)
Lemma renamed_were_present (P : list string) :
  (forall m, In m P -> fnmatch_star "page-" ".png" m = true) ->
  forall (f : FS) (o : list string) (w' : World),
  rename_pages env c P (mkWorld f o) = (Ok tt, w') ->
  forall m, In m P -> target m <> None ->
            In m (listdir f (key env (png_dir c))).
Proof.
  induction P as [|a P IH]; intros HP f o w' Hrun m Hin Ht; [destruct Hin|].
  simpl in Hrun. unfold bind in Hrun.
  destruct (rename_page env c a (mkWorld f o)) as [[[]|e] w1] eqn:E1;
    [|discriminate].
  apply rename_page_done in E1.
  assert (HP' : forall m', In m' P -> fnmatch_star "page-" ".png" m' = true)
    by (intros; apply HP; now right).
  destruct (target a) as [b|] eqn:Ea.
  - destruct E1 as [-> Ha]. destruct Hin as [<-|Hin]; [assumption|].
    pose proof (IH HP' _ _ _ Hrun m Hin Ht) as Hm.
    assert (Hab : a <> b)
      by (apply (native_is_no_target a a b); [apply HP; now left | assumption]).
    apply (In_listdir_move _ _ _ _ _ Hab) in Hm as [[Hm _]|[-> _]];
      [assumption|].
    exfalso. apply (native_is_no_target b a b); auto.
  - subst w1. destruct Hin as [<-|Hin]; [congruence|].
    apply (IH HP' _ _ _ Hrun m Hin Ht).
Qed.

(** An entry that is neither renamed nor the target of a rename keeps its
    node. *)
Lemma rename_pages_frame (P : list string) :
  forall (f : FS) (o : list string) (w' : World),
  rename_pages env c P (mkWorld f o) = (Ok tt, w') ->
  forall n,
    (forall m, In m P -> target m <> None -> m <> n) ->
    (forall m, In m P -> target m <> Some n) ->
    find_key (fs w') (key env (png_dir c) ++ [n])
    = find_key f (key env (png_dir c) ++ [n]).
Proof.
  induction P as [|a P IH]; intros f o w' Hrun n H1 H2.
  - simpl in Hrun. unfold ret in Hrun. now inversion Hrun.
  - simpl in Hrun. unfold bind in Hrun.
    destruct (rename_page env c a (mkWorld f o)) as [[[]|e] w1] eqn:E1;
      [|discriminate].
    apply rename_page_done in E1.
    assert (H1' : forall m, In m P -> target m <> None -> m <> n)
      by (intros; apply H1; [now right | assumption]).
    assert (H2' : forall m, In m P -> target m <> Some n)
      by (intros; apply H2; now right).
    destruct (target a) as [b|] eqn:Ea.
    + destruct E1 as [-> Ha].
      rewrite (IH _ _ _ Hrun n H1' H2').
      apply find_key_move_other.
      * intros ->. apply (H1 a); [now left | congruence | reflexivity].
      * intros ->. apply (H2 a); [now left | assumption].
    + subst w1. apply (IH _ _ _ Hrun n H1' H2').
Qed.

(** The canonical name of a page that one page file only has holds the
    node of that page file. *)
Lemma rename_pages_content (P : list string) :
  (forall m, In m P -> fnmatch_star "page-" ".png" m = true) ->
  forall (f : FS) (o : list string) (w' : World),
  rename_pages env c P (mkWorld f o) = (Ok tt, w') ->
  forall m b,
    In m P -> target m = Some b ->
    (forall m', In m' P -> target m' = Some b -> m' = m) ->
    find_key (fs w') (key env (png_dir c) ++ [b])
    = find_key f (key env (png_dir c) ++ [m]).
Proof.
  induction P as [|a P IH]; intros HP f o w' Hrun m b Hin Ht Huniq;
    [destruct Hin|].
  simpl in Hrun. unfold bind in Hrun.
  destruct (rename_page env c a (mkWorld f o)) as [[[]|e] w1] eqn:E1;
    [|discriminate].
  apply rename_page_done in E1.
  assert (HP' : forall m', In m' P -> fnmatch_star "page-" ".png" m' = true)
    by (intros; apply HP; now right).
  assert (Huniq' : forall m', In m' P -> target m' = Some b -> m' = m)
    by (intros; apply Huniq; [now right | assumption]).
  destruct (string_dec m a) as [->|Hma].
  - rewrite Ht in E1. destruct E1 as [-> Ha].
    assert (Hab : a <> b)
      by (apply (native_is_no_target a a b); [apply HP; now left | assumption]).
    assert (HaP : ~ In a P).
    { intros HinP.
      pose proof (renamed_were_present P HP' _ _ _ Hrun a HinP) as Hpres.
      rewrite Ht in Hpres. specialize (Hpres ltac:(discriminate)).
      apply (In_listdir_move _ _ _ _ _ Hab) in Hpres as [[_ [Hx _]]|[Hx _]];
        congruence. }
    rewrite (rename_pages_frame P _ _ _ Hrun b).
    + now apply find_key_move_target.
    + intros m' Hm' Htm' ->.
      destruct (target b) as [b'|] eqn:Eb; [|congruence].
      apply (native_is_no_target b a b); auto.
    + intros m' Hm' Htm'. apply HaP.
      now rewrite <- (Huniq' m' Hm' Htm').
  - destruct Hin as [->|Hin]; [congruence|].
    destruct (target a) as [ba|] eqn:Ea.
    + destruct E1 as [-> Ha].
      rewrite (IH HP' _ _ _ Hrun m b Hin Ht Huniq').
      apply find_key_move_other; [assumption|].
      apply (native_is_no_target m a ba); [now apply HP' | assumption].
    + subst w1. apply (IH HP' _ _ _ Hrun m b Hin Ht Huniq').
Qed.

End Renamed.

Open Scope string_scope.

Open Scope list_scope.

(** A rename inside a directory leaves every key that is not below the
    directory as it was. *)
Lemma find_key_move_outside (f : FS) (d : Key) (a b : string) (k : Key) :
  (forall n rest, k <> d ++ n :: rest) ->
  find_key (move f (d ++ [a]) (d ++ [b])) k = find_key f k.
Proof.
  intros Hout.
  assert (Hk : forall x rest, k <> (d ++ [x]) ++ rest).
  { intros x rest. rewrite <- app_assoc. apply Hout. }
  unfold move, remove_key.
  induction f as [|[k0 n0] f IH]; [reflexivity|]. simpl.
  destruct (key_eqb k0 (d ++ [b])) eqn:Eb; simpl.
  - apply key_eqb_eq in Eb. subst k0.
    assert (E : key_eqb (d ++ [b]) k = false).
    { apply key_eqb_neq. intros H. apply (Hk b []).
      now rewrite app_nil_r. }
    now rewrite E.
  - unfold rekey at 1.
    destruct (strip_prefix (d ++ [a]) k0) as [rest|] eqn:Es.
    + apply strip_prefix_Some in Es. subst k0.
      assert (E1 : key_eqb ((d ++ [b]) ++ rest) k = false).
      { apply key_eqb_neq. intros H. now apply (Hk b rest). }
      assert (E2 : key_eqb ((d ++ [a]) ++ rest) k = false).
      { apply key_eqb_neq. intros H. now apply (Hk a rest). }
      rewrite E1, E2. exact IH.
    + destruct (key_eqb k0 k); [reflexivity | exact IH].
Qed.

Lemma rename_pages_outside (env : Env) (c : Converter) (P : list string) :
  forall (f : FS) (o : list string) (w' : World),
  rename_pages env c P (mkWorld f o) = (Ok tt, w') ->
  forall k, (forall n rest, k <> key env (png_dir c) ++ n :: rest) ->
  find_key (fs w') k = find_key f k.
Proof.
  induction P as [|a P IH]; intros f o w' Hrun k Hout.
  - simpl in Hrun. unfold ret in Hrun. now inversion Hrun.
  - simpl in Hrun. unfold bind in Hrun.
    destruct (rename_page env c a (mkWorld f o)) as [[[]|e] w1] eqn:E1;
      [|discriminate].
    apply rename_page_done in E1.
    destruct (target a) as [b|] eqn:Ea.
    + destruct E1 as [-> Ha]. rewrite (IH _ _ _ Hrun k Hout).
      now apply find_key_move_outside.
    + subst w1. apply (IH _ _ _ Hrun k Hout).
Qed.

Lemma native_page_glob (m : string) (k : N) :
  native_page m = Some k -> fnmatch_star "page-" ".png" m = true.
Proof.
  unfold native_page. now destruct (fnmatch_star "page-" ".png" m).
Qed.

Lemma native_page_target (m : string) :
  fnmatch_star "page-" ".png" m = true ->
  target m = option_map canonical_name (native_page m).
Proof.
  intros H. unfold target, native_page. rewrite H.
  now destruct (Re.search_page m).
Qed.

(** X17. Stage B keeps the images: after a successful run the canonical
    name of page [k] holds the node the rasterizer left under the native
    name of page [k], when one native name only has that page number. *)
Theorem pdf_to_png_keeps_images
    (env : Env) (c : Converter) (w w' : World) (m : string) (k : N) :
  _pdf_to_png env c w = (Ok true, w') ->
  In m (listdir (rasterized env c (fs w)) (key env (png_dir c))) ->
  native_page m = Some k ->
  (forall m', In m' (listdir (rasterized env c (fs w)) (key env (png_dir c))) ->
              native_page m' = Some k -> m' = m) ->
  lookup (fs w') (key env (png_dir c) ++ [canonical_name k])
  = lookup (rasterized env c (fs w)) (key env (png_dir c) ++ [m]).
Proof.
  destruct w as [f o]. intros H Hin Hk Huniq. cbn [fs] in *.
  apply pdf_to_png_done in H as [w2 [Hr ->]]. cbn [fs].
  rewrite !lookup_child.
  pose proof (native_page_glob m k Hk) as Hg.
  apply (rename_pages_content env c _ (native_glob_sorted _) _ _ _ Hr m).
  - apply In_sorted, filter_In. now split.
  - now rewrite native_page_target, Hk.
  - intros m' Hm' Ht. apply In_sorted, filter_In in Hm' as [Hm' Hg'].
    apply Huniq; [assumption|].
    rewrite native_page_target in Ht by assumption.
    destruct (native_page m') as [k'|]; [|discriminate].
    simpl in Ht. inversion Ht as [E]. now rewrite (canonical_name_inj _ _ E).
Qed.

Lemma pdf_to_png_keeps_images_witness :
  lookup (fs (snd (_pdf_to_png Sample.env_no_ocr Sample.report
                     (Sample.start Sample.fs_cover))))
         (Sample.pages_dir ++ ["2.png"])
  = Some (File (Text "image page-2.png") Sample.meta0).
Proof.
  assert (Hrun : _pdf_to_png Sample.env_no_ocr Sample.report
                   (Sample.start Sample.fs_cover)
                 = (Ok true,
                    snd (_pdf_to_png Sample.env_no_ocr Sample.report
                           (Sample.start Sample.fs_cover))))
    by (vm_compute; reflexivity).
  assert (Hkeep := pdf_to_png_keeps_images Sample.env_no_ocr Sample.report
                     _ _ "page-2.png" 2%N Hrun).
  assert (Hin : In "page-2.png"
                  (listdir (rasterized Sample.env_no_ocr Sample.report
                              (fs (Sample.start Sample.fs_cover)))
                           (key Sample.env_no_ocr (png_dir Sample.report))))
    by (vm_compute; tauto).
  assert (Huniq : forall m',
            In m' (listdir (rasterized Sample.env_no_ocr Sample.report
                              (fs (Sample.start Sample.fs_cover)))
                           (key Sample.env_no_ocr (png_dir Sample.report))) ->
            native_page m' = Some 2%N -> m' = "page-2.png").
  { intros m' Hm'. vm_compute in Hm'.
    repeat (destruct Hm' as [<-|Hm']; [vm_compute; congruence|]).
    destruct Hm'. }
  specialize (Hkeep Hin eq_refl Huniq).
  etransitivity; [exact Hkeep|]. vm_compute. reflexivity.
Defined.

(** X18. Stage B works inside the pages directory only: after a successful
    run every path that is not below the pages directory has the node the
    rasterizer left, and so has an entry of the pages directory that is no
    native name with a page number and no canonical name of a page the
    rasterizer left. *)
Theorem pdf_to_png_frame (env : Env) (c : Converter) (w w' : World) :
  _pdf_to_png env c w = (Ok true, w') ->
  (forall k, (forall n rest, k <> key env (png_dir c) ++ n :: rest) ->
             lookup (fs w') k = lookup (rasterized env c (fs w)) k)
  /\ (forall n,
        native_page n = None ->
        (forall m j,
           In m (listdir (rasterized env c (fs w)) (key env (png_dir c))) ->
           native_page m = Some j -> n <> canonical_name j) ->
        lookup (fs w') (key env (png_dir c) ++ [n])
        = lookup (rasterized env c (fs w)) (key env (png_dir c) ++ [n])).
Proof.
  destruct w as [f o]. intros H. cbn [fs] in *.
  apply pdf_to_png_done in H as [w2 [Hr ->]]. cbn [fs]. split.
  - intros [|x k] Hout; [reflexivity|]. unfold lookup.
    apply (rename_pages_outside env c _ _ _ _ Hr). exact Hout.
  - intros n Hn Hfree. rewrite !lookup_child.
    apply (rename_pages_frame env c _ _ _ _ Hr).
    + intros m Hm Ht ->. apply In_sorted, filter_In in Hm as [_ Hg].
      rewrite native_page_target, Hn in Ht by assumption. now apply Ht.
    + intros m Hm Ht. apply In_sorted, filter_In in Hm as [Hm Hg].
      rewrite native_page_target in Ht by assumption.
      destruct (native_page m) as [j|] eqn:Ej; [|discriminate].
      simpl in Ht. inversion Ht as [E]. now apply (Hfree m j Hm Ej).
Qed.

Lemma pdf_to_png_frame_witness :
  lookup (fs (snd (_pdf_to_png Sample.env_no_ocr Sample.report
                     (Sample.start Sample.fs_cover))))
         (Sample.pages_dir ++ ["cover.png"])
  = Some (File (Text "cover") Sample.meta0).
Proof.
  assert (Hrun : _pdf_to_png Sample.env_no_ocr Sample.report
                   (Sample.start Sample.fs_cover)
                 = (Ok true,
                    snd (_pdf_to_png Sample.env_no_ocr Sample.report
                           (Sample.start Sample.fs_cover))))
    by (vm_compute; reflexivity).
  destruct (pdf_to_png_frame _ _ _ _ Hrun) as [_ Hkeep].
  specialize (Hkeep "cover.png" eq_refl).
  etransitivity; [apply Hkeep | vm_compute; reflexivity].
  intros m j Hm. vm_compute in Hm.
  repeat (destruct Hm as [<-|Hm];
          [vm_compute; intros E; inversion E; discriminate|]).
  destruct Hm.
Defined.

Open Scope string_scope.

(* ===================================================================== *)
(** ** The tools and the staged copy *)

Open Scope list_scope.

(** A rename leaves the file system or moves one entry. *)
Lemma rename_any (env : Env) (src dst : Path) (f : FS) (o : list string)
    (r : Result unit) (w' : World) :
  rename env src dst (mkWorld f o) = (r, w') ->
  fs w' = f \/ fs w' = move f (key env src) (key env dst).
Proof.
  unfold rename. run.
  destruct (lookup f (key env src)) as [[d m|]|];
    destruct (lookup f (key env dst)) as [[d' m'|]|]; run;
    try (intros H; inversion H; subst; cbn [fs]; tauto).
  destruct (has_children f (key env dst)); run;
    intros H; inversion H; subst; cbn [fs]; tauto.
Qed.

Lemma rename_page_outside (env : Env) (c : Converter) (m : string)
    (f : FS) (o : list string) (r : Result unit) (w' : World) (k : Key) :
  rename_page env c m (mkWorld f o) = (r, w') ->
  outside (key env (png_dir c)) k ->
  find_key (fs w') k = find_key f k.
Proof.
  unfold rename_page. destruct (Re.search_page m) as [ds|].
  - fold (canonical_name (int_of_digits ds)). rewrite joinpath_canonical.
    intros H Hout. apply rename_any in H as [->| ->]; [reflexivity|].
    rewrite !key_child. now apply find_key_move_outside.
  - unfold ret. intros H _. now inversion H.
Qed.

(** The renaming loop, however it ends, leaves every path that is not
    below the pages directory. *)
Lemma rename_pages_outside_any (env : Env) (c : Converter) (P : list string) :
  forall (w : World) (r : Result unit) (w' : World) (k : Key),
  rename_pages env c P w = (r, w') ->
  outside (key env (png_dir c)) k ->
  find_key (fs w') k = find_key (fs w) k.
Proof.
  induction P as [|a P IH]; intros [f o] r w' k Hrun Hout.
  - simpl in Hrun. unfold ret in Hrun. now inversion Hrun.
  - simpl in Hrun. unfold bind in Hrun.
    destruct (rename_page env c a (mkWorld f o)) as [[[]|e] w1] eqn:E1.
    + rewrite (IH _ _ _ _ Hrun Hout).
      apply (rename_page_outside _ _ _ _ _ _ _ _ E1 Hout).
    + inversion Hrun; subst.
      apply (rename_page_outside _ _ _ _ _ _ _ _ E1 Hout).
Qed.

(** Stage B, however it ends, leaves outside the pages directory what the
    rasterizer has left. *)
Lemma pdf_to_png_outside (env : Env) (c : Converter) (w : World) (k : Key) :
  outside (key env (png_dir c)) k ->
  lookup (fs (snd (_pdf_to_png env c w))) k
  = lookup (rasterized env c (fs w)) k.
Proof.
  intros Hout. destruct k as [|x k]; [reflexivity|]. unfold lookup.
  destruct w as [f o].
  unfold _pdf_to_png, subprocess_run, rasterized, glob.
  destruct (pdftoppm env) as [t|]; run; [|reflexivity].
  destruct (t (pdftoppm_cmd c) f) as [[rc err] f1]. run.
  destruct (rc =? 0)%Z; run; [|reflexivity].
  match goal with
  | |- context [rename_pages env c ?P ?w0] =>
      destruct (rename_pages env c P w0) as [[[]|e] [f2 o2]] eqn:Er;
        apply (rename_pages_outside_any env c P _ _ _ _ Er) in Hout
  end; run.
  - exact Hout.
  - destruct (is_FileNotFoundError e); run; exact Hout.
Qed.

(** The file system Stage C leaves. *)
Lemma run_nougat_fs (env : Env) (c : Converter) (w : World) :
  fs (snd (_run_nougat env c w)) = transcribed env c (fs w).
Proof.
  destruct w as [f o]. unfold transcribed, _run_nougat, run_which.
  destruct (which env) as [look|]; run; [|reflexivity].
  destruct (look "nougat" =? 0)%Z; run; [|reflexivity].
  unfold subprocess_run. destruct (nougat env) as [t|]; run; [|reflexivity].
  destruct (t (nougat_cmd c) f) as [[rc err] f']. run.
  destruct (rc =? 0)%Z; run; unfold glob; run;
    match goal with
    | |- context [filter ?p ?l] => destruct (filter p l); run; reflexivity
    end.
Qed.

(** C10. Stages B and C work on the staged copy.  The rasterizer, when
    there is one, is started on the command line that names
    [assets/in/<name>] as its input, and what Stage B leaves is what that
    run of the rasterizer left: outside the pages directory as it is, and
    in the pages directory with the page files renamed.  The OCR tool, when
    it is resolvable and can be started, is started on the command line
    that names the same staged path, and the file system Stage C leaves is
    the one that run left; otherwise Stage C leaves the file system alone.
    The supplied path plays no part: Stages B, C and D are the same
    functions for any two supplied paths with the same file name, and once
    a staged copy exists so is the whole of [convert], Stage A leaving the
    file system alone, whatever file the user supplied under that name. *)
Theorem pipeline_reads_staged_copy (env : Env) (p q : Path) (w : World) :
  let c := converter_of p in
  let staged := joinpath (Path_of "assets/in") (name p) in
  let cmdB := [ "pdftoppm"; "-png"; "-r"; "150"; str staged;
                "assets/out/png/page" ] in
  let cmdC := [ "nougat"; str staged; "-o"; "assets/out/nougat";
                "--no-skipping" ] in
  let pages := key env (png_dir c) in
  (forall t, pdftoppm env = Some t ->
     (forall k, outside pages k ->
        lookup (fs (snd (_pdf_to_png env c w))) k
        = lookup (snd (t cmdB (fs w))) k)
     /\ (returncode (fst (t cmdB (fs w))) <> 0%Z ->
         fst (_pdf_to_png env c w) = Ok false
         /\ fs (snd (_pdf_to_png env c w)) = snd (t cmdB (fs w)))
     /\ (fst (_pdf_to_png env c w) = Ok true ->
         returncode (fst (t cmdB (fs w))) = 0%Z
         /\ forall n,
              In n (listdir (fs (snd (_pdf_to_png env c w))) pages)
              <-> (In n (listdir (snd (t cmdB (fs w))) pages)
                   /\ native_page n = None)
                  \/ (exists m k,
                        In m (listdir (snd (t cmdB (fs w))) pages)
                        /\ native_page m = Some k /\ n = canonical_name k)))
  /\ (pdftoppm env = None ->
      fst (_pdf_to_png env c w) = Ok false
      /\ fs (snd (_pdf_to_png env c w)) = fs w)
  /\ fs (snd (_run_nougat env c w))
     = match which env, nougat env with
       | Some look, Some t =>
           if (look "nougat" =? 0)%Z then snd (t cmdC (fs w)) else fs w
       | _, _ => fs w
       end
  /\ (name q = name p ->
      _pdf_to_png env (converter_of q) = _pdf_to_png env c
      /\ _run_nougat env (converter_of q) = _run_nougat env c
      /\ _generate_base_rmd env (converter_of q) = _generate_base_rmd env c
      /\ (lookup (fs w) (key env staged) <> None ->
          convert env (converter_of q) w = convert env c w
          /\ fs (snd (_copy_pdf env c w)) = fs w)).
Proof.
  intros c staged cmdB cmdC pages.
  assert (HB : pdftoppm_cmd c = cmdB) by reflexivity.
  assert (HC : nougat_cmd c = cmdC) by reflexivity.
  split; [|split; [|split]].
  - intros t Ht.
    assert (Hr : rasterized env c (fs w) = snd (t cmdB (fs w)))
      by (unfold rasterized; now rewrite Ht, HB).
    assert (Hfail : returncode (fst (t cmdB (fs w))) <> 0%Z ->
                    _pdf_to_png env c w
                    = (Ok false,
                       mkWorld (rasterized env c (fs w))
                         (out w ++ stage_B_intro c
                          ++ rasterizer_report env c (fs w)))).
    { intros Hrc. apply pdf_to_png_fails. unfold rasterizer_fails.
      now rewrite Ht, HB. }
    split; [|split].
    + intros k Hk. rewrite <- Hr. now apply pdf_to_png_outside.
    + intros Hrc. rewrite (Hfail Hrc). split; [reflexivity | exact Hr].
    + intros Hok.
      destruct (Z.eq_dec (returncode (fst (t cmdB (fs w)))) 0) as [E|E];
        [|rewrite (Hfail E) in Hok; discriminate].
      split; [exact E|]. intros n. rewrite <- Hr.
      destruct (_pdf_to_png env c w) as [r w'] eqn:Erun.
      simpl in Hok. subst r. cbn [snd].
      apply (pdf_to_png_names env c w w' n Erun).
  - intros Hnone.
    assert (Hfail : rasterizer_fails env c (fs w))
      by (unfold rasterizer_fails; now rewrite Hnone).
    rewrite (pdf_to_png_fails env c w Hfail). cbn [fst snd fs].
    split; [reflexivity|]. unfold rasterized. now rewrite Hnone.
  - rewrite run_nougat_fs. unfold transcribed. rewrite HC.
    destruct (which env) as [look|]; [|reflexivity].
    destruct (nougat env) as [t|]; [reflexivity|].
    now destruct (look "nougat" =? 0)%Z.
  - intros H. rewrite (converter_same_name p q H).
    split; [reflexivity|]. split; [reflexivity|]. split; [reflexivity|].
    intros Hst. split.
    + rewrite !convert_stages.
      rewrite copy_pdf_staged_any_source by assumption.
      reflexivity.
    + destruct (lookup (fs w) (key env (copied_pdf (converter_of p))))
        as [nd|] eqn:E; [|now elim Hst].
      destruct (copy_pdf_staged env _ w nd E) as [log Hs].
      fold c in Hs. now rewrite Hs.
Qed.

Open Scope string_scope.

(** A run on a tree whose staged copy is older than the supplied file, with
    tools that read the file their command line names: the page image and
    the output document hold what the staged copy held. *)
Lemma pipeline_reads_staged_copy_witness :
  lookup Sample.fs_stale_copy (key Sample.env_reading (pdf_path Sample.report))
  = Some (File (Text "%PDF-1.7") Sample.meta0)
  /\ lookup Sample.fs_stale_copy
            (key Sample.env_reading (copied_pdf Sample.report))
     = Some (File (Text "%PDF-1.4 older") Sample.meta0)
  /\ fst (main Sample.env_reading (Sample.start Sample.fs_stale_copy))
     = Ok 0%Z
  /\ lookup (fs (snd (main Sample.env_reading
                        (Sample.start Sample.fs_stale_copy))))
            (Sample.pages_dir ++ [ "1.png" ])%list
     = Some (File (Text "%PDF-1.4 older") Sample.meta0)
  /\ output_document Sample.env_reading Sample.report
       (fs (snd (main Sample.env_reading (Sample.start Sample.fs_stale_copy))))
     = Some (rmd_header Sample.report ++ transcript_marker
             ++ ("# %PDF-1.4 older") ++ NL)
  /\ fs (snd (_run_nougat Sample.env_reading Sample.report
                (Sample.start Sample.fs_stale_copy)))
     = snd (Sample.ocr_reads
              [ "nougat"; "assets/in/report.pdf"; "-o"; "assets/out/nougat";
                "--no-skipping" ]
              Sample.fs_stale_copy)
  /\ convert Sample.env_reading (converter_of Sample.elsewhere)
       (Sample.start Sample.fs_stale_copy)
     = convert Sample.env_reading Sample.report
         (Sample.start Sample.fs_stale_copy).
Proof.
  pose proof (pipeline_reads_staged_copy Sample.env_reading
                (Path_of "/work/report.pdf") Sample.elsewhere
                (Sample.start Sample.fs_stale_copy)) as H.
  cbv zeta in H. destruct H as [_ [_ [HC Hind]]].
  split; [vm_compute; reflexivity|].
  split; [vm_compute; reflexivity|].
  split; [vm_compute; reflexivity|].
  split; [vm_compute; reflexivity|].
  split; [vm_compute; reflexivity|].
  split; [exact HC|].
  apply (Hind eq_refl). vm_compute. discriminate.
Defined.

(* ===================================================================== *)
(** ** A successful run *)

(** X11. When [main] returns 0 the output document of the validated path
    has been written in full, and it is what the final file system calls
    for.  When the OCR-output directory holds no transcript, it is the
    header followed by the placeholder section with the number of entries
    of the pages directory that end in [.png]; otherwise it is the header,
    the marker and the text read from the first transcript enumerated,
    right-trimmed and ended by one line feed.  The last line printed is the
    closing rule of the summary. *)
Theorem main_success_document (env : Env) (w0 w' : World) :
  main env w0 = (Ok 0%Z, w') ->
  exists q wa,
    get_pdf_input env w0 = (Ok (Some q), wa)
    /\ match entries_with env (fs w') (nougat_out (converter_of q)) ".mmd" with
       | [] =>
           output_document env (converter_of q) (fs w')
           = Some (rmd_header (converter_of q)
                   ++ placeholder_section
                        (List.length
                           (entries_with env (fs w')
                              (png_dir (converter_of q)) ".png")))
       | first :: _ =>
           exists t m,
             lookup (fs w')
                    (key env (child (nougat_out (converter_of q)) first))
             = Some (File (Text t) m)
             /\ output_document env (converter_of q) (fs w')
                = Some (rmd_header (converter_of q) ++ transcript_marker
                        ++ rstrip (universal_newlines t) ++ NL)
       end
    /\ last (out w') "" = times "=" 70.
Proof.
  unfold main. unfold bind at 1.
  destruct (get_pdf_input env w0) as [[[q|]|e] wa] eqn:Hin;
    [|discriminate|discriminate].
  unfold bind. rewrite PDFConverter_as_mkdir_all.
  destruct (mkdir_all env (tree_dirs (converter_of q)) wa) as [[[]|e] w];
    [|discriminate].
  rewrite convert_stages.
  destruct (_copy_pdf env (converter_of q) _) as [[[|]|e] w1];
    try discriminate.
  destruct (_pdf_to_png env (converter_of q) w1) as [[[|]|e] w2];
    try discriminate.
  destruct (_run_nougat env (converter_of q) w2) as [[[|]|e] w3];
    try discriminate.
  destruct (_generate_base_rmd env (converter_of q) w3) as [[[|]|e] w4] eqn:HD;
    try discriminate.
  intros H. inversion H; subst w'. cbn [fs out].
  destruct w3 as [f3 o3].
  pose proof (generate_listing env q f3 o3 w4 HD) as [Hn Hp].
  apply generate_done in HD as [_ [Hother Hcase]].
  exists q, wa. split; [reflexivity|]. split.
  - unfold entries_with in *. rewrite Hn, Hp.
    destruct Hcase as [[Ee Hdoc]|[first [rest [t [m [Ee [El Hdoc]]]]]]];
      rewrite Ee; [exact Hdoc|].
    exists t, m. split; [|exact Hdoc].
    assert (Hne : key env (child (nougat_out (converter_of q)) first)
                  <> key env (rmd_output (converter_of q))).
    { rewrite key_child. intros E.
      pose proof (rmd_not_in_nougat env q) as Hx.
      rewrite <- E, child_name_last in Hx. discriminate. }
    assert (Hk : key env (child (nougat_out (converter_of q)) first) <> []).
    { rewrite key_child. intros E. now apply app_eq_nil in E as [_ E]. }
    rewrite lookup_nonroot in El |- * by assumption.
    now rewrite Hother.
  - unfold summary.
    change (out w4 ++ _)%list with
      (out w4 ++ (removelast (summary (converter_of q)) ++ [times "=" 70]))%list.
    rewrite app_assoc. apply last_last.
Qed.

Lemma main_success_document_witness :
  exists q wa,
    get_pdf_input Sample.env_ocr (Sample.start Sample.fs_fresh)
    = (Ok (Some q), wa)
    /\ output_document Sample.env_ocr (converter_of q)
         (fs (snd (main Sample.env_ocr (Sample.start Sample.fs_fresh))))
       = Some (rmd_header (converter_of q) ++ transcript_marker
               ++ "# Title" ++ NL).
Proof.
  assert (H : main Sample.env_ocr (Sample.start Sample.fs_fresh)
              = (Ok 0%Z,
                 snd (main Sample.env_ocr (Sample.start Sample.fs_fresh))))
    by (vm_compute; reflexivity).
  destruct (main_success_document _ _ _ H) as [q [wa [Hin [Hdoc _]]]].
  exists q, wa. split; [exact Hin|].
  assert (Hq : q = Path_of "/work/report.pdf").
  { assert (E : fst (get_pdf_input Sample.env_ocr
                       (Sample.start Sample.fs_fresh))
                = Ok (Some (Path_of "/work/report.pdf")))
      by (vm_compute; reflexivity).
    rewrite Hin in E. cbn [fst] in E. injection E as E. exact E. }
  subst q.
  assert (Ee : entries_with Sample.env_ocr
                 (fs (snd (main Sample.env_ocr (Sample.start Sample.fs_fresh))))
                 (nougat_out (converter_of (Path_of "/work/report.pdf")))
                 ".mmd"
               = [ "report.mmd" ]) by (vm_compute; reflexivity).
  rewrite Ee in Hdoc. destruct Hdoc as [t [m [El Hdoc]]].
  assert (Et : lookup (fs (snd (main Sample.env_ocr
                                  (Sample.start Sample.fs_fresh))))
                 (key Sample.env_ocr
                    (child (nougat_out (converter_of (Path_of "/work/report.pdf")))
                       "report.mmd"))
               = Some (File (Text ("# Title" ++ NL ++ "  " ++ NL))
                            Sample.meta0)) by (vm_compute; reflexivity).
  rewrite Et in El. injection El as Et' Em. subst t m.
  etransitivity; [exact Hdoc|]. vm_compute. reflexivity.
Defined.
